(** * Order, inventory and review workflows of the commerce backend

    A shallow embedding of the service layer
    ([InventoryService], [OrderService], [ReviewService]), of the
    [OrderController.createOrder] request handler and of the Sequelize models
    they write through, followed by the properties of the workflow
    specification that were checked against it.

    Conventions of the embedding:
    - integers of the source (ids, quantities) are [Z];
    - the amounts that the code computes ([price * quantity], the order
      total) are JavaScript numbers, that is binary64 floats, and are kept as
      such ([number]); a product's price is the decimal its DECIMAL(10,2)
      column holds, an exact count of hundredths, and is read as the number
      nearest to it;
    - a database is a record of tables; a table addressed by a unique key is a
      [gmap], a table that is scanned is a list in insertion order;
    - a service method is a computation in the monad [M], which threads the
      database and may throw; [sequelize_transaction] restores the database
      that was current when the transaction started whenever its body throws;
    - a query issued without the [transaction] option runs on the default
      connection and reads the committed database, which the embedding passes
      around explicitly as [s0]. *)

From Stdlib Require Import ZArith Lia.
From Stdlib Require PrimFloat Uint63.
From stdpp Require Import base option list gmap strings pretty.

Local Open Scope Z_scope.

(** ** JavaScript numbers and strings *)

(** A JavaScript number that need not be an integer. *)
Definition number : Type := PrimFloat.float.

(** The number of an integer, exact below 2^53 in absolute value. *)
Definition number_of_Z (z : Z) : number :=
  if z <? 0 then PrimFloat.opp (PrimFloat.of_uint63 (Uint63.of_Z (- z)))
  else PrimFloat.of_uint63 (Uint63.of_Z z).

(** The number read from a DECIMAL(10,2) column that holds
    [hundredths / 100]: the float nearest to that decimal. *)
Definition number_of_hundredths (hundredths : Z) : number :=
  PrimFloat.div (number_of_Z hundredths) (number_of_Z 100).

(** [!x] for a number: 0, -0 and NaN are falsy. *)
Definition number_falsy (x : number) : bool :=
  PrimFloat.eqb x (number_of_Z 0) || PrimFloat.is_nan x.

(** The validators [min: 0, isDecimal: true] on a number.  NaN fails the
    first; the second reads the number as JavaScript prints it, which is a
    plain decimal for 0 and from 1e-6 up to, not including, 1e21. *)
Definition number_min_0 (x : number) : bool := PrimFloat.leb (number_of_Z 0) x.

Definition number_isDecimal (x : number) : bool :=
  PrimFloat.eqb x (number_of_Z 0)
  || (PrimFloat.leb (PrimFloat.div (number_of_Z 1) (number_of_Z 1000000))
        (PrimFloat.abs x)
      && PrimFloat.ltb (PrimFloat.abs x)
           (PrimFloat.mul (number_of_Z 1000000000000000000) (number_of_Z 1000))).

(** The length that the validator [len] measures: the characters of the
    string.  A [string] here is the UTF-8 encoding, so the characters are the
    bytes that do not continue a sequence (those not of the form 10xxxxxx). *)
Fixpoint length_in_characters (s : string) : Z :=
  match s with
  | EmptyString => 0
  | String c rest =>
      (if Nat.eqb (Nat.land (Ascii.nat_of_ascii c) 192) 128 then 0 else 1)
      + length_in_characters rest
  end.

(** ** Errors (utils/errors.js and the errors raised below the services) *)

Inductive js_error : Type :=
  | ValidationError (message : string)
  | NotFoundError (message : string)
  | ConflictError (message : string)
  | BusinessLogicError (message : string)
  (* raised by Sequelize when a model validator rejects a value *)
  | SequelizeValidationError
  (* raised by the store when a CHECK constraint rejects a row *)
  | SequelizeDatabaseError
  (* [new Error(message)] thrown by a model hook or by Sequelize itself *)
  | JsError (message : string)
  (* [new Error(prefix + error.message)] built in a catch block *)
  | PlainError (prefix : string) (cause : js_error).

Definition is_ValidationError (e : js_error) : bool :=
  match e with ValidationError _ => true | _ => false end.
Definition is_NotFoundError (e : js_error) : bool :=
  match e with NotFoundError _ => true | _ => false end.
Definition is_ConflictError (e : js_error) : bool :=
  match e with ConflictError _ => true | _ => false end.
Definition is_BusinessLogicError (e : js_error) : bool :=
  match e with BusinessLogicError _ => true | _ => false end.

Inductive result (A : Type) : Type :=
  | Ok (a : A)
  | Throw (e : js_error).
Arguments Ok {A} a.
Arguments Throw {A} e.

(** ** Data model (models/*.js) *)

Record Product : Type := mkProduct {
  product_name : string;
  price : Z
}.

Record Inventory : Type := mkInventory {
  quantity : Z;
  min_stock : Z;
  max_stock : Z
}.

Inductive order_status : Type :=
  pending | confirmed | shipped | delivered | cancelled.

Inductive payment_state : Type :=
  payment_pending | paid | failed | refunded.

Record Order : Type := mkOrder {
  order_user_id : Z;
  status : order_status;
  payment_status : payment_state;
  total_amount : number;
  shipping_address : string;
  billing_address : string
}.

Record OrderItem : Type := mkOrderItem {
  order_id : Z;
  item_product_id : Z;
  item_quantity : Z;
  unit_price : number;
  total_price : number
}.

Record Review : Type := mkReview {
  review_product_id : Z;
  review_user_id : Z;
  rating : Z;
  comment : option string;
  is_verified_purchase : bool
}.

(** The tables.  [inventory] is keyed by [product_id], which the Inventory
    model declares unique; [orders] and [products] by primary key.  The
    columns that no workflow below reads (order_number, sku, description,
    image, the ids of order items, the timestamps) are not kept in the rows;
    the check that [Order.create] makes on order_number is in
    [OrderModels.Order_create]. *)
Record db : Type := mkDb {
  users : gset Z;
  products : gmap Z Product;
  inventory : gmap Z Inventory;
  orders : gmap Z Order;
  next_order_id : Z;
  order_items : list OrderItem;
  reviews : list (Z * Review);
  next_review_id : Z
}.

Definition set_inventory (f : gmap Z Inventory → gmap Z Inventory) (s : db) : db :=
  mkDb (users s) (products s) (f (inventory s)) (orders s) (next_order_id s)
       (order_items s) (reviews s) (next_review_id s).

Definition set_orders (f : gmap Z Order → gmap Z Order) (s : db) : db :=
  mkDb (users s) (products s) (inventory s) (f (orders s)) (next_order_id s)
       (order_items s) (reviews s) (next_review_id s).

Definition set_products (f : gmap Z Product → gmap Z Product) (s : db) : db :=
  mkDb (users s) (f (products s)) (inventory s) (orders s) (next_order_id s)
       (order_items s) (reviews s) (next_review_id s).

Definition set_reviews (f : list (Z * Review) → list (Z * Review)) (s : db) : db :=
  mkDb (users s) (products s) (inventory s) (orders s) (next_order_id s)
       (order_items s) (f (reviews s)) (next_review_id s).

Definition set_quantity (q : Z) (inv : Inventory) : Inventory :=
  mkInventory q (min_stock inv) (max_stock inv).

(** ** The monad of service computations *)

Definition M (A : Type) : Type := db → result A * db.

Definition ret {A} (a : A) : M A := λ s, (Ok a, s).

Definition throw {A} (e : js_error) : M A := λ s, (Throw e, s).

Definition bind {A B} (m : M A) (k : A → M B) : M B := λ s,
  match m s with
  | (Ok a, s') => k a s'
  | (Throw e, s') => (Throw e, s')
  end.

Definition get : M db := λ s, (Ok s, s).

Definition put (s' : db) : M unit := λ _, (Ok tt, s').

Notation "x <- m ;; k" := (bind m (λ x, k))
  (at level 100, m at next level, right associativity).
Notation "m ;;; k" := (bind m (λ _, k))
  (at level 100, right associativity).

(** [if (cond) throw e;] *)
(** A call that reads the committed database and returns or throws. *)
Definition lift {A} (r : result A) : M A :=
  match r with Ok a => ret a | Throw e => throw e end.

Definition throw_if (cond : bool) (e : js_error) : M unit :=
  if cond then throw e else ret tt.

(** [for (const x of xs) { await body(x) }] *)
Fixpoint for_of {A} (xs : list A) (body : A → M unit) : M unit :=
  match xs with
  | [] => ret tt
  | x :: xs' => body x ;;; for_of xs' body
  end.

(** [try { m } catch (error) { if (error instanceof ...) throw error;
    throw new Error(prefix + error.message) }] *)
Definition catch_rethrow {A} (typed : js_error → bool) (prefix : string)
    (m : M A) : M A := λ s,
  match m s with
  | (Ok a, s') => (Ok a, s')
  | (Throw e, s') => (Throw (if typed e then e else PlainError prefix e), s')
  end.

(** [const transaction = await sequelize.transaction(); try { body; await
    transaction.commit(); after } catch (error) { await transaction.rollback();
    ... }]: the writes of [body] are kept when it returns and dropped when it
    throws; [after] runs once the transaction is committed, and a throw there
    reaches a [rollback] that Sequelize refuses on a finished transaction. *)
Definition sequelize_transaction {A B} (typed : js_error → bool) (prefix : string)
    (body : db → M A) (after : A → M B) : M B := λ s0,
  match body s0 s0 with
  | (Ok a, s1) =>
      match after a s1 with
      | (Ok b, s2) => (Ok b, s2)
      | (Throw _, s2) =>
          (Throw (JsError "Transaction cannot be rolled back because it has been finished with state: commit"), s2)
      end
  | (Throw e, _) => (Throw (if typed e then e else PlainError prefix e), s0)
  end.

(** ** Model layer: validators, hooks and the writes the services issue *)

Module Models.

(** Inventory.quantity: [validate: { isInt: true, min: 0 }]. *)
Definition Inventory_quantity_valid (q : Z) : bool := 0 <=? q.

(** [inventory.update({ quantity: q })] on an instance read for [productId]:
    the updated field is validated, then the row is written. *)
Definition Inventory_instance_update (productId : Z) (inv : Inventory) (q : Z)
    : M unit :=
  if Inventory_quantity_valid q
  then s <- get ;; put (set_inventory (insert productId (set_quantity q inv)) s)
  else throw SequelizeValidationError.

(** [Inventory.update({ quantity: sequelize.literal(expr) }, { where:
    { product_id } , transaction })]: a literal is not validated by the
    model; the statement updates the matching row, if any, and is rejected by
    the store when the new value breaks CHECK (quantity >= 0). *)
Definition Inventory_update_literal (productId : Z) (expr : Z → Z) : M unit :=
  s <- get ;;
  match inventory s !! productId with
  | None => ret tt
  | Some inv =>
      let q := expr (quantity inv) in
      if 0 <=? q
      then put (set_inventory (insert productId (set_quantity q inv)) s)
      else throw SequelizeDatabaseError
  end.

(** Inventory.min_stock: [min: 0]; Inventory.max_stock: [min: 1]. *)
Definition Inventory_limits_valid (lo hi : Z) : bool := (0 <=? lo) && (1 <=? hi).

(** [inventory.update({ min_stock, max_stock })]: both fields are validated,
    then the [beforeUpdate] hook compares them when one of them changed, then
    the row is written. *)
Definition Inventory_instance_update_limits (productId : Z) (inv : Inventory)
    (lo hi : Z) : M unit :=
  if Inventory_limits_valid lo hi then
    if (negb (lo =? min_stock inv) || negb (hi =? max_stock inv)) && (hi <=? lo)
    then throw (JsError "El stock maximo debe ser mayor al stock minimo")
    else s <- get ;;
         put (set_inventory (insert productId (mkInventory (quantity inv) lo hi)) s)
  else throw SequelizeValidationError.

(** [Inventory.prototype.hasStock], [isLowStock], [isOutOfStock],
    [getStockStatus]. *)
Definition hasStock (inv : Inventory) (requiredQuantity : Z) : bool :=
  requiredQuantity <=? quantity inv.

Definition isLowStock (inv : Inventory) : bool := quantity inv <=? min_stock inv.

Definition isOutOfStock (inv : Inventory) : bool := quantity inv =? 0.

Definition getStockStatus (inv : Inventory) : string :=
  if isOutOfStock inv then "agotado"
  else if isLowStock inv then "bajo"
  else "disponible".

(** [Inventory.prototype.reduceStock(quantity)] on the instance of
    [productId]: [this.save()] validates and writes the changed quantity. *)
Definition reduceStock (productId : Z) (inv : Inventory) (quantity_ : Z)
    : M Inventory :=
  throw_if (quantity inv <? quantity_) (JsError "Stock insuficiente") ;;;
  Inventory_instance_update productId inv (quantity inv - quantity_) ;;;
  ret (set_quantity (quantity inv - quantity_) inv).

(** [Inventory.prototype.addStock(quantity)] *)
Definition addStock (productId : Z) (inv : Inventory) (quantity_ : Z)
    : M Inventory :=
  throw_if (max_stock inv <? quantity inv + quantity_)
    (JsError "La cantidad excede el stock maximo permitido") ;;;
  Inventory_instance_update productId inv (quantity inv + quantity_) ;;;
  ret (set_quantity (quantity inv + quantity_) inv).

End Models.

(** ** services/InventoryService *)

Module InventoryService.
Import Models.

Definition getInventoryByProductId (productId : Z) : M Inventory :=
  catch_rethrow is_NotFoundError "Error al obtener inventario: "
    (s <- get ;;
     match inventory s !! productId with
     | None => throw (NotFoundError "Inventario no encontrado para este producto")
     | Some inv => ret inv
     end).

Definition updateStock (productId quantity_ : Z) (operation : string)
    : M Inventory :=
  catch_rethrow
    (λ e, is_NotFoundError e || is_BusinessLogicError e || is_ValidationError e)
    "Error al actualizar stock: "
    (s <- get ;;
     match inventory s !! productId with
     | None => throw (NotFoundError "Inventario no encontrado para este producto")
     | Some inv =>
         newQuantity <-
           (if String.eqb operation "add" then ret (quantity inv + quantity_)
            else if String.eqb operation "subtract" then
              let newQuantity := quantity inv - quantity_ in
              throw_if (newQuantity <? 0)
                (BusinessLogicError "No hay suficiente stock disponible") ;;;
              ret newQuantity
            else if String.eqb operation "set" then ret quantity_
            else throw (ValidationError "Operacion invalida")) ;;
         Inventory_instance_update productId inv newQuantity ;;;
         getInventoryByProductId productId
     end).

Definition reserveStock (productId quantity_ : Z) : M Inventory :=
  catch_rethrow (λ e, is_NotFoundError e || is_BusinessLogicError e)
    "Error al reservar stock: "
    (s <- get ;;
     match inventory s !! productId with
     | None => throw (NotFoundError "Inventario no encontrado para este producto")
     | Some inv =>
         throw_if (quantity inv <? quantity_)
           (BusinessLogicError
              ("Stock insuficiente. Disponible: " +:+ pretty (quantity inv)
               +:+ ", Solicitado: " +:+ pretty quantity_)) ;;;
         Inventory_instance_update productId inv (quantity inv - quantity_) ;;;
         getInventoryByProductId productId
     end).

Definition releaseStock (productId quantity_ : Z) : M Inventory :=
  catch_rethrow is_NotFoundError "Error al liberar stock: "
    (s <- get ;;
     match inventory s !! productId with
     | None => throw (NotFoundError "Inventario no encontrado para este producto")
     | Some inv =>
         Inventory_instance_update productId inv (quantity inv + quantity_) ;;;
         getInventoryByProductId productId
     end).

Definition processInventoryAdjustment (productId adjustment : Z) (reason : string)
    : M Inventory :=
  catch_rethrow (λ e, is_NotFoundError e || is_BusinessLogicError e)
    "Error al procesar ajuste de inventario: "
    (s <- get ;;
     match inventory s !! productId with
     | None => throw (NotFoundError "Inventario no encontrado para este producto")
     | Some inv =>
         let newQuantity := quantity inv + adjustment in
         throw_if (newQuantity <? 0)
           (BusinessLogicError "El ajuste resultaria en stock negativo") ;;;
         Inventory_instance_update productId inv newQuantity ;;;
         getInventoryByProductId productId
     end).

(** [{ min_stock, max_stock }] *)
Record StockLimits : Type := mkStockLimits {
  limit_min_stock : Z;
  limit_max_stock : Z
}.

Definition updateStockLimits (productId : Z) (limits : StockLimits) : M Inventory :=
  catch_rethrow (λ e, is_NotFoundError e || is_ValidationError e)
    "Error al actualizar limites de stock: "
    (throw_if (limit_max_stock limits <=? limit_min_stock limits)
       (ValidationError "El stock minimo debe ser menor al stock maximo") ;;;
     s <- get ;;
     match inventory s !! productId with
     | None => throw (NotFoundError "Inventario no encontrado para este producto")
     | Some inv =>
         Inventory_instance_update_limits productId inv
           (limit_min_stock limits) (limit_max_stock limits) ;;;
         getInventoryByProductId productId
     end).

(** One entry of the list that [checkStockAvailability] returns.  For a
    product without inventory the object literal of the source gives the key
    [available] twice, so the entry holds [available: false] ([None] here) and
    no [inStock] key. *)
Record AvailabilityEntry : Type := mkAvailabilityEntry {
  entry_product_id : Z;
  entry_product_name : string;
  entry_requested : Z;
  entry_available : option Z;
  entry_inStock : option bool;
  entry_message : string
}.

Record AvailabilityReport : Type := mkAvailabilityReport {
  allAvailable : bool;
  report_items : list AvailabilityEntry
}.

(** The loop of [checkStockAvailability], with its two accumulators; the
    items are [(product_id, quantity)] pairs.  [inventory.product.name] throws
    a TypeError when the joined product is null. *)
Fixpoint checkStockAvailability_loop (s : db) (items : list (Z * Z))
    (results : list AvailabilityEntry) (allAvailable_ : bool)
    : result AvailabilityReport :=
  match items with
  | [] => Ok (mkAvailabilityReport allAvailable_ results)
  | (productId, quantity_) :: rest =>
      match inventory s !! productId with
      | None =>
          checkStockAvailability_loop s rest
            (results ++ [mkAvailabilityEntry productId "Producto no encontrado"
                           quantity_ None None "Producto no encontrado"])
            false
      | Some inv =>
          let available := quantity_ <=? quantity inv in
          match products s !! productId with
          | None => Throw (JsError "Cannot read properties of null (reading 'name')")
          | Some product =>
              checkStockAvailability_loop s rest
                (results ++ [mkAvailabilityEntry productId (product_name product)
                               quantity_ (Some (quantity inv)) (Some available)
                               (if available then "Stock disponible"
                                else "Stock insuficiente. Disponible: "
                                     +:+ pretty (quantity inv))])
                (if available then allAvailable_ else false)
          end
      end
  end.

Definition checkStockAvailability (items : list (Z * Z)) : M AvailabilityReport :=
  catch_rethrow (λ _, false) "Error al verificar disponibilidad de stock: "
    (s <- get ;;
     match checkStockAvailability_loop s items [] true with
     | Ok report => ret report
     | Throw e => throw e
     end).

End InventoryService.

(** ** Order and order-item models *)

Module OrderModels.

(** [validate: { len: [10, 1000], notEmpty: true }] with [allowNull: false];
    [None] is an address the caller left undefined. *)
Definition address_valid (a : option string) : bool :=
  match a with
  | None => false
  | Some a =>
      (10 <=? length_in_characters a) && (length_in_characters a <=? 1000)
  end.

(** Order.order_number: [allowNull: false], [validate: { len: [5, 50],
    notEmpty: true }]; [None] is a number the caller did not give. *)
Definition order_number_valid (order_number : option string) : bool :=
  match order_number with
  | None => false
  | Some n => (5 <=? length_in_characters n) && (length_in_characters n <=? 50)
  end.

(** [Order.create({ user_id, total_amount, shipping_address,
    billing_address, status: 'pending', payment_status: 'pending' },
    { transaction })], for values with or without an order_number.  Sequelize
    validates the instance first and runs the [beforeCreate] hook afterwards,
    so order_number, which the hook draws when the caller gives none, is
    checked while it is still missing; the other validators are user_id
    [min: 1], total_amount [min: 0, isDecimal] and the two addresses.  A valid
    instance passes the hook unchanged and is inserted under the next
    autoincrement id. *)
Definition Order_create (order_number : option string) (user_id : Z)
    (totalAmount : number) (shipping billing : option string) : M Z :=
  if order_number_valid order_number
     && (1 <=? user_id)
     && number_min_0 totalAmount && number_isDecimal totalAmount
     && address_valid shipping && address_valid billing
  then
    s <- get ;;
    let id := next_order_id s in
    let row := mkOrder user_id pending payment_pending totalAmount
                 (default "" shipping) (default "" billing) in
    put (mkDb (users s) (products s) (inventory s) (<[id := row]> (orders s))
           (id + 1) (order_items s) (reviews s) (next_review_id s)) ;;;
    ret id
  else throw SequelizeValidationError.

(** The [beforeCreate] hook of OrderItem: a missing (falsy) total is
    recomputed from the unit price. *)
Definition OrderItem_beforeCreate (it : OrderItem) : OrderItem :=
  if number_falsy (total_price it)
  then mkOrderItem (order_id it) (item_product_id it) (item_quantity it)
         (unit_price it)
         (PrimFloat.mul (unit_price it) (number_of_Z (item_quantity it)))
  else it.

(** [OrderItem.create(it, { transaction })]: order_id, product_id and
    quantity [min: 1], unit_price and total_price [min: 0, isDecimal]; then
    the hook, then the insert. *)
Definition OrderItem_create (it : OrderItem) : M OrderItem :=
  if (1 <=? order_id it) && (1 <=? item_product_id it) && (1 <=? item_quantity it)
     && number_min_0 (unit_price it) && number_isDecimal (unit_price it)
     && number_min_0 (total_price it) && number_isDecimal (total_price it)
  then
    s <- get ;;
    let row := OrderItem_beforeCreate it in
    put (mkDb (users s) (products s) (inventory s) (orders s) (next_order_id s)
           (order_items s ++ [row]) (reviews s) (next_review_id s)) ;;;
    ret row
  else throw SequelizeValidationError.

(** [OrderItem.findAll({ where: { order_id } })] *)
Definition OrderItem_findAll (s : db) (orderId : Z) : list OrderItem :=
  filter (λ it, order_id it = orderId) (order_items s).

(** [order.update(values, { transaction })] on the instance read by primary
    key; the values written are members of the column enums. *)
Definition Order_instance_update (orderId : Z) (f : Order → Order) : M unit :=
  s <- get ;; put (set_orders (alter f orderId) s).

(** [Order.prototype.canBeCancelled] *)
Definition canBeCancelled (o : Order) : bool :=
  match status o with
  | pending | confirmed => true
  | shipped | delivered | cancelled => false
  end.

Definition set_status (st : order_status) (o : Order) : Order :=
  mkOrder (order_user_id o) st (payment_status o) (total_amount o)
    (shipping_address o) (billing_address o).

Definition set_status_and_payment (st : order_status) (p : payment_state)
    (o : Order) : Order :=
  mkOrder (order_user_id o) st p (total_amount o)
    (shipping_address o) (billing_address o).

End OrderModels.

(** ** services/OrderService *)

Module OrderService.
Import Models OrderModels.

Record OrderData : Type := mkOrderData {
  od_user_id : Z;
  od_shipping_address : option string;
  od_billing_address : option string
}.

(** A requested line: [{ product_id, quantity }]; its quantity is named
    [requested] here, [quantity] being the column of the inventory. *)
Record Item : Type := mkItem {
  product_id : Z;
  requested : Z
}.

(** An order item as [getOrderById] includes it: [attributes: ['id',
    'quantity', 'unit_price', 'total_price', 'created_at']], of which the rows
    here keep the middle three. *)
Record OrderItemView : Type := mkOrderItemView {
  view_quantity : Z;
  view_unit_price : number;
  view_total_price : number
}.

Definition item_view (it : OrderItem) : OrderItemView :=
  mkOrderItemView (item_quantity it) (unit_price it) (total_price it).

(** What [getOrderById(id, { includeItems: true })] returns. *)
Record OrderView : Type := mkOrderView {
  view_id : Z;
  view_order : Order;
  orderItems : list OrderItemView
}.

Record StockValidation : Type := mkStockValidation {
  available : bool;
  unavailableItems : list string
}.

(** [names.join(', ')] *)
Fixpoint join (sep : string) (names : list string) : string :=
  match names with
  | [] => ""
  | [n] => n
  | n :: rest => n +:+ sep +:+ join sep rest
  end.

Definition is_typed (e : js_error) : bool :=
  is_ValidationError e || is_NotFoundError e || is_ConflictError e
  || is_BusinessLogicError e.

Definition getOrderById (orderId : Z) : M OrderView :=
  catch_rethrow is_NotFoundError "Error al obtener pedido: "
    (s <- get ;;
     match orders s !! orderId with
     | None => throw (NotFoundError "Pedido no encontrado")
     | Some order =>
         ret (mkOrderView orderId order (map item_view (OrderItem_findAll s orderId)))
     end).

(** The name pushed for an item that cannot be served. *)
Definition unavailable_name (s : db) (item : Item) : string :=
  match products s !! product_id item with
  | Some product => product_name product
  | None => "Producto ID " +:+ pretty (product_id item)
  end.

Definition item_unavailable (s : db) (item : Item) : bool :=
  match inventory s !! product_id item with
  | None => true
  | Some inv => quantity inv <? requested item
  end.

Definition validateStockAvailability (s : db) (items : list Item)
    : StockValidation :=
  let unavailable :=
    map (unavailable_name s) (filter (λ item, item_unavailable s item = true) items) in
  mkStockValidation (bool_decide (unavailable = [])) unavailable.

(** The loop of [calculateOrderTotal], from the running total:
    [total += product.price * item.quantity], on numbers. *)
Fixpoint calculateOrderTotal_from (s : db) (items : list Item) (total : number)
    : result number :=
  match items with
  | [] => Ok total
  | item :: rest =>
      match products s !! product_id item with
      | None =>
          Throw (NotFoundError
                   ("Producto con ID " +:+ pretty (product_id item) +:+ " no encontrado"))
      | Some product =>
          calculateOrderTotal_from s rest
            (PrimFloat.add total
               (PrimFloat.mul (number_of_hundredths (price product))
                  (number_of_Z (requested item))))
      end
  end.

Definition calculateOrderTotal (s : db) (items : list Item) : result number :=
  calculateOrderTotal_from s items (number_of_Z 0).

(** The body of the loop of [createOrder] for one item; the product is read
    on the default connection, the two writes go through the transaction. *)
Definition createOrder_item (s0 : db) (orderId : Z) (item : Item) : M unit :=
  match products s0 !! product_id item with
  | None =>
      throw (NotFoundError
               ("Producto con ID " +:+ pretty (product_id item) +:+ " no encontrado"))
  | Some product =>
      OrderItem_create
        (mkOrderItem orderId (product_id item) (requested item)
           (number_of_hundredths (price product))
           (PrimFloat.mul (number_of_hundredths (price product))
              (number_of_Z (requested item)))) ;;;
      Inventory_update_literal (product_id item) (λ q, q - requested item)
  end.

(** [createOrder(orderData, items)]; [items = None] is a call that leaves
    the second argument undefined.  The values handed to [Order.create] hold
    no order_number. *)
Definition createOrder_body (orderData : OrderData) (items : option (list Item))
    (s0 : db) : M Z :=
  throw_if (bool_decide (od_user_id orderData ∉ users s0))
    (NotFoundError "Usuario no encontrado") ;;;
  throw_if (match items with None | Some [] => true | _ => false end)
    (ValidationError "El pedido debe contener al menos un item") ;;;
  let items := default [] items in
  let stockValidation := validateStockAvailability s0 items in
  throw_if (negb (available stockValidation))
    (BusinessLogicError
       ("Stock insuficiente para: "
        +:+ join ", " (unavailableItems stockValidation))) ;;;
  totalAmount <- lift (calculateOrderTotal s0 items) ;;
  orderId <- Order_create None (od_user_id orderData) totalAmount
               (od_shipping_address orderData) (od_billing_address orderData) ;;
  for_of items (createOrder_item s0 orderId) ;;;
  ret orderId.

Definition createOrder (orderData : OrderData) (items : option (list Item))
    : M OrderView :=
  sequelize_transaction is_typed "Error al crear pedido: "
    (createOrder_body orderData items) getOrderById.

(** [releaseOrderStock(orderId, transaction)] *)
Definition releaseOrderStock (orderId : Z) : M unit :=
  s <- get ;;
  for_of (OrderItem_findAll s orderId)
    (λ item, Inventory_update_literal (item_product_id item)
               (λ q, q + item_quantity item)).

(** [validStatuses.includes(newStatus)], with the matching enum member. *)
Definition parse_status (newStatus : string) : option order_status :=
  if String.eqb newStatus "pending" then Some pending
  else if String.eqb newStatus "confirmed" then Some confirmed
  else if String.eqb newStatus "shipped" then Some shipped
  else if String.eqb newStatus "delivered" then Some delivered
  else if String.eqb newStatus "cancelled" then Some cancelled
  else None.

Definition status_eqb (a b : order_status) : bool :=
  match a, b with
  | pending, pending | confirmed, confirmed | shipped, shipped
  | delivered, delivered | cancelled, cancelled => true
  | _, _ => false
  end.

Definition updateOrderStatus (orderId : Z) (newStatus : string) : M OrderView :=
  sequelize_transaction
    (λ e, is_ValidationError e || is_NotFoundError e || is_BusinessLogicError e)
    "Error al actualizar estado del pedido: "
    (λ s0,
       s <- get ;;
       match orders s !! orderId with
       | None => throw (NotFoundError "Pedido no encontrado")
       | Some order =>
           match parse_status newStatus with
           | None => throw (ValidationError "Estado de pedido invalido")
           | Some st =>
               (if status_eqb st cancelled && negb (status_eqb (status order) cancelled)
                then releaseOrderStock orderId else ret tt) ;;;
               (if status_eqb st confirmed && status_eqb (status order) pending
                then
                  s' <- get ;;
                  let stockValidation :=
                    validateStockAvailability s0
                      (map (λ it, mkItem (item_product_id it) (item_quantity it))
                         (OrderItem_findAll s' orderId)) in
                  throw_if (negb (available stockValidation))
                    (BusinessLogicError "Stock insuficiente para confirmar el pedido")
                else ret tt) ;;;
               Order_instance_update orderId (set_status st)
           end
       end)
    (λ _, getOrderById orderId).

Definition cancelOrder (orderId : Z) : M OrderView :=
  sequelize_transaction is_typed "Error al cancelar pedido: "
    (λ _,
       s <- get ;;
       match orders s !! orderId with
       | None => throw (NotFoundError "Pedido no encontrado")
       | Some order =>
           throw_if (status_eqb (status order) cancelled)
             (ConflictError "El pedido ya esta cancelado") ;;;
           throw_if (status_eqb (status order) delivered)
             (BusinessLogicError "No se puede cancelar un pedido ya entregado") ;;;
           releaseOrderStock orderId ;;;
           Order_instance_update orderId (set_status_and_payment cancelled refunded)
       end)
    (λ _, getOrderById orderId).

End OrderService.

(** ** controllers/OrderController: the handler of POST /orders *)

Module OrderController.
Import OrderService.

(** The JSON body.  A number is falsy when it is 0 (a missing field is
    modelled by 0 as well); [rb_items = None] is an [items] field that is
    missing or is not an array. *)
Record RequestBody : Type := mkRequestBody {
  rb_user_id : Z;
  rb_items : option (list Item);
  rb_shipping_address : option string;
  rb_notes : option string
}.

Record Response : Type := mkResponse {
  http_status : Z;
  success : bool;
  response_error : option string;
  response_data : option OrderView
}.

Definition item_invalid (item : Item) : bool :=
  (product_id item =? 0) || (requested item =? 0) || (requested item <=? 0).

Definition createOrder (body : RequestBody) : db → Response * db := λ s,
  let attempt : M OrderView :=
    throw_if
      ((rb_user_id body =? 0)
       || match rb_items body with None | Some [] => true | _ => false end)
      (ValidationError "Usuario y items son requeridos") ;;;
    throw_if (existsb item_invalid (default [] (rb_items body)))
      (ValidationError "Cada item debe tener product_id y quantity valida") ;;;
    (* orderData carries the items; the service is called with it alone *)
    OrderService.createOrder
      (mkOrderData (rb_user_id body)
         (Some (default "" (rb_shipping_address body))) None)
      None in
  match attempt s with
  | (Ok order, s') => (mkResponse 201 true None (Some order), s')
  | (Throw (ValidationError message), s') =>
      (mkResponse 400 false (Some message) None, s')
  | (Throw (BusinessLogicError message), s') =>
      (mkResponse 400 false (Some message) None, s')
  | (Throw _, s') =>
      (mkResponse 500 false (Some "Error interno del servidor") None, s')
  end.

(** Mapping of a service outcome by the catch blocks of [updateOrderStatus]
    and [cancelOrder]: ValidationError 400, NotFoundError 404,
    BusinessLogicError 400, anything else 500. *)
Definition respond (outcome : result OrderView * db) : Response * db :=
  match outcome with
  | (Ok order, s') => (mkResponse 200 true None (Some order), s')
  | (Throw (ValidationError message), s') =>
      (mkResponse 400 false (Some message) None, s')
  | (Throw (NotFoundError message), s') =>
      (mkResponse 404 false (Some message) None, s')
  | (Throw (BusinessLogicError message), s') =>
      (mkResponse 400 false (Some message) None, s')
  | (Throw _, s') =>
      (mkResponse 500 false (Some "Error interno del servidor") None, s')
  end.

(** The status names the handler accepts; 'processing' is among them. *)
Definition validStatuses : list string :=
  ["pending"; "confirmed"; "processing"; "shipped"; "delivered"; "cancelled"].

(** PUT /orders/:id/status.  [id = None] is a path parameter that
    [parseInt] does not read as a number; an empty [status] is a missing
    one. *)
Definition updateOrderStatus (id : option Z) (status_ : string)
    : db → Response * db := λ s,
  respond
    ((throw_if (bool_decide (id = None)) (ValidationError "ID de pedido invalido") ;;;
      throw_if (String.eqb status_ "") (ValidationError "Estado es requerido") ;;;
      throw_if (negb (bool_decide (status_ ∈ validStatuses)))
        (ValidationError "Estado invalido") ;;;
      OrderService.updateOrderStatus (default 0 id) status_) s).

(** The cancellation handler. *)
Definition cancelOrder (id : option Z) : db → Response * db := λ s,
  respond
    ((throw_if (bool_decide (id = None)) (ValidationError "ID de pedido invalido") ;;;
      OrderService.cancelOrder (default 0 id)) s).

End OrderController.

(** ** Review and product models *)

Module ReviewModels.

(** A value passed to [Model.update]: text, or a decimal number
    [mantissa / 10 ^ decimals]. *)
Inductive value : Type :=
  | VText (text : string)
  | VNumber (mantissa : Z) (decimals : nat).

(** The attributes that models/Product.js declares, with the timestamps. *)
Definition Product_tableAttributes : list string :=
  ["id"; "name"; "description"; "price"; "category_id"; "sku"; "image_url";
   "is_active"; "created_at"; "updated_at"].

Definition to_hundredths (mantissa : Z) (decimals : nat) : Z :=
  match decimals with
  | O => mantissa * 100
  | S O => mantissa * 10
  | S (S O) => mantissa
  | S (S (S d)) => mantissa / 10 ^ Z.of_nat (S d)
  end.

(** Assignment of one declared attribute to a row, for the columns kept in
    [Product]. *)
Definition Product_set (field : string) (v : value) (p : Product) : Product :=
  match v with
  | VText text =>
      if String.eqb field "name" then mkProduct text (price p) else p
  | VNumber mantissa decimals =>
      if String.eqb field "price"
      then mkProduct (product_name p) (to_hundredths mantissa decimals)
      else p
  end.

(** [Product.update(values, { where: { id }, transaction })]: Sequelize keeps
    the keys of [values] that are attributes of the model
    ([options.fields = intersection(keys(values), tableAttributes)]) and
    updates those columns of the matching row. *)
Definition Product_update (values : list (string * value)) (productId : Z)
    : M unit :=
  let fields :=
    filter (λ kv, bool_decide (kv.1 ∈ Product_tableAttributes) = true) values in
  s <- get ;;
  put (set_products
         (alter (λ p, foldl (λ p kv, Product_set kv.1 kv.2 p) p fields) productId) s).

(** Review: product_id and user_id [min: 1], rating [min: 1, max: 5],
    comment [len: [0, 1000]]. *)
Definition Review_valid (r : Review) : bool :=
  (1 <=? review_product_id r) && (1 <=? review_user_id r)
  && (1 <=? rating r) && (rating r <=? 5)
  && match comment r with
     | None => true
     | Some c => length_in_characters c <=? 1000
     end.

(** [Review.findOne({ where: { product_id, user_id } })] *)
Definition Review_findOne (s : db) (productId userId : Z) : option (Z * Review) :=
  find (λ r, bool_decide (review_product_id r.2 = productId
                          ∧ review_user_id r.2 = userId)) (reviews s).

(** [Review.findByPk(id)] *)
Definition Review_findByPk (s : db) (reviewId : Z) : option Review :=
  snd <$> find (λ r, bool_decide (r.1 = reviewId)) (reviews s).

(** [Review.create(r, { transaction })]: validation, then the [beforeCreate]
    hook, which looks the pair up on the default connection, then the insert. *)
Definition Review_create (s0 : db) (r : Review) : M Z :=
  if Review_valid r then
    match Review_findOne s0 (review_product_id r) (review_user_id r) with
    | Some _ => throw (JsError "Ya has resenado este producto")
    | None =>
        s <- get ;;
        let id := next_review_id s in
        put (mkDb (users s) (products s) (inventory s) (orders s) (next_order_id s)
               (order_items s) (reviews s ++ [(id, r)]) (id + 1)) ;;;
        ret id
    end
  else throw SequelizeValidationError.

(** [review.destroy({ transaction })] *)
Definition Review_destroy (reviewId : Z) : M unit :=
  s <- get ;;
  put (set_reviews (filter (λ r, r.1 ≠ reviewId)) s).

(** The row of [SELECT AVG(rating), COUNT(id) FROM reviews WHERE product_id =
    ?]: the average is NULL ([None]) over no rows and the exact quotient
    [sum / count] otherwise. *)
Record ReviewStats : Type := mkReviewStats {
  averageRating : option (Z * Z);
  totalReviews : Z
}.

Definition Review_stats (s : db) (productId : Z) : ReviewStats :=
  let ratings :=
    map (λ r, rating r.2)
      (filter (λ r, review_product_id r.2 = productId) (reviews s)) in
  let count := Z.of_nat (length ratings) in
  mkReviewStats
    (if count =? 0 then None else Some (foldr Z.add 0 ratings, count))
    count.

(** [Math.round(parseFloat(avg || 0) * 10)], the tenths of the rounded
    average: NULL and 0 are falsy and read as 0; [Math.round] rounds halves
    up.  The average is taken here as the exact quotient [sum / count]; the
    code holds it in a binary64 number, whose product with 10 can fall on the
    other side of a half. *)
Definition rounded_tenths (avg : option (Z * Z)) : Z :=
  match avg with
  | None => 0
  | Some (sum, count) => (20 * sum + count) / (2 * count)
  end.

(** The fields of the model's update schema; [None] is a field the caller
    left out. *)
Record ReviewUpdate : Type := mkReviewUpdate {
  ru_rating : option Z;
  ru_comment : option string;
  ru_is_verified_purchase : option bool
}.

Definition apply_update (u : ReviewUpdate) (r : Review) : Review :=
  mkReview (review_product_id r) (review_user_id r)
    (default (rating r) (ru_rating u))
    (match ru_comment u with Some c => Some c | None => comment r end)
    (default (is_verified_purchase r) (ru_is_verified_purchase u)).

(** [review.update(updateData, { transaction })]: the fields given are
    validated (rating [min: 1, max: 5], comment [len: [0, 1000]]), then the
    row is written. *)
Definition Review_instance_update (reviewId : Z) (u : ReviewUpdate) : M unit :=
  if match ru_rating u with Some r => (1 <=? r) && (r <=? 5) | None => true end
     && match ru_comment u with
        | Some c => length_in_characters c <=? 1000
        | None => true
        end
  then
    s <- get ;;
    put (set_reviews
           (map (λ r, if bool_decide (r.1 = reviewId)
                      then (r.1, apply_update u r.2) else r)) s)
  else throw SequelizeValidationError.

(** [Math.round(count / total * 100)] for [0 <= count] and [0 < total],
    on the exact quotient.  The code computes [(count / total) * 100] in
    binary64, where a value that is a half exactly can come out just below
    it: 23 of 40 is 57 there and 58 here. *)
Definition rounded_percent (count total : Z) : Z :=
  (200 * count + total) / (2 * total).

End ReviewModels.

(** ** services/ReviewService *)

Module ReviewService.
Import ReviewModels.

Record ReviewData : Type := mkReviewData {
  rd_product_id : Z;
  rd_user_id : Z;
  rd_rating : Z;
  rd_comment : option string
}.

Definition is_typed (e : js_error) : bool :=
  is_ValidationError e || is_NotFoundError e || is_ConflictError e
  || is_BusinessLogicError e.

Definition getReviewById (reviewId : Z) : M (Z * Review) :=
  catch_rethrow is_NotFoundError "Error al obtener resena: "
    (s <- get ;;
     match Review_findByPk s reviewId with
     | None => throw (NotFoundError "Resena no encontrada")
     | Some review => ret (reviewId, review)
     end).

(** [status: { [Op.in]: ['confirmed', 'shipped', 'delivered'] }] *)
Definition purchase_status (st : order_status) : bool :=
  match st with
  | confirmed | shipped | delivered => true
  | pending | cancelled => false
  end.

(** [sequelize.Op]: [sequelize] is the instance that config/database
    exports.  The operators are a property of the class [Sequelize]
    ([Sequelize.Op]), not of its instances, so the property is undefined. *)
Inductive operators : Type := Operators.

Definition sequelize_Op : option operators := None.

(** [verifyPurchase(userId, productId)].  The query asks for an order item of
    the product whose order (inner join) belongs to the user and has one of
    the three statuses; its options are built with [sequelize.Op.in], and
    reading [in] of undefined throws before the query is issued.  The [catch]
    wraps whatever is thrown in a plain Error. *)
Definition verifyPurchase (s : db) (userId productId : Z) : result bool :=
  match sequelize_Op with
  | None =>
      Throw (PlainError "Error al verificar compra: "
               (JsError "Cannot read properties of undefined (reading 'in')"))
  | Some Operators =>
      Ok (existsb
            (λ it,
               (item_product_id it =? productId)
               && match orders s !! order_id it with
                  | Some order =>
                      (order_user_id order =? userId)
                      && purchase_status (status order)
                  | None => false
                  end)
            (order_items s))
  end.

(** [updateProductAverageRating(productId, transaction)] *)
Definition updateProductAverageRating (productId : Z) : M unit :=
  catch_rethrow (λ _, false) "Error al actualizar rating promedio: "
    (s <- get ;;
     let stats := Review_stats s productId in
     Product_update
       [("average_rating", VNumber (rounded_tenths (averageRating stats)) 1);
        ("review_count", VNumber (totalReviews stats) 0)]
       productId).

Definition createReview_body (reviewData : ReviewData) (s0 : db) : M Z :=
  throw_if (bool_decide (rd_user_id reviewData ∉ users s0))
    (NotFoundError "Usuario no encontrado") ;;;
  throw_if (bool_decide (products s0 !! rd_product_id reviewData = None))
    (NotFoundError "Producto no encontrado") ;;;
  throw_if
    (bool_decide
       (is_Some (Review_findOne s0 (rd_product_id reviewData)
                   (rd_user_id reviewData))))
    (ConflictError "Ya has resenado este producto") ;;;
  hasPurchased <-
    lift (verifyPurchase s0 (rd_user_id reviewData) (rd_product_id reviewData)) ;;
  reviewId <-
    Review_create s0
      (mkReview (rd_product_id reviewData) (rd_user_id reviewData)
         (rd_rating reviewData) (rd_comment reviewData) hasPurchased) ;;
  updateProductAverageRating (rd_product_id reviewData) ;;;
  ret reviewId.

Definition createReview (reviewData : ReviewData) : M (Z * Review) :=
  sequelize_transaction is_typed "Error al crear resena: "
    (createReview_body reviewData) getReviewById.

Definition deleteReview_body (reviewId : Z) (s0 : db) : M unit :=
  s <- get ;;
  match Review_findByPk s reviewId with
  | None => throw (NotFoundError "Resena no encontrada")
  | Some review =>
      let productId := review_product_id review in
      Review_destroy reviewId ;;;
      updateProductAverageRating productId
  end.

Definition deleteReview (reviewId : Z) : M bool :=
  sequelize_transaction is_NotFoundError "Error al eliminar resena: "
    (deleteReview_body reviewId) (λ _, ret true).

Definition updateReview_body (reviewId : Z) (updateData : ReviewUpdate)
    (s0 : db) : M unit :=
  s <- get ;;
  match Review_findByPk s reviewId with
  | None => throw (NotFoundError "Resena no encontrada")
  | Some review =>
      throw_if
        (match ru_rating updateData with
         | Some r => negb (r =? 0) && ((r <? 1) || (5 <? r))
         | None => false
         end)
        (ValidationError "El rating debe estar entre 1 y 5") ;;;
      Review_instance_update reviewId updateData ;;;
      updateProductAverageRating (review_product_id review)
  end.

Definition updateReview (reviewId : Z) (updateData : ReviewUpdate)
    : M (Z * Review) :=
  sequelize_transaction is_typed "Error al actualizar resena: "
    (updateReview_body reviewId updateData) (λ _, getReviewById reviewId).

(** What [getProductReviewStats] returns; the average is held in tenths and
    the distribution, absent without reviews, in whole percents. *)
Record ProductReviewStats : Type := mkProductReviewStats {
  stats_averageRating : Z;
  stats_totalReviews : Z;
  fiveStar : Z;
  fourStar : Z;
  threeStar : Z;
  twoStar : Z;
  oneStar : Z;
  verifiedReviews : Z;
  ratingDistribution : option (Z * Z * Z * Z * Z)
}.

(** [COUNT(CASE WHEN cond THEN 1 END)] over the reviews of a product. *)
Definition count_reviews (s : db) (productId : Z) (cond : Review → bool) : Z :=
  Z.of_nat
    (length
       (filter (λ r, review_product_id r.2 = productId ∧ cond r.2 = true)
          (reviews s))).

Definition getProductReviewStats (productId : Z) : M ProductReviewStats :=
  catch_rethrow is_NotFoundError "Error al obtener estadisticas de resenas: "
    (s <- get ;;
     throw_if (bool_decide (products s !! productId = None))
       (NotFoundError "Producto no encontrado") ;;;
     let stats := Review_stats s productId in
     let total := totalReviews stats in
     let stars n := count_reviews s productId (λ r, rating r =? n) in
     ret (mkProductReviewStats
            (rounded_tenths (averageRating stats)) total
            (stars 5) (stars 4) (stars 3) (stars 2) (stars 1)
            (count_reviews s productId is_verified_purchase)
            (if 0 <? total
             then Some (rounded_percent (stars 5) total,
                        rounded_percent (stars 4) total,
                        rounded_percent (stars 3) total,
                        rounded_percent (stars 2) total,
                        rounded_percent (stars 1) total)
             else None))).

End ReviewService.

(** ** Vocabulary of the properties *)

(** The operations of the inventory workflow, as a caller may sequence them. *)
Inductive inventory_op : Type :=
  | UpdateStock (productId quantity_ : Z) (operation : string)
  | ReserveStock (productId quantity_ : Z)
  | ReleaseStock (productId quantity_ : Z)
  | ProcessInventoryAdjustment (productId adjustment : Z) (reason : string).

Definition run_inventory_op (op : inventory_op) : M Inventory :=
  match op with
  | UpdateStock p q operation => InventoryService.updateStock p q operation
  | ReserveStock p q => InventoryService.reserveStock p q
  | ReleaseStock p q => InventoryService.releaseStock p q
  | ProcessInventoryAdjustment p a reason =>
      InventoryService.processInventoryAdjustment p a reason
  end.

(** The database left by a sequence of operations, whether each one returned
    or threw. *)
Definition run_inventory_ops (ops : list inventory_op) (s : db) : db :=
  foldl (λ s op, (run_inventory_op op s).2) s ops.

(** inventory.quantity >= 0 on every row. *)
Definition stock_nonneg (s : db) : Prop :=
  map_Forall (λ _ inv, 0 ≤ quantity inv) (inventory s).

(** One step of the inventory service: nothing is written, or one row takes
    a quantity that passed the validator. *)
Definition inventory_step (s s' : db) : Prop :=
  s' = s ∨ ∃ p q inv, 0 ≤ q ∧ s' = set_inventory (insert p (set_quantity q inv)) s.

(** Order items only refer to orders whose id has been handed out. *)
Definition items_fresh (s : db) : Prop :=
  Forall (λ it, order_id it < next_order_id s) (order_items s).

(** Foreign keys of the reviews table. *)
Definition reviews_fk (s : db) : Prop :=
  Forall (λ r, review_user_id r.2 ∈ users s
               ∧ is_Some (products s !! review_product_id r.2)) (reviews s).

(** [quantity = quantity + d] on a row. *)
Definition adjust_quantity (d : Z) (inv : Inventory) : Inventory :=
  set_quantity (quantity inv + d) inv.

(** The sum of [d x] over the elements of [xs] whose key is [p]. *)
Definition delta_sum {A} (key d : A → Z) (p : Z) (xs : list A) : Z :=
  foldr (λ x acc, (if decide (key x = p) then d x else 0) + acc) 0 xs.

(** The inventory after [quantity = quantity + d x] was applied, in order, to
    the row of each [key x]. *)
Definition adjust_all {A} (key d : A → Z) (xs : list A)
    (m : gmap Z Inventory) : gmap Z Inventory :=
  foldl (λ m x, alter (adjust_quantity (d x)) (key x) m) m xs.

Definition customer_order : OrderService.OrderData :=
  OrderService.mkOrderData 1
    (Some "Av. Amazonas N34-120, Quito") (Some "Av. Amazonas N34-120, Quito").

Definition stranger_order : OrderService.OrderData :=
  OrderService.mkOrderData 99
    (Some "Av. Amazonas N34-120, Quito") (Some "Av. Amazonas N34-120, Quito").

(** Review ids in use are below the next autoincrement value. *)
Definition reviews_fresh (s : db) : Prop :=
  Forall (λ r, r.1 < next_review_id s) (reviews s).

(** A store with one customer, two products and their stock. *)
Definition shop : db :=
  mkDb {[ 1 ]}
       {[ 1 := mkProduct "Teclado mecanico" 1000; 2 := mkProduct "Router" 4550 ]}
       {[ 1 := mkInventory 5 5 100; 2 := mkInventory 8 5 100 ]}
       ∅ 1 [] [] 1.

(** A request body whose items array is empty, or holds an item with a
    non-positive quantity. *)
Definition rb_items_empty_or_nonpositive (body : OrderController.RequestBody)
    : Prop :=
  OrderController.rb_items body = Some []
  ∨ ∃ items item,
      OrderController.rb_items body = Some items
      ∧ item ∈ items ∧ OrderService.requested item ≤ 0.

(** The sample store holding a pending order of the customer for two
    keyboards, whose units are out of the stock ... *)
Definition shop_with_order : db :=
  mkDb {[ 1 ]}
       {[ 1 := mkProduct "Teclado mecanico" 1000; 2 := mkProduct "Router" 4550 ]}
       {[ 1 := mkInventory 3 5 100; 2 := mkInventory 8 5 100 ]}
       {[ 1 := mkOrder 1 pending payment_pending (number_of_hundredths 2000)
                 "Av. Amazonas N34-120, Quito" "Av. Amazonas N34-120, Quito" ]}
       2
       [mkOrderItem 1 1 2 (number_of_hundredths 1000) (number_of_hundredths 2000)]
       [] 1.

(** ... and after that order was marked delivered. *)
Definition shop_delivered : db :=
  (OrderService.updateOrderStatus 1 "delivered" shop_with_order).2.

(** The sample store holding also a review of product 1 by the customer,
    whose order is not yet confirmed. *)
Definition shop_reviewed : db :=
  set_reviews (λ _, [(1, mkReview 1 1 3 (Some "Buen teclado") false)])
    (mkDb (users shop_with_order) (products shop_with_order)
       (inventory shop_with_order) (orders shop_with_order)
       (next_order_id shop_with_order) (order_items shop_with_order) [] 2).

(** The sample store with the order confirmed. *)
Definition shop_confirmed : db :=
  (OrderService.updateOrderStatus 1 "confirmed" shop_with_order).2.

(** The calls that move stock or change its limits, as a caller may
    sequence them. *)
Inductive stock_op : Type :=
  | InventoryOp (op : inventory_op)
  | UpdateStockLimits (productId : Z) (limits : InventoryService.StockLimits)
  | CreateOrder (orderData : OrderService.OrderData)
      (items : option (list OrderService.Item))
  | UpdateOrderStatus (orderId : Z) (newStatus : string)
  | CancelOrder (orderId : Z).

Definition run_stock_op (op : stock_op) (s : db) : db :=
  match op with
  | InventoryOp op => (run_inventory_op op s).2
  | UpdateStockLimits p limits => (InventoryService.updateStockLimits p limits s).2
  | CreateOrder orderData items => (OrderService.createOrder orderData items s).2
  | UpdateOrderStatus orderId newStatus =>
      (OrderService.updateOrderStatus orderId newStatus s).2
  | CancelOrder orderId => (OrderService.cancelOrder orderId s).2
  end.

Definition run_stock_ops (ops : list stock_op) (s : db) : db :=
  foldl (λ s op, run_stock_op op s) s ops.

(** min_stock < max_stock on every row. *)
Definition limits_ok (s : db) : Prop :=
  map_Forall (λ _ inv, min_stock inv < max_stock inv) (inventory s).

(** What a call may do to an inventory row: a quantity that was >= 0 stays
    >= 0 and limits that were in order stay in order. *)
Definition row_step (inv inv' : Inventory) : Prop :=
  (0 ≤ quantity inv → 0 ≤ quantity inv')
  ∧ (min_stock inv < max_stock inv → min_stock inv' < max_stock inv').

(** No row appears, and every row moves by [row_step]. *)
Definition inventory_evolves (s s' : db) : Prop :=
  ∀ p inv', inventory s' !! p = Some inv' →
            ∃ inv, inventory s !! p = Some inv ∧ row_step inv inv'.

(** A call that touches nothing but inventory rows. *)
Definition stock_only_step (s s' : db) : Prop :=
  inventory_evolves s s'
  ∧ order_items s' = order_items s ∧ next_order_id s' = next_order_id s.




(** Every stored review passes the validators of the model. *)
Definition reviews_valid (s : db) : Prop :=
  Forall (λ r, ReviewModels.Review_valid r.2 = true) (reviews s).



(** * Properties *)

(** ** Reasoning about the monad *)

Ltac unfold_M :=
  unfold bind, ret, throw, get, put, throw_if, catch_rethrow in *.

Lemma stock_nonneg_write (s : db) (p q : Z) (inv : Inventory) :
  stock_nonneg s → 0 ≤ q →
  stock_nonneg (set_inventory (insert p (set_quantity q inv)) s).
Proof.
  unfold stock_nonneg. intros Hs Hq. simpl.
  apply map_Forall_insert_2; [simpl; lia | exact Hs].
Qed.

(** Every operation of the inventory service either leaves the database as it
    was or writes one validated quantity. *)
Lemma Inventory_instance_update_post (p q : Z) (inv : Inventory) (s : db) :
  Models.Inventory_instance_update p inv q s
  = if 0 <=? q
    then (Ok tt, set_inventory (insert p (set_quantity q inv)) s)
    else (Throw SequelizeValidationError, s).
Proof.
  unfold Models.Inventory_instance_update, Models.Inventory_quantity_valid.
  destruct (0 <=? q); reflexivity.
Qed.

Lemma after_write_step {A} (k : M A) (p q : Z) (inv : Inventory) (s : db)
    (typed : js_error → bool) (prefix : string) :
  (∀ s1, (k s1).2 = s1) →
  inventory_step s
    (catch_rethrow typed prefix
       (Models.Inventory_instance_update p inv q ;;; k) s).2.
Proof.
  intros Hk. unfold catch_rethrow, bind.
  rewrite Inventory_instance_update_post.
  destruct (Z.leb_spec 0 q) as [Hq|Hq].
  - specialize (Hk (set_inventory (insert p (set_quantity q inv)) s)).
    destruct (k _) as [[a|e] s2]; simpl in *; subst s2;
      right; exists p, q, inv; auto.
  - left. reflexivity.
Qed.

Lemma getInventoryByProductId_state (p : Z) (s : db) :
  (InventoryService.getInventoryByProductId p s).2 = s.
Proof.
  unfold InventoryService.getInventoryByProductId. unfold_M.
  destruct (inventory s !! p); reflexivity.
Qed.

Lemma run_inventory_op_step (op : inventory_op) (s : db) :
  inventory_step s (run_inventory_op op s).2.
Proof.
  destruct op as [p q operation|p q|p q|p a reason]; simpl.
  - unfold InventoryService.updateStock.
    unfold catch_rethrow at 1, bind at 1, get.
    destruct (inventory s !! p) as [inv|] eqn:Hinv; [|left; reflexivity].
    destruct (String.eqb operation "add").
    { apply (after_write_step _ p _ inv s), getInventoryByProductId_state. }
    destruct (String.eqb operation "subtract").
    { unfold bind, throw_if, ret, throw.
      destruct (quantity inv - q <? 0); [left; reflexivity|].
      apply (after_write_step _ p _ inv s), getInventoryByProductId_state. }
    destruct (String.eqb operation "set").
    { apply (after_write_step _ p _ inv s), getInventoryByProductId_state. }
    left. reflexivity.
  - unfold InventoryService.reserveStock.
    unfold catch_rethrow at 1, bind at 1, get.
    destruct (inventory s !! p) as [inv|] eqn:Hinv; [|left; reflexivity].
    unfold bind at 1, throw_if, throw, ret.
    destruct (quantity inv <? q); [left; reflexivity|].
    apply (after_write_step _ p _ inv s), getInventoryByProductId_state.
  - unfold InventoryService.releaseStock.
    unfold catch_rethrow at 1, bind at 1, get.
    destruct (inventory s !! p) as [inv|] eqn:Hinv; [|left; reflexivity].
    apply (after_write_step _ p _ inv s), getInventoryByProductId_state.
  - unfold InventoryService.processInventoryAdjustment.
    unfold catch_rethrow at 1, bind at 1, get.
    destruct (inventory s !! p) as [inv|] eqn:Hinv; [|left; reflexivity].
    unfold bind at 1, throw_if, throw, ret.
    destruct (quantity inv + a <? 0); [left; reflexivity|].
    apply (after_write_step _ p _ inv s), getInventoryByProductId_state.
Qed.

Lemma inventory_step_nonneg (s s' : db) :
  inventory_step s s' → stock_nonneg s → stock_nonneg s'.
Proof.
  intros [->|(p & q & inv & Hq & ->)] Hs; [exact Hs|].
  by apply stock_nonneg_write.
Qed.

Lemma run_inventory_ops_nonneg (ops : list inventory_op) (s : db) :
  stock_nonneg s → stock_nonneg (run_inventory_ops ops s).
Proof.
  revert s. induction ops as [|op ops IH]; intros s Hs; simpl; [exact Hs|].
  apply IH. eapply inventory_step_nonneg; [apply run_inventory_op_step|exact Hs].
Qed.

Lemma updateStock_set_negative (p amount : Z) (s : db) :
  amount < 0 → ∃ e, InventoryService.updateStock p amount "set" s = (Throw e, s).
Proof.
  intros Hneg. unfold InventoryService.updateStock. unfold_M.
  destruct (inventory s !! p) as [inv|]; [|eauto].
  simpl. rewrite Inventory_instance_update_post.
  destruct (Z.leb_spec 0 amount); [lia|]. simpl. eauto.
Qed.

Lemma updateStock_set_written (p amount : Z) (inv : Inventory) (s : db) :
  inventory s !! p = Some inv → 0 ≤ amount →
  InventoryService.updateStock p amount "set" s
  = (Ok (set_quantity amount inv),
     set_inventory (insert p (set_quantity amount inv)) s).
Proof.
  intros Hinv Hpos. unfold InventoryService.updateStock. unfold_M.
  rewrite Hinv. simpl. rewrite Inventory_instance_update_post.
  destruct (Z.leb_spec 0 amount); [|lia]. simpl.
  unfold InventoryService.getInventoryByProductId. unfold_M. simpl.
  by rewrite lookup_insert_eq.
Qed.

(** C1. Whatever sequence of [updateStock] (add, subtract, set),
    [reserveStock], [releaseStock] and [processInventoryAdjustment] calls is
    run, returning or throwing, every inventory quantity that was >= 0 before
    is >= 0 after; and [updateStock] in mode 'set' writes its amount exactly
    when the amount is >= 0: a negative amount is refused and nothing is
    written. *)
Theorem inventory_quantity_never_negative (s : db) (ops : list inventory_op) :
  stock_nonneg s →
  stock_nonneg (run_inventory_ops ops s)
  ∧ (∀ p amount, amount < 0 →
       ∃ e, InventoryService.updateStock p amount "set" (run_inventory_ops ops s)
            = (Throw e, run_inventory_ops ops s))
  ∧ (∀ p amount inv, inventory (run_inventory_ops ops s) !! p = Some inv →
       0 ≤ amount →
       InventoryService.updateStock p amount "set" (run_inventory_ops ops s)
       = (Ok (set_quantity amount inv),
          set_inventory (insert p (set_quantity amount inv))
            (run_inventory_ops ops s))).
Proof.
  intros Hs. split; [by apply run_inventory_ops_nonneg|]. split.
  - intros p amount. apply updateStock_set_negative.
  - intros p amount inv. apply updateStock_set_written.
Qed.

(** A run that mixes accepted and refused operations on the sample store. *)
Lemma inventory_quantity_never_negative_witness :
  stock_nonneg shop
  ∧ stock_nonneg
      (run_inventory_ops
         [UpdateStock 1 (-7) "set"; ReserveStock 1 3; UpdateStock 1 (-9) "add";
          ReleaseStock 2 (-20); ProcessInventoryAdjustment 2 (-8) "theft";
          UpdateStock 1 4 "subtract"] shop).
Proof.
  assert (H : stock_nonneg shop).
  { unfold stock_nonneg, shop. simpl.
    apply map_Forall_insert_2; [simpl; lia|].
    apply map_Forall_insert_2; [simpl; lia|]. apply map_Forall_empty. }
  split; [exact H|].
  exact (proj1 (inventory_quantity_never_negative shop _ H)).
Defined.

(** ** Order creation against short stock *)

Section CreateOrderRejection.
Import OrderService.

Lemma unavailable_item_named (s : db) (items : list Item) (item : Item) :
  item ∈ items → item_unavailable s item = true →
  unavailable_name s item ∈ unavailableItems (validateStockAvailability s items).
Proof.
  intros Hin Hshort. simpl. apply list_elem_of_fmap. exists item. split; [done|].
  apply list_elem_of_filter. done.
Qed.

Lemma short_item_unavailable (s : db) (item : Item) (inv : Inventory) :
  inventory s !! product_id item = Some inv → quantity inv < requested item →
  item_unavailable s item = true.
Proof.
  intros Hinv Hlt. unfold item_unavailable. rewrite Hinv. by apply Z.ltb_lt.
Qed.

Lemma validateStockAvailability_short (s : db) (items : list Item) (item : Item) :
  item ∈ items → item_unavailable s item = true →
  available (validateStockAvailability s items) = false.
Proof.
  intros Hin Hshort.
  pose proof (unavailable_item_named s items item Hin Hshort) as Hnamed.
  simpl in *. apply bool_decide_eq_false. intros Heq. rewrite Heq in Hnamed.
  by apply not_elem_of_nil in Hnamed.
Qed.

(** The outcome of [createOrder] when the stock check refuses the request:
    the user lookup comes first, then the check. *)
Lemma createOrder_unavailable (s : db) (orderData : OrderData)
    (items : list Item) (item : Item) :
  item ∈ items → item_unavailable s item = true →
  createOrder orderData (Some items) s
  = (Throw
       (if bool_decide (od_user_id orderData ∉ users s)
        then NotFoundError "Usuario no encontrado"
        else BusinessLogicError
               ("Stock insuficiente para: "
                +:+ join ", " (unavailableItems (validateStockAvailability s items)))),
     s).
Proof.
  intros Hin Hshort.
  unfold createOrder, createOrder_body, sequelize_transaction. unfold_M.
  destruct (bool_decide (od_user_id orderData ∉ users s)); [reflexivity|].
  destruct items as [|i items']; [by apply not_elem_of_nil in Hin|].
  cbv zeta. change (default [] (Some (i :: items'))) with (i :: items').
  rewrite (validateStockAvailability_short s (i :: items') item Hin Hshort).
  reflexivity.
Qed.

(** C2 (as amended). When some requested item asks for more than the
    inventory holds, [createOrder] fails and the whole database (orders,
    order items, inventory) is exactly as before the call; if the user of the
    request exists, the failure is a BusinessLogicError whose message lists
    the unavailable products, the short item among them. *)
Theorem createOrder_short_stock_rejected (s : db) (orderData : OrderData)
    (items : list Item) (item : Item) (inv : Inventory) :
  item ∈ items →
  inventory s !! product_id item = Some inv →
  quantity inv < requested item →
  (∃ e, createOrder orderData (Some items) s = (Throw e, s))
  ∧ (od_user_id orderData ∈ users s →
     createOrder orderData (Some items) s
     = (Throw (BusinessLogicError
                 ("Stock insuficiente para: "
                  +:+ join ", " (unavailableItems (validateStockAvailability s items)))),
        s)
     ∧ unavailable_name s item
       ∈ unavailableItems (validateStockAvailability s items)).
Proof.
  intros Hin Hinv Hlt.
  pose proof (short_item_unavailable s item inv Hinv Hlt) as Hshort.
  pose proof (createOrder_unavailable s orderData items item Hin Hshort) as Hrun.
  split; [eauto|].
  intros Huser. split; [|by apply unavailable_item_named].
  rewrite Hrun. rewrite bool_decide_eq_false_2; [reflexivity|].
  intros Hnot. by apply Hnot.
Qed.

End CreateOrderRejection.

(** The claim as worded speaks of every call: a request of an unknown user
    for more than the stock is answered NotFoundError, not
    BusinessLogicError. *)
Lemma createOrder_short_stock_unknown_user :
  OrderService.mkItem 2 100 ∈ [OrderService.mkItem 2 100]
  ∧ inventory shop !! 2 = Some (mkInventory 8 5 100)
  ∧ quantity (mkInventory 8 5 100) < 100
  ∧ OrderService.createOrder stranger_order (Some [OrderService.mkItem 2 100]) shop
    = (Throw (NotFoundError "Usuario no encontrado"), shop)
  ∧ ¬ ∃ message,
        (OrderService.createOrder stranger_order
           (Some [OrderService.mkItem 2 100]) shop).1
        = Throw (BusinessLogicError message).
Proof.
  assert (Hrun : OrderService.createOrder stranger_order
                   (Some [OrderService.mkItem 2 100]) shop
                 = (Throw (NotFoundError "Usuario no encontrado"), shop))
    by (vm_compute; reflexivity).
  split; [apply list_elem_of_here|]. split; [reflexivity|].
  split; [simpl; lia|]. split; [exact Hrun|].
  rewrite Hrun. intros [message Hm]. discriminate Hm.
Qed.

Lemma createOrder_short_stock_rejected_witness :
  OrderService.createOrder customer_order
    (Some [OrderService.mkItem 1 2; OrderService.mkItem 2 100]) shop
  = (Throw (BusinessLogicError "Stock insuficiente para: Router"), shop).
Proof.
  destruct (createOrder_short_stock_rejected shop customer_order
              [OrderService.mkItem 1 2; OrderService.mkItem 2 100]
              (OrderService.mkItem 2 100) (mkInventory 8 5 100))
    as [_ Hnamed].
  - apply list_elem_of_further, list_elem_of_here.
  - reflexivity.
  - simpl. lia.
  - destruct Hnamed as [Hrun _]; [|exact Hrun].
    change (1 ∈ ({[ 1 ]} : gset Z)). by apply elem_of_singleton.
Defined.

(** ** Stock moved by the order workflow *)

Lemma bind_ok_inv {A B} (m : M A) (k : A → M B) (s s' : db) (b : B) :
  bind m k s = (Ok b, s') → ∃ a s1, m s = (Ok a, s1) ∧ k a s1 = (Ok b, s').
Proof.
  unfold bind. destruct (m s) as [[a|e] s1]; [eauto|discriminate].
Qed.

Lemma bind_run {A B} (m : M A) (k : A → M B) (s s1 : db) (a : A) :
  m s = (Ok a, s1) → bind m k s = k a s1.
Proof. intros H. unfold bind. by rewrite H. Qed.

Lemma throw_if_ok_inv (c : bool) (e : js_error) (s s' : db) (u : unit) :
  throw_if c e s = (Ok u, s') → c = false ∧ s' = s.
Proof.
  unfold throw_if, throw, ret. destruct c; [discriminate|].
  intros [= _ <-]. done.
Qed.

Lemma sequelize_transaction_ok_inv {A B} typed prefix (body : db → M A)
    (after : A → M B) (s0 s2 : db) (b : B) :
  sequelize_transaction typed prefix body after s0 = (Ok b, s2) →
  ∃ a s1, body s0 s0 = (Ok a, s1) ∧ after a s1 = (Ok b, s2).
Proof.
  unfold sequelize_transaction.
  destruct (body s0 s0) as [[a|e] s1]; [|discriminate].
  destruct (after a s1) as [[b'|e] s2'] eqn:Hafter; [|discriminate].
  intros [= <- <-]. eauto.
Qed.

Lemma adjust_quantity_0 (inv : Inventory) : adjust_quantity 0 inv = inv.
Proof. destruct inv as [q lo hi]. unfold adjust_quantity, set_quantity. simpl. f_equal. lia. Qed.

Lemma adjust_quantity_add (a b : Z) (inv : Inventory) :
  adjust_quantity a (adjust_quantity b inv) = adjust_quantity (b + a) inv.
Proof. unfold adjust_quantity, set_quantity. simpl. f_equal. lia. Qed.

Lemma lookup_adjust_all {A} (key d : A → Z) (xs : list A) (m : gmap Z Inventory)
    (p : Z) :
  adjust_all key d xs m !! p = adjust_quantity (delta_sum key d p xs) <$> m !! p.
Proof.
  revert m. induction xs as [|x xs IH]; intros m; simpl.
  - destruct (m !! p) as [inv|]; simpl; [|done]. by rewrite adjust_quantity_0.
  - unfold adjust_all in *. simpl. rewrite IH. rewrite lookup_alter.
    destruct (decide (key x = p)) as [->|Hne].
    + destruct (m !! p) as [inv|]; simpl; [|done].
      by rewrite adjust_quantity_add.
    + by rewrite Z.add_0_l.
Qed.

(** The UPDATE of a quantity through a literal, when the store accepts it. *)
Lemma Inventory_update_literal_ok (p d : Z) (s s' : db) (u : unit) :
  Models.Inventory_update_literal p (λ q, q + d) s = (Ok u, s') →
  s' = set_inventory (alter (adjust_quantity d) p) s
  ∧ ∀ inv, inventory s' !! p = Some inv → 0 ≤ quantity inv.
Proof.
  unfold Models.Inventory_update_literal. unfold_M.
  destruct (inventory s !! p) as [inv|] eqn:Hinv.
  - destruct (Z.leb_spec 0 (quantity inv + d)) as [Hq|Hq]; [|discriminate].
    intros [= _ <-]. split.
    + unfold set_inventory. f_equal. apply map_eq. intros i.
      rewrite lookup_alter, lookup_insert.
      destruct (decide (p = i)) as [<-|]; [by rewrite Hinv|done].
    + simpl. intros inv'. rewrite lookup_insert_eq. intros [= <-]. simpl. lia.
  - intros [= _ <-]. split.
    + destruct s; unfold set_inventory; simpl in *. f_equal.
      apply map_eq. intros i. rewrite lookup_alter.
      destruct (decide (p = i)) as [<-|]; [by rewrite Hinv|done].
    + intros inv'. rewrite Hinv. discriminate.
Qed.

Lemma Inventory_update_literal_run (p d : Z) (s : db) :
  (∀ inv, inventory s !! p = Some inv → 0 ≤ quantity inv + d) →
  Models.Inventory_update_literal p (λ q, q + d) s
  = (Ok tt, set_inventory (alter (adjust_quantity d) p) s).
Proof.
  intros Hok.
  destruct (Models.Inventory_update_literal p (λ q, q + d) s) as [[[]|e] s'] eqn:Hrun.
  - apply Inventory_update_literal_ok in Hrun as [-> _]. reflexivity.
  - exfalso. revert Hrun. unfold Models.Inventory_update_literal. unfold_M.
    destruct (inventory s !! p) as [inv|]; [|discriminate].
    specialize (Hok inv eq_refl).
    destruct (Z.leb_spec 0 (quantity inv + d)); [discriminate|lia].
Qed.

Section OrderStock.
Import OrderService.

Lemma release_loop_run (rows : list OrderItem) (s : db) :
  Forall (λ row, 0 ≤ item_quantity row) rows →
  (∀ row, row ∈ rows →
     ∀ inv, inventory s !! item_product_id row = Some inv → 0 ≤ quantity inv) →
  for_of rows
    (λ row, Models.Inventory_update_literal (item_product_id row)
              (λ q, q + item_quantity row)) s
  = (Ok tt, set_inventory (adjust_all item_product_id item_quantity rows) s).
Proof.
  revert s. induction rows as [|row rows IH]; intros s Hpos Hs; simpl.
  - unfold ret. destruct s; reflexivity.
  - apply Forall_cons in Hpos as [Hrow Hpos].
    rewrite (bind_run _ _ s _ tt (Inventory_update_literal_run _ _ s
      (λ inv Hinv, Z.add_nonneg_nonneg _ _ (Hs row (list_elem_of_here _ _) inv Hinv) Hrow))).
    rewrite IH; [reflexivity|exact Hpos|].
    intros row' Hin inv. simpl. rewrite lookup_alter.
    destruct (decide (item_product_id row = item_product_id row')) as [Heq|Hne].
    + destruct (inventory s !! item_product_id row) as [inv0|] eqn:Hinv0;
        [|discriminate].
      intros [= <-]. simpl.
      pose proof (Hs row (list_elem_of_here _ _) inv0 Hinv0). lia.
    + apply Hs. by apply list_elem_of_further.
Qed.

Lemma getOrderById_ok (orderId : Z) (s s' : db) (view : OrderView) :
  getOrderById orderId s = (Ok view, s') →
  s' = s
  ∧ ∃ order, orders s !! orderId = Some order
             ∧ view = mkOrderView orderId order
                        (map item_view (OrderModels.OrderItem_findAll s orderId)).
Proof.
  unfold getOrderById. unfold_M.
  destruct (orders s !! orderId) as [order|]; [|discriminate].
  intros [= <- <-]. eauto.
Qed.

Lemma getOrderById_run (orderId : Z) (s : db) (order : Order) :
  orders s !! orderId = Some order →
  getOrderById orderId s
  = (Ok (mkOrderView orderId order
           (map item_view (OrderModels.OrderItem_findAll s orderId))), s).
Proof. intros H. unfold getOrderById. unfold_M. by rewrite H. Qed.

(** [Order.create] for values without an order_number: the validation fails
    whatever the other values are, and nothing is written. *)
Lemma Order_create_unnumbered (userId : Z) (total : number)
    (shipping billing : option string) (s : db) :
  OrderModels.Order_create None userId total shipping billing s
  = (Throw SequelizeValidationError, s).
Proof. reflexivity. Qed.

Lemma calculateOrderTotal_from_throws (s : db) (items : list Item) (acc : number)
    (e : js_error) :
  calculateOrderTotal_from s items acc = Throw e →
  ∃ item, item ∈ items ∧ products s !! product_id item = None
          ∧ e = NotFoundError
                  ("Producto con ID " +:+ pretty (product_id item) +:+ " no encontrado").
Proof.
  revert acc. induction items as [|item items IH]; intros acc; simpl; [discriminate|].
  destruct (products s !! product_id item) as [product|] eqn:Hp.
  - intros Hrest. apply IH in Hrest as (item' & Hin & Hnone & ->).
    exists item'. split; [by apply list_elem_of_further|done].
  - intros [= <-]. exists item. split; [apply list_elem_of_here|done].
Qed.

(** [createOrder] on any request: the first check that fails decides the
    error, and a request that passes them all is stopped by [Order.create];
    the transaction is rolled back in every case. *)
Lemma createOrder_run (orderData : OrderData) (items : option (list Item))
    (s : db) :
  createOrder orderData items s
  = (Throw
       (if bool_decide (od_user_id orderData ∉ users s)
        then NotFoundError "Usuario no encontrado"
        else if match items with None | Some [] => true | _ => false end
        then ValidationError "El pedido debe contener al menos un item"
        else if negb (available (validateStockAvailability s (default [] items)))
        then BusinessLogicError
               ("Stock insuficiente para: "
                +:+ join ", "
                      (unavailableItems
                         (validateStockAvailability s (default [] items))))
        else match calculateOrderTotal s (default [] items) with
             | Throw e => e
             | Ok _ => PlainError "Error al crear pedido: " SequelizeValidationError
             end), s).
Proof.
  unfold createOrder, sequelize_transaction, createOrder_body.
  unfold bind at 1. unfold throw_if at 1.
  destruct (bool_decide (od_user_id orderData ∉ users s)); [reflexivity|].
  unfold ret at 1. unfold bind at 1. unfold throw_if at 1.
  destruct (match items with None | Some [] => true | _ => false end);
    [reflexivity|].
  unfold ret at 1. cbv zeta. unfold bind at 1. unfold throw_if at 1.
  destruct (negb (available (validateStockAvailability s (default [] items))));
    [reflexivity|].
  unfold ret at 1. unfold bind at 1.
  destruct (calculateOrderTotal s (default [] items)) as [total|e] eqn:Htotal.
  - unfold lift, ret at 1. unfold bind at 1.
    by rewrite Order_create_unnumbered.
  - unfold lift, throw.
    apply calculateOrderTotal_from_throws in Htotal as (item & _ & _ & ->).
    reflexivity.
Qed.

Lemma createOrder_throws (orderData : OrderData) (items : option (list Item))
    (s : db) :
  ∃ e, createOrder orderData items s = (Throw e, s).
Proof. rewrite createOrder_run. eauto. Qed.

Lemma cancelOrder_run (orderId : Z) (s : db) (order : Order) :
  orders s !! orderId = Some order →
  status order ≠ cancelled → status order ≠ delivered →
  Forall (λ row, 0 ≤ item_quantity row) (OrderModels.OrderItem_findAll s orderId) →
  (∀ row, row ∈ OrderModels.OrderItem_findAll s orderId →
     ∀ inv, inventory s !! item_product_id row = Some inv → 0 ≤ quantity inv) →
  cancelOrder orderId s
  = (Ok (mkOrderView orderId
           (OrderModels.set_status_and_payment cancelled refunded order)
           (map item_view (OrderModels.OrderItem_findAll s orderId))),
     set_orders (alter (OrderModels.set_status_and_payment cancelled refunded) orderId)
       (set_inventory
          (adjust_all item_product_id item_quantity
             (OrderModels.OrderItem_findAll s orderId)) s)).
Proof.
  intros Horder Hnc Hnd Hpos Hstock.
  unfold cancelOrder, sequelize_transaction.
  unfold bind at 1, get. rewrite Horder.
  assert (status_eqb (status order) cancelled = false) as ->
    by (destruct (status order); done).
  assert (status_eqb (status order) delivered = false) as ->
    by (destruct (status order); done).
  unfold throw_if, bind at 1, ret at 1. unfold bind at 1, ret at 1.
  unfold releaseOrderStock. unfold bind at 1. unfold bind at 1, get.
  rewrite (release_loop_run _ s Hpos Hstock).
  unfold OrderModels.Order_instance_update. unfold_M.
  cbn [set_orders set_inventory orders users products inventory next_order_id
       order_items reviews next_review_id].
  erewrite getOrderById_run; [reflexivity|].
  simpl. by rewrite lookup_alter_eq, Horder.
Qed.



End OrderStock.

(** ** The total of an order *)

Section OrderTotals.
Import OrderService.



End OrderTotals.

(** ** Status transitions *)

Section OrderStatus.
Import OrderService.

Lemma release_loop_tables (rows : list OrderItem) (s s' : db) (u : unit) :
  for_of rows
    (λ row, Models.Inventory_update_literal (item_product_id row)
              (λ q, q + item_quantity row)) s = (Ok u, s') →
  orders s' = orders s ∧ order_items s' = order_items s.
Proof.
  revert s. induction rows as [|row rows IH]; intros s; simpl.
  - unfold ret. by intros [= _ <-].
  - intros Hrun. apply bind_ok_inv in Hrun as ([] & s1 & Hstep & Hrest).
    apply Inventory_update_literal_ok in Hstep as [-> _].
    by apply IH in Hrest as [-> ->].
Qed.

(** [updateOrderStatus] writes the status column and no other column of the
    order, whatever the transition. *)
Lemma updateOrderStatus_ok (orderId : Z) (newStatus : string) (s s' : db)
    (view : OrderView) (order : Order) :
  orders s !! orderId = Some order →
  updateOrderStatus orderId newStatus s = (Ok view, s') →
  ∃ st, parse_status newStatus = Some st
        ∧ view_order view = OrderModels.set_status st order
        ∧ orders s' !! orderId = Some (OrderModels.set_status st order).
Proof.
  intros Horder Hrun. unfold updateOrderStatus in Hrun.
  apply sequelize_transaction_ok_inv in Hrun as ([] & s1 & Hbody & Hafter).
  apply getOrderById_ok in Hafter as [-> (order1 & Horder1 & ->)].
  apply bind_ok_inv in Hbody as (s_ & s_' & Hget & Hbody).
  unfold get in Hget. injection Hget as <- <-. rewrite Horder in Hbody.
  destruct (parse_status newStatus) as [st|]; [|discriminate].
  apply bind_ok_inv in Hbody as ([] & sa & Hrel & Hbody).
  assert (orders sa = orders s) as Hsa.
  { destruct (_ && _) in Hrel.
    - unfold releaseOrderStock in Hrel.
      apply bind_ok_inv in Hrel as (s_ & s_' & Hget & Hrel).
      unfold get in Hget. injection Hget as <- <-.
      by apply release_loop_tables in Hrel as [-> _].
    - unfold ret in Hrel. by injection Hrel as <-. }
  apply bind_ok_inv in Hbody as ([] & sb & Hcheck & Hbody).
  assert (sb = sa) as ->.
  { destruct (_ && _) in Hcheck.
    - apply bind_ok_inv in Hcheck as (sx & sy & Hget & Hcheck).
      unfold get in Hget. injection Hget as <- <-.
      by apply throw_if_ok_inv in Hcheck as [_ ->].
    - unfold ret in Hcheck. by injection Hcheck as <-. }
  unfold OrderModels.Order_instance_update in Hbody. unfold_M.
  injection Hbody as <-. simpl in Horder1.
  rewrite lookup_alter_eq, Hsa, Horder in Horder1. simpl in Horder1.
  injection Horder1 as <-.
  exists st. split; [reflexivity|]. split; [reflexivity|].
  simpl. by rewrite lookup_alter_eq, Hsa, Horder.
Qed.

Lemma updateOrderStatus_payment_status (orderId : Z) (newStatus : string)
    (s s' : db) (view : OrderView) (order : Order) :
  orders s !! orderId = Some order →
  updateOrderStatus orderId newStatus s = (Ok view, s') →
  payment_status (view_order view) = payment_status order
  ∧ payment_status <$> orders s' !! orderId = Some (payment_status order).
Proof.
  intros Horder Hrun.
  destruct (updateOrderStatus_ok _ _ _ _ _ _ Horder Hrun) as (st & _ & -> & ->).
  done.
Qed.

(** [cancelOrder] refuses an order that was delivered and one that is
    already cancelled, and writes nothing. *)
Lemma cancelOrder_refused (orderId : Z) (s : db) (order : Order) :
  orders s !! orderId = Some order →
  (status order = delivered →
   cancelOrder orderId s
   = (Throw (BusinessLogicError "No se puede cancelar un pedido ya entregado"), s))
  ∧ (status order = cancelled →
     cancelOrder orderId s
     = (Throw (ConflictError "El pedido ya esta cancelado"), s)).
Proof.
  intros Horder. unfold cancelOrder, sequelize_transaction. unfold_M.
  rewrite Horder. split; intros ->; reflexivity.
Qed.

(** C4. On the sample order (pending, payment pending, two units reserved)
    [updateOrderStatus(1, 'cancelled')] returns the cancelled order and puts
    the two units back, but the payment_status it stores is still 'pending';
    [cancelOrder(1)] on the same database stores 'refunded'. *)
Theorem updateOrderStatus_cancelled_not_refunded :
  (status <$> orders shop_with_order !! 1) = Some pending
  ∧ (∃ view s',
       updateOrderStatus 1 "cancelled" shop_with_order = (Ok view, s')
       ∧ status (view_order view) = cancelled
       ∧ inventory shop_with_order !! 1 = Some (mkInventory 3 5 100)
       ∧ inventory s' !! 1 = Some (mkInventory 5 5 100)
       ∧ payment_status (view_order view) = payment_pending
       ∧ (payment_status <$> orders s' !! 1) = Some payment_pending)
  ∧ (∃ view s',
       cancelOrder 1 shop_with_order = (Ok view, s')
       ∧ (payment_status <$> orders s' !! 1) = Some refunded).
Proof.
  split; [by vm_compute|]. split.
  - destruct (updateOrderStatus 1 "cancelled" shop_with_order) as [[view|e] s']
      eqn:Hrun; [|by vm_compute in Hrun].
    exists view, s'. split; [reflexivity|].
    vm_compute in Hrun. injection Hrun as <- <-. by vm_compute.
  - destruct (cancelOrder 1 shop_with_order) as [[view|e] s']
      eqn:Hrun; [|by vm_compute in Hrun].
    exists view, s'. split; [reflexivity|].
    vm_compute in Hrun. injection Hrun as <- <-. by vm_compute.
Qed.

(** C5. On the sample order once delivered, [cancelOrder] refuses with a
    BusinessLogicError and [canBeCancelled] answers false, yet
    [updateOrderStatus(1, 'cancelled')] returns, stores status 'cancelled' and
    puts the delivered units back into the inventory. *)
Theorem delivered_order_cancelled_by_updateOrderStatus :
  (status <$> orders shop_delivered !! 1) = Some delivered
  ∧ (OrderModels.canBeCancelled <$> orders shop_delivered !! 1) = Some false
  ∧ cancelOrder 1 shop_delivered
    = (Throw (BusinessLogicError "No se puede cancelar un pedido ya entregado"),
       shop_delivered)
  ∧ ∃ view s',
      updateOrderStatus 1 "cancelled" shop_delivered = (Ok view, s')
      ∧ (status <$> orders s' !! 1) = Some cancelled
      ∧ inventory shop_delivered !! 1 = Some (mkInventory 3 5 100)
      ∧ inventory s' !! 1 = Some (mkInventory 5 5 100).
Proof.
  assert (Hst : (status <$> orders shop_delivered !! 1) = Some delivered)
    by (by vm_compute).
  split; [exact Hst|]. split; [by vm_compute|]. split.
  - destruct (orders shop_delivered !! 1) as [order|] eqn:Horder; [|discriminate].
    injection Hst as Hst.
    by apply (cancelOrder_refused 1 shop_delivered order Horder).
  - destruct (updateOrderStatus 1 "cancelled" shop_delivered) as [[view|e] s']
      eqn:Hrun; [|by vm_compute in Hrun].
    exists view, s'. split; [reflexivity|].
    vm_compute in Hrun. injection Hrun as <- <-. by vm_compute.
Qed.

End OrderStatus.

(** ** Validation of the requested items *)

Section RequestValidation.
Import OrderService.

(** [createOrder] itself does not look at the quantities: a zero quantity
    passes the stock check, and the error that stops the request is not a
    ValidationError of utils/errors.js; and it looks for the user before it
    looks at the items: an unknown user with an empty list is answered
    NotFoundError. *)
Lemma createOrder_not_ValidationError :
  (requested (mkItem 1 0) ≤ 0
   ∧ createOrder customer_order (Some [mkItem 1 0]) shop
     = (Throw (PlainError "Error al crear pedido: " SequelizeValidationError), shop)
   ∧ ¬ ∃ message,
         (createOrder customer_order (Some [mkItem 1 0]) shop).1
         = Throw (ValidationError message))
  ∧ (createOrder stranger_order (Some []) shop
     = (Throw (NotFoundError "Usuario no encontrado"), shop)
     ∧ ¬ ∃ message,
           (createOrder stranger_order (Some []) shop).1
           = Throw (ValidationError message)).
Proof.
  assert (Hzero : createOrder customer_order (Some [mkItem 1 0]) shop
                  = (Throw (PlainError "Error al crear pedido: "
                              SequelizeValidationError), shop))
    by (vm_compute; reflexivity).
  assert (Hstranger : createOrder stranger_order (Some []) shop
                      = (Throw (NotFoundError "Usuario no encontrado"), shop))
    by (vm_compute; reflexivity).
  split.
  - split; [simpl; lia|]. split; [exact Hzero|].
    rewrite Hzero. intros [message Hm]. discriminate Hm.
  - split; [exact Hstranger|].
    rewrite Hstranger. intros [message Hm]. discriminate Hm.
Qed.

Lemma createOrder_empty_items (orderData : OrderData)
    (items : option (list Item)) (s : db) :
  od_user_id orderData ∈ users s →
  items = None ∨ items = Some [] →
  createOrder orderData items s
  = (Throw (ValidationError "El pedido debe contener al menos un item"), s).
Proof.
  intros Huser Hitems. rewrite createOrder_run.
  rewrite bool_decide_eq_false_2 by (intros Hnot; by apply Hnot).
  by destruct Hitems as [-> | ->].
Qed.

Lemma createOrder_unknown_user (orderData : OrderData)
    (items : option (list Item)) (s : db) :
  od_user_id orderData ∉ users s →
  createOrder orderData items s
  = (Throw (NotFoundError "Usuario no encontrado"), s).
Proof.
  intros Huser. rewrite createOrder_run. by rewrite bool_decide_eq_true_2.
Qed.

(** The errors of a request of an existing user that has items. *)
Lemma createOrder_with_items (orderData : OrderData) (items : list Item)
    (s : db) :
  od_user_id orderData ∈ users s → items ≠ [] →
  ∃ e,
    createOrder orderData (Some items) s = (Throw e, s)
    ∧ is_ValidationError e = false
    ∧ (e = BusinessLogicError
             ("Stock insuficiente para: "
              +:+ join ", " (unavailableItems (validateStockAvailability s items)))
       ∨ (∃ item, item ∈ items
                  ∧ e = NotFoundError
                          ("Producto con ID " +:+ pretty (product_id item)
                           +:+ " no encontrado"))
       ∨ e = PlainError "Error al crear pedido: " SequelizeValidationError).
Proof.
  intros Huser Hitems. rewrite createOrder_run.
  rewrite bool_decide_eq_false_2 by (intros Hnot; by apply Hnot).
  destruct items as [|item items]; [done|].
  change (default [] (Some (item :: items))) with (item :: items).
  destruct (negb (available (validateStockAvailability s (item :: items)))).
  { eexists. split; [reflexivity|]. split; [reflexivity|]. by left. }
  destruct (calculateOrderTotal s (item :: items)) as [total|e] eqn:Htotal.
  - eexists. split; [reflexivity|]. split; [reflexivity|]. by right; right.
  - apply calculateOrderTotal_from_throws in Htotal as (item' & Hin & _ & ->).
    eexists. split; [reflexivity|]. split; [reflexivity|]. right; left. eauto.
Qed.

Lemma controller_rejects_invalid_items (body : OrderController.RequestBody)
    (s : db) :
  rb_items_empty_or_nonpositive body →
  ∃ message,
    OrderController.createOrder body s
    = (OrderController.mkResponse 400 false (Some message) None, s)
    ∧ (message = "Usuario y items son requeridos"
       ∨ message = "Cada item debe tener product_id y quantity valida").
Proof.
  intros Hbad. unfold OrderController.createOrder. unfold_M.
  destruct (OrderController.rb_user_id body =? 0); [simpl; eauto|].
  destruct Hbad as [Hempty|(items & item & Hitems & Hin & Hq)].
  - rewrite Hempty. simpl. eauto.
  - rewrite Hitems. change (default [] (Some items)) with items.
    destruct items as [|i items']; [by apply not_elem_of_nil in Hin|].
    cbn [orb].
    assert (existsb OrderController.item_invalid (i :: items') = true) as ->.
    { apply existsb_exists. exists item. split; [by apply list_elem_of_In|].
      unfold OrderController.item_invalid.
      apply orb_true_intro. right. by apply Z.leb_le. }
    eauto.
Qed.

(** C7 (as amended). [OrderService.createOrder] rejects with
    ValidationError a request of an existing user whose items list is empty
    or undefined; a request of an unknown user is rejected with NotFoundError
    whatever its items, the user lookup coming first.  The service has no
    check on the quantities: a request of an existing user in which some item
    has a non-positive quantity is rejected too, never with ValidationError
    but with the BusinessLogicError of the stock check, the NotFoundError of
    the product lookup or the generic Error in which the service wraps a
    validation error of the models.  [OrderController.createOrder] answers a
    body whose items are empty or hold a non-positive quantity with the
    message of a ValidationError (HTTP 400) without calling the service.  The
    database is unchanged in every case: no order is created. *)
Theorem createOrder_request_validation (s : db) :
  (∀ orderData items,
     od_user_id orderData ∈ users s → items = None ∨ items = Some [] →
     createOrder orderData items s
     = (Throw (ValidationError "El pedido debe contener al menos un item"), s))
  ∧ (∀ orderData items,
       od_user_id orderData ∉ users s →
       createOrder orderData items s
       = (Throw (NotFoundError "Usuario no encontrado"), s))
  ∧ (∀ orderData items item,
       od_user_id orderData ∈ users s →
       item ∈ items → requested item ≤ 0 →
       ∃ e,
         createOrder orderData (Some items) s = (Throw e, s)
         ∧ is_ValidationError e = false
         ∧ (e = BusinessLogicError
                  ("Stock insuficiente para: "
                   +:+ join ", "
                         (unavailableItems (validateStockAvailability s items)))
            ∨ (∃ item', item' ∈ items
                        ∧ e = NotFoundError
                                ("Producto con ID " +:+ pretty (product_id item')
                                 +:+ " no encontrado"))
            ∨ e = PlainError "Error al crear pedido: " SequelizeValidationError))
  ∧ (∀ body,
       rb_items_empty_or_nonpositive body →
       ∃ message,
         OrderController.createOrder body s
         = (OrderController.mkResponse 400 false (Some message) None, s)
         ∧ (message = "Usuario y items son requeridos"
            ∨ message = "Cada item debe tener product_id y quantity valida")).
Proof.
  split; [intros; by apply createOrder_empty_items|].
  split; [intros; by apply createOrder_unknown_user|].
  split; [|intros; by apply controller_rejects_invalid_items].
  intros orderData items item Huser Hin _.
  apply createOrder_with_items; [exact Huser|].
  intros ->. by apply elem_of_nil in Hin.
Qed.

Lemma createOrder_request_validation_witness :
  createOrder customer_order (Some []) shop
  = (Throw (ValidationError "El pedido debe contener al menos un item"), shop)
  ∧ createOrder stranger_order (Some [mkItem 1 2]) shop
    = (Throw (NotFoundError "Usuario no encontrado"), shop)
  ∧ (∃ e, createOrder customer_order (Some [mkItem 1 2; mkItem 2 (-1)]) shop
          = (Throw e, shop)
          ∧ is_ValidationError e = false)
  ∧ (∃ message,
       OrderController.createOrder
         (OrderController.mkRequestBody 1 (Some [mkItem 1 2; mkItem 2 (-1)])
            (Some "Av. Amazonas N34-120, Quito") None) shop
       = (OrderController.mkResponse 400 false (Some message) None, shop)
       ∧ (message = "Usuario y items son requeridos"
          ∨ message = "Cada item debe tener product_id y quantity valida")).
Proof.
  destruct (createOrder_request_validation shop) as (Hempty & Huser & Hq & Hctl).
  assert (Hcustomer : 1 ∈ users shop)
    by (change (1 ∈ ({[ 1 ]} : gset Z)); by apply elem_of_singleton).
  split; [|split; [|split]].
  - apply Hempty; [exact Hcustomer|by right].
  - apply Huser. change (99 ∉ ({[ 1 ]} : gset Z)).
    intros H99. by apply elem_of_singleton in H99.
  - destruct (Hq customer_order [mkItem 1 2; mkItem 2 (-1)] (mkItem 2 (-1)))
      as (e & Hrun & Hnot & _);
      [exact Hcustomer|apply list_elem_of_further, list_elem_of_here|simpl; lia|].
    eauto.
  - apply Hctl. right. exists [mkItem 1 2; mkItem 2 (-1)], (mkItem 2 (-1)).
    split; [reflexivity|].
    split; [apply list_elem_of_further, list_elem_of_here|simpl; lia].
Defined.

End RequestValidation.

(** ** Reviews *)

Section Reviews.
Import ReviewModels ReviewService.

(** Neither aggregate is an attribute of the Product model, so the UPDATE that
    [updateProductAverageRating] issues carries none of its two values. *)
Lemma aggregate_fields_dropped (average count : value) :
  filter (λ kv : string * value, bool_decide (kv.1 ∈ Product_tableAttributes) = true)
    [("average_rating", average); ("review_count", count)] = [].
Proof. by vm_compute. Qed.

Lemma updateProductAverageRating_run (productId : Z) (s : db) :
  updateProductAverageRating productId s = (Ok tt, s).
Proof.
  unfold updateProductAverageRating, Product_update. unfold_M.
  rewrite aggregate_fields_dropped. simpl.
  f_equal. destruct s as [us ps inv os no ois rs nr]. unfold set_products. simpl.
  f_equal. apply map_eq. intros i. rewrite lookup_alter.
  destruct (decide (productId = i)) as [->|]; [|done].
  by destruct (ps !! i).
Qed.

Lemma find_is_Some {A} (f : A → bool) (l : list A) (x : A) :
  x ∈ l → f x = true → is_Some (find f l).
Proof.
  intros Hin Hf. destruct (find f l) as [y|] eqn:Hfind; [eauto|].
  apply list_elem_of_In in Hin.
  pose proof (find_none f l Hfind x Hin). congruence.
Qed.

(** [createReview] on any request: the first check that fails decides the
    error, and a request that passes the three checks is stopped by
    [verifyPurchase]; the transaction is rolled back in every case. *)
Lemma createReview_run (reviewData : ReviewData) (s : db) :
  createReview reviewData s
  = (Throw
       (if bool_decide (rd_user_id reviewData ∉ users s)
        then NotFoundError "Usuario no encontrado"
        else if bool_decide (products s !! rd_product_id reviewData = None)
        then NotFoundError "Producto no encontrado"
        else if bool_decide
                  (is_Some (Review_findOne s (rd_product_id reviewData)
                              (rd_user_id reviewData)))
        then ConflictError "Ya has resenado este producto"
        else PlainError "Error al crear resena: "
               (PlainError "Error al verificar compra: "
                  (JsError "Cannot read properties of undefined (reading 'in')"))),
     s).
Proof.
  unfold createReview, sequelize_transaction, createReview_body. unfold_M.
  destruct (bool_decide (rd_user_id reviewData ∉ users s)); [reflexivity|].
  destruct (bool_decide (products s !! rd_product_id reviewData = None));
    [reflexivity|].
  by destruct (bool_decide (is_Some (Review_findOne s _ _))).
Qed.

(** C8. [createReview] stores no review and no is_verified_purchase
    flag: a request whose user and product exist and that is no duplicate
    reaches [verifyPurchase], which throws while it builds its query
    ([sequelize.Op] is undefined on the instance); the service wraps the
    error in its generic Error and rolls the transaction back, whether or
    not the user has bought the product. *)
Theorem createReview_stops_at_verifyPurchase (reviewData : ReviewData) (s : db) :
  rd_user_id reviewData ∈ users s →
  is_Some (products s !! rd_product_id reviewData) →
  Review_findOne s (rd_product_id reviewData) (rd_user_id reviewData) = None →
  createReview reviewData s
  = (Throw
       (PlainError "Error al crear resena: "
          (PlainError "Error al verificar compra: "
             (JsError "Cannot read properties of undefined (reading 'in')"))),
     s).
Proof.
  intros Huser [product Hproduct] Hnone. rewrite createReview_run.
  rewrite bool_decide_eq_false_2 by (intros Hnot; by apply Hnot).
  rewrite bool_decide_eq_false_2 by (by rewrite Hproduct).
  rewrite bool_decide_eq_false_2; [reflexivity|].
  rewrite Hnone. by intros [? ?].
Qed.

Lemma createReview_stops_at_verifyPurchase_witness :
  (∃ order, orders shop_confirmed !! 1 = Some order
            ∧ order_user_id order = 1 ∧ status order = confirmed)
  ∧ map (λ it, (order_id it, item_product_id it)) (order_items shop_confirmed)
    = [(1, 1)]
  ∧ createReview (mkReviewData 1 1 5 (Some "Excelente")) shop_confirmed
    = (Throw
         (PlainError "Error al crear resena: "
            (PlainError "Error al verificar compra: "
               (JsError "Cannot read properties of undefined (reading 'in')"))),
       shop_confirmed)
  ∧ reviews shop_confirmed = [].
Proof.
  split; [eexists; by vm_compute|]. split; [by vm_compute|]. split; [|by vm_compute].
  apply (createReview_stops_at_verifyPurchase (mkReviewData 1 1 5 (Some "Excelente"))
           shop_confirmed).
  - change (1 ∈ users shop_confirmed).
    assert (users shop_confirmed = {[ 1 ]}) as -> by (by vm_compute).
    by apply elem_of_singleton.
  - vm_compute. eauto.
  - by vm_compute.
Defined.

(** C9. When the (user, product) pair of a stored review is submitted again,
    [createReview] fails with ConflictError and the database, hence the first
    review with its rating, comment and is_verified_purchase, is exactly as
    before the attempt. *)
Theorem createReview_duplicate_rejected (s : db) (reviewId : Z) (review : Review)
    (rating' : Z) (comment' : option string) :
  reviews_fk s →
  (reviewId, review) ∈ reviews s →
  createReview
    (mkReviewData (review_product_id review) (review_user_id review)
       rating' comment') s
  = (Throw (ConflictError "Ya has resenado este producto"), s)
  ∧ (reviewId, review)
    ∈ reviews (createReview
                 (mkReviewData (review_product_id review) (review_user_id review)
                    rating' comment') s).2.
Proof.
  intros Hfk Hin.
  assert (Hrun : createReview
                   (mkReviewData (review_product_id review) (review_user_id review)
                      rating' comment') s
                 = (Throw (ConflictError "Ya has resenado este producto"), s)).
  { unfold reviews_fk in Hfk. rewrite Forall_forall in Hfk.
    destruct (Hfk _ Hin) as [Huser [product Hproduct]]. simpl in Huser, Hproduct.
    unfold createReview, createReview_body, sequelize_transaction. unfold_M.
    cbn [rd_user_id rd_product_id].
    rewrite bool_decide_eq_false_2 by (intros Hnot; by apply Hnot).
    rewrite bool_decide_eq_false_2 by (by rewrite Hproduct).
    rewrite bool_decide_eq_true_2; [reflexivity|].
    unfold Review_findOne.
    apply (find_is_Some _ _ (reviewId, review) Hin).
    by apply bool_decide_eq_true_2. }
  rewrite Hrun. split; [reflexivity|exact Hin].
Qed.

Lemma createReview_duplicate_rejected_witness :
  createReview (mkReviewData 1 1 5 None) shop_reviewed
  = (Throw (ConflictError "Ya has resenado este producto"), shop_reviewed)
  ∧ reviews shop_reviewed = [(1, mkReview 1 1 3 (Some "Buen teclado") false)].
Proof.
  assert (Hrows : reviews shop_reviewed
                  = [(1, mkReview 1 1 3 (Some "Buen teclado") false)])
    by (by vm_compute).
  split; [|exact Hrows].
  apply (createReview_duplicate_rejected shop_reviewed 1
           (mkReview 1 1 3 (Some "Buen teclado") false) 5 None).
  - unfold reviews_fk. rewrite Hrows. constructor; [|constructor]. simpl. split.
    + change (1 ∈ ({[ 1 ]} : gset Z)). by apply elem_of_singleton.
    + vm_compute. eauto.
  - rewrite Hrows. apply list_elem_of_here.
Defined.

(** C10. Deleting the only review of product 1 succeeds and leaves the
    product without reviews; the aggregate recomputed for it is average 0
    (the NULL of the empty AVG read as 0) and count 0, but average_rating
    and review_count are not attributes of the Product model, and the
    products table is after the call what it was before. *)
Theorem deleteReview_last_review_aggregate_not_stored :
  reviews shop_reviewed = [(1, mkReview 1 1 3 (Some "Buen teclado") false)]
  ∧ ("average_rating" ∉ Product_tableAttributes)
  ∧ ("review_count" ∉ Product_tableAttributes)
  ∧ ∃ s',
      deleteReview 1 shop_reviewed = (Ok true, s')
      ∧ reviews s' = []
      ∧ averageRating (Review_stats s' 1) = None
      ∧ rounded_tenths (averageRating (Review_stats s' 1)) = 0
      ∧ totalReviews (Review_stats s' 1) = 0
      ∧ products s' = products shop_reviewed.
Proof.
  split; [by vm_compute|].
  split; [apply (proj1 (bool_decide_eq_false _)); by vm_compute|].
  split; [apply (proj1 (bool_decide_eq_false _)); by vm_compute|].
  destruct (deleteReview 1 shop_reviewed) as [[b|e] s'] eqn:Hrun;
    [|by vm_compute in Hrun].
  vm_compute in Hrun. injection Hrun as <- <-.
  eexists. split; [reflexivity|]. by vm_compute.
Qed.

End Reviews.

(** ** The assumptions on ids and foreign keys are invariants *)

Section StoreInvariants.
Import OrderService ReviewModels ReviewService.

Lemma sequelize_transaction_state {A B} typed prefix (body : db → M A)
    (after : A → M B) (s0 : db) :
  (∀ a s, (after a s).2 = s) →
  (sequelize_transaction typed prefix body after s0).2 = s0
  ∨ ∃ a, body s0 s0 = (Ok a, (sequelize_transaction typed prefix body after s0).2).
Proof.
  intros Hafter. unfold sequelize_transaction.
  destruct (body s0 s0) as [[a|e] s1]; [|by left].
  right. exists a. specialize (Hafter a s1).
  destruct (after a s1) as [[b|e] s2]; simpl in *; by subst.
Qed.

Lemma shop_invariants :
  stock_nonneg shop ∧ items_fresh shop ∧ reviews_fresh shop ∧ reviews_fk shop.
Proof.
  split; [|by repeat split; constructor].
  unfold stock_nonneg, shop. simpl.
  apply map_Forall_insert_2; [simpl; lia|].
  apply map_Forall_insert_2; [simpl; lia|]. apply map_Forall_empty.
Qed.

(** [createOrder] keeps the ids of order items below the next order id. *)
Lemma createOrder_items_fresh (orderData : OrderData)
    (items : option (list Item)) (s0 : db) :
  items_fresh s0 → items_fresh (createOrder orderData items s0).2.
Proof. by rewrite createOrder_run. Qed.

(** [createReview] keeps review ids below the next id and the foreign keys of
    the reviews table. *)
Lemma createReview_invariants (reviewData : ReviewData) (s0 : db) :
  reviews_fresh s0 → reviews_fk s0 →
  reviews_fresh (createReview reviewData s0).2
  ∧ reviews_fk (createReview reviewData s0).2.
Proof. by rewrite createReview_run. Qed.

(** [deleteReview] never writes the products table. *)
Lemma deleteReview_products (reviewId : Z) (s : db) :
  products (deleteReview reviewId s).2 = products s.
Proof.
  pose proof (sequelize_transaction_state is_NotFoundError
                "Error al eliminar resena: " (deleteReview_body reviewId)
                (λ _ : unit, ret true) s (λ _ _, eq_refl)) as Hcases.
  change (sequelize_transaction _ _ _ _ s) with (deleteReview reviewId s) in Hcases.
  destruct Hcases as [-> |[[] Hbody]]; [done|].
  revert Hbody. generalize (deleteReview reviewId s).2. intros s' Hbody.
  unfold deleteReview_body in Hbody. unfold bind at 1, get in Hbody.
  destruct (Review_findByPk s reviewId) as [review|]; [|discriminate].
  cbv zeta in Hbody.
  apply bind_ok_inv in Hbody as ([] & s1 & Hdestroy & Hagg).
  rewrite updateProductAverageRating_run in Hagg. injection Hagg as <-.
  unfold Review_destroy in Hdestroy. unfold_M. by injection Hdestroy as <-.
Qed.

End StoreInvariants.

(** ** Order creation: the stock check and atomicity *)

Section OrderCreation.
Import OrderService.

Lemma item_available_iff (s : db) (item : Item) :
  item_unavailable s item = false
  ↔ ∃ inv, inventory s !! product_id item = Some inv
           ∧ requested item ≤ quantity inv.
Proof.
  unfold item_unavailable.
  destruct (inventory s !! product_id item) as [inv|]; split.
  - intros Hlt. apply Z.ltb_ge in Hlt. eauto.
  - intros (inv' & [= <-] & Hle). by apply Z.ltb_ge.
  - discriminate.
  - intros (inv' & Hnone & _). discriminate.
Qed.

Lemma available_Forall (s : db) (items : list Item) :
  available (validateStockAvailability s items) = true
  ↔ Forall (λ item, ∃ inv, inventory s !! product_id item = Some inv
                           ∧ requested item ≤ quantity inv) items.
Proof.
  simpl. rewrite bool_decide_eq_true. induction items as [|item items IH]; simpl.
  - split; [constructor|done].
  - destruct (item_unavailable s item) eqn:Hitem.
    + rewrite filter_cons_True by done. simpl. split; [discriminate|].
      intros Hall. apply Forall_cons in Hall as [Hok _].
      apply item_available_iff in Hok. congruence.
    + rewrite filter_cons_False by (rewrite Hitem; discriminate).
      rewrite IH. split.
      * intros Hall. constructor; [by apply item_available_iff|done].
      * intros Hall. by apply Forall_cons in Hall as [_ Hall].
Qed.

(** X1. [validateStockAvailability] answers available exactly when every
    requested line has an inventory row holding at least the requested
    quantity; the names it lists are those of the lines that fail. *)
Theorem validateStockAvailability_available_iff (s : db) (items : list Item) :
  (available (validateStockAvailability s items) = true
   ↔ Forall (λ item, ∃ inv, inventory s !! product_id item = Some inv
                            ∧ requested item ≤ quantity inv) items)
  ∧ ∀ name,
      name ∈ unavailableItems (validateStockAvailability s items)
      ↔ ∃ item, item ∈ items ∧ name = unavailable_name s item
                ∧ ¬ ∃ inv, inventory s !! product_id item = Some inv
                           ∧ requested item ≤ quantity inv.
Proof.
  split; [apply available_Forall|]. simpl.
  intros name. rewrite list_elem_of_fmap. split.
  - intros (item & -> & Hin). apply list_elem_of_filter in Hin as [Hshort Hin].
    exists item. split; [done|]. split; [done|].
    intros Hok. apply item_available_iff in Hok. congruence.
  - intros (item & Hin & -> & Hnot). exists item. split; [done|].
    apply list_elem_of_filter. split; [|done].
    destruct (item_unavailable s item) eqn:Hitem; [done|].
    exfalso. apply Hnot. by apply item_available_iff.
Qed.

(** X2. [createOrder] is all or nothing: whatever makes it throw (unknown
    user, empty or undefined items, short stock, unknown product, values that
    [Order.create] rejects), the database after the call is the database
    before it. *)
Theorem createOrder_atomic (orderData : OrderData) (items : option (list Item))
    (s s' : db) (e : js_error) :
  createOrder orderData items s = (Throw e, s') → s' = s.
Proof. rewrite createOrder_run. by intros [= _ <-]. Qed.

Lemma createOrder_atomic_witness :
  ∃ e, createOrder customer_order (Some [mkItem 1 2; mkItem 7 1]) shop
       = (Throw e, shop).
Proof.
  destruct (createOrder customer_order (Some [mkItem 1 2; mkItem 7 1]) shop)
    as [[view|e] s'] eqn:Hrun; [by vm_compute in Hrun|].
  exists e. f_equal. exact (createOrder_atomic _ _ _ _ _ Hrun).
Defined.

End OrderCreation.

(** ** Status transitions, in general *)

Section OrderTransitions.
Import OrderService.

Lemma releaseOrderStock_tables (orderId : Z) (s sr : db) (u : unit) :
  releaseOrderStock orderId s = (Ok u, sr) →
  orders sr = orders s ∧ order_items sr = order_items s.
Proof.
  unfold releaseOrderStock. intros Hrun.
  apply bind_ok_inv in Hrun as (s_ & s_' & Hget & Hrun).
  unfold get in Hget. injection Hget as <- <-.
  by apply release_loop_tables in Hrun.
Qed.

(** [updateOrderStatus] on an existing order and a recognised status, as one
    equation: the optional release, the optional stock check, the write. *)
Lemma updateOrderStatus_run (orderId : Z) (newStatus : string) (s : db)
    (order : Order) (st : order_status) :
  orders s !! orderId = Some order →
  parse_status newStatus = Some st →
  updateOrderStatus orderId newStatus s
  = match (if status_eqb st cancelled && negb (status_eqb (status order) cancelled)
           then releaseOrderStock orderId s else (Ok tt, s)) with
    | (Throw e, _) =>
        (Throw (if is_ValidationError e || is_NotFoundError e
                   || is_BusinessLogicError e
                then e
                else PlainError "Error al actualizar estado del pedido: " e), s)
    | (Ok _, sr) =>
        if status_eqb st confirmed && status_eqb (status order) pending
           && negb (available
                      (validateStockAvailability s
                         (map (λ it, mkItem (item_product_id it) (item_quantity it))
                            (OrderModels.OrderItem_findAll sr orderId))))
        then (Throw (BusinessLogicError
                       "Stock insuficiente para confirmar el pedido"), s)
        else (Ok (mkOrderView orderId (OrderModels.set_status st order)
                    (map item_view (OrderModels.OrderItem_findAll sr orderId))),
              set_orders (alter (OrderModels.set_status st) orderId) sr)
    end.
Proof.
  intros Horder Hparse.
  unfold updateOrderStatus, sequelize_transaction.
  unfold bind at 1, get. rewrite Horder, Hparse.
  unfold bind at 1.
  destruct (status_eqb st cancelled && negb (status_eqb (status order) cancelled))
    eqn:Hcancel.
  - assert (st = cancelled) as -> by (destruct st; done).
    destruct (releaseOrderStock orderId s) as [[[]|e] sr] eqn:Hrel; [|reflexivity].
    apply releaseOrderStock_tables in Hrel as [Horders _].
    cbn [status_eqb andb]. unfold bind at 1, ret at 1.
    unfold OrderModels.Order_instance_update. unfold_M.
    erewrite getOrderById_run; [reflexivity|].
    simpl. by rewrite lookup_alter_eq, Horders, Horder.
  - unfold ret at 1.
    destruct (status_eqb st confirmed && status_eqb (status order) pending).
    + cbn [andb]. unfold bind at 1. unfold bind at 1, get. unfold throw_if.
      destruct (available _); cbn [negb]; [|reflexivity].
      unfold ret at 1. unfold OrderModels.Order_instance_update. unfold_M.
      erewrite getOrderById_run; [reflexivity|].
      simpl. by rewrite lookup_alter_eq, Horder.
    + cbn [andb]. unfold bind at 1, ret at 1.
      unfold OrderModels.Order_instance_update. unfold_M.
      erewrite getOrderById_run; [reflexivity|].
      simpl. by rewrite lookup_alter_eq, Horder.
Qed.

Lemma cancelOrder_run_eq (orderId : Z) (s : db) (order : Order) :
  orders s !! orderId = Some order →
  cancelOrder orderId s
  = if status_eqb (status order) cancelled
    then (Throw (ConflictError "El pedido ya esta cancelado"), s)
    else if status_eqb (status order) delivered
    then (Throw (BusinessLogicError "No se puede cancelar un pedido ya entregado"), s)
    else match releaseOrderStock orderId s with
         | (Throw e, _) =>
             (Throw (if is_typed e then e
                     else PlainError "Error al cancelar pedido: " e), s)
         | (Ok _, sr) =>
             (Ok (mkOrderView orderId
                    (OrderModels.set_status_and_payment cancelled refunded order)
                    (map item_view (OrderModels.OrderItem_findAll sr orderId))),
              set_orders
                (alter (OrderModels.set_status_and_payment cancelled refunded) orderId)
                sr)
         end.
Proof.
  intros Horder. unfold cancelOrder, sequelize_transaction.
  unfold bind at 1, get. rewrite Horder. unfold throw_if.
  destruct (status_eqb (status order) cancelled); [reflexivity|].
  unfold bind at 1, ret at 1.
  destruct (status_eqb (status order) delivered); [reflexivity|].
  unfold bind at 1, ret at 1. unfold bind at 1.
  destruct (releaseOrderStock orderId s) as [[[]|e] sr] eqn:Hrel; [|reflexivity].
  apply releaseOrderStock_tables in Hrel as [Horders _].
  unfold OrderModels.Order_instance_update. unfold_M.
  erewrite getOrderById_run; [reflexivity|].
  simpl. by rewrite lookup_alter_eq, Horders, Horder.
Qed.

Lemma unknown_order_rejected (orderId : Z) (newStatus : string) (s : db) :
  orders s !! orderId = None →
  updateOrderStatus orderId newStatus s
  = (Throw (NotFoundError "Pedido no encontrado"), s)
  ∧ cancelOrder orderId s = (Throw (NotFoundError "Pedido no encontrado"), s).
Proof.
  intros Hnone. unfold updateOrderStatus, cancelOrder, sequelize_transaction.
  unfold_M. by rewrite Hnone.
Qed.

Lemma updateOrderStatus_throw_state (orderId : Z) (newStatus : string)
    (s s' : db) (e : js_error) :
  updateOrderStatus orderId newStatus s = (Throw e, s') → s' = s.
Proof.
  destruct (orders s !! orderId) as [order|] eqn:Horder.
  - destruct (parse_status newStatus) as [st|] eqn:Hparse.
    + rewrite (updateOrderStatus_run _ _ _ _ _ Horder Hparse).
      destruct (if _ : bool then _ else _) as [[[]|e'] sr]; [|by intros [= _ <-]].
      destruct (_ && _); [by intros [= _ <-]|discriminate].
    + unfold updateOrderStatus, sequelize_transaction. unfold_M.
      rewrite Horder, Hparse. by intros [= _ <-].
  - rewrite (proj1 (unknown_order_rejected _ newStatus _ Horder)).
    by intros [= _ <-].
Qed.

Lemma cancelOrder_throw_state (orderId : Z) (s s' : db) (e : js_error) :
  cancelOrder orderId s = (Throw e, s') → s' = s.
Proof.
  destruct (orders s !! orderId) as [order|] eqn:Horder.
  - rewrite (cancelOrder_run_eq _ _ _ Horder).
    destruct (status_eqb _ cancelled); [by intros [= _ <-]|].
    destruct (status_eqb _ delivered); [by intros [= _ <-]|].
    destruct (releaseOrderStock orderId s) as [[[]|e'] sr];
      [discriminate|by intros [= _ <-]].
  - rewrite (proj2 (unknown_order_rejected _ "" _ Horder)). by intros [= _ <-].
Qed.

(** X5. A status change is all or nothing: when [updateOrderStatus] or
    [cancelOrder] throws, for an unknown order, an unknown status, a refused
    cancellation, a failed stock check or a release stopped half way, the
    database is left as it was. *)
Theorem order_transitions_atomic (orderId : Z) (newStatus : string)
    (s s' : db) (e : js_error) :
  updateOrderStatus orderId newStatus s = (Throw e, s')
  ∨ cancelOrder orderId s = (Throw e, s') →
  s' = s.
Proof.
  intros [Hrun|Hrun];
    [by eapply updateOrderStatus_throw_state|by eapply cancelOrder_throw_state].
Qed.

Lemma order_transitions_atomic_witness :
  (updateOrderStatus 1 "returned" shop_with_order).2 = shop_with_order
  ∧ (cancelOrder 1 shop_delivered).2 = shop_delivered.
Proof.
  split.
  - destruct (updateOrderStatus 1 "returned" shop_with_order) as [[v|e] s']
      eqn:Hrun; [by vm_compute in Hrun|].
    exact (order_transitions_atomic 1 "returned" _ _ e (or_introl Hrun)).
  - destruct (cancelOrder 1 shop_delivered) as [[v|e] s'] eqn:Hrun;
      [by vm_compute in Hrun|].
    exact (order_transitions_atomic 1 "" _ _ e (or_intror Hrun)).
Defined.

(** X6. [updateOrderStatus] looks the order up before it looks at the
    status: an unknown order is answered NotFoundError whatever the status,
    and an existing order with a status outside pending, confirmed, shipped,
    delivered, cancelled is answered ValidationError; nothing is written. *)
Theorem updateOrderStatus_rejections (orderId : Z) (newStatus : string) (s : db) :
  (orders s !! orderId = None →
   updateOrderStatus orderId newStatus s
   = (Throw (NotFoundError "Pedido no encontrado"), s))
  ∧ (is_Some (orders s !! orderId) →
     newStatus ∉ ["pending"; "confirmed"; "shipped"; "delivered"; "cancelled"] →
     updateOrderStatus orderId newStatus s
     = (Throw (ValidationError "Estado de pedido invalido"), s)).
Proof.
  split; [intros Hnone; by apply unknown_order_rejected|].
  intros [order Horder] Hnot.
  assert (parse_status newStatus = None) as Hparse.
  { unfold parse_status.
    destruct (String.eqb_spec newStatus "pending") as [->|_];
      [exfalso; apply Hnot; set_solver|].
    destruct (String.eqb_spec newStatus "confirmed") as [->|_];
      [exfalso; apply Hnot; set_solver|].
    destruct (String.eqb_spec newStatus "shipped") as [->|_];
      [exfalso; apply Hnot; set_solver|].
    destruct (String.eqb_spec newStatus "delivered") as [->|_];
      [exfalso; apply Hnot; set_solver|].
    destruct (String.eqb_spec newStatus "cancelled") as [->|_];
      [exfalso; apply Hnot; set_solver|].
    reflexivity. }
  unfold updateOrderStatus, sequelize_transaction. unfold_M.
  by rewrite Horder, Hparse.
Qed.

Lemma updateOrderStatus_rejections_witness :
  updateOrderStatus 9 "archived" shop_with_order
  = (Throw (NotFoundError "Pedido no encontrado"), shop_with_order)
  ∧ updateOrderStatus 1 "processing" shop_with_order
    = (Throw (ValidationError "Estado de pedido invalido"), shop_with_order).
Proof.
  destruct (updateOrderStatus_rejections 9 "archived" shop_with_order) as [H9 _].
  destruct (updateOrderStatus_rejections 1 "processing" shop_with_order) as [_ H1].
  split.
  - apply H9. by vm_compute.
  - apply H1; [vm_compute; eauto|].
    apply (proj1 (bool_decide_eq_false _)). by vm_compute.
Defined.

Lemma confirm_checks_current_stock_eq (orderId : Z) (s : db) (order : Order) :
  orders s !! orderId = Some order →
  status order = pending →
  updateOrderStatus orderId "confirmed" s
  = if available
         (validateStockAvailability s
            (map (λ it, mkItem (item_product_id it) (item_quantity it))
               (OrderModels.OrderItem_findAll s orderId)))
    then (Ok (mkOrderView orderId (OrderModels.set_status confirmed order)
                (map item_view (OrderModels.OrderItem_findAll s orderId))),
          set_orders (alter (OrderModels.set_status confirmed) orderId) s)
    else (Throw (BusinessLogicError "Stock insuficiente para confirmar el pedido"),
          s).
Proof.
  intros Horder Hpending.
  rewrite (updateOrderStatus_run orderId "confirmed" s order confirmed Horder eq_refl).
  rewrite Hpending. cbn [status_eqb andb]. by destruct (available _).
Qed.

(** X7. Confirming a pending order checks its lines against the inventory
    as it stands at that time: if every line is covered the order becomes
    confirmed and nothing else changes, otherwise BusinessLogicError is thrown
    and nothing changes at all. *)
Theorem confirm_checks_current_stock (orderId : Z) (s : db) (order : Order) :
  orders s !! orderId = Some order →
  status order = pending →
  updateOrderStatus orderId "confirmed" s
  = if available
         (validateStockAvailability s
            (map (λ it, mkItem (item_product_id it) (item_quantity it))
               (OrderModels.OrderItem_findAll s orderId)))
    then (Ok (mkOrderView orderId (OrderModels.set_status confirmed order)
                (map item_view (OrderModels.OrderItem_findAll s orderId))),
          set_orders (alter (OrderModels.set_status confirmed) orderId) s)
    else (Throw (BusinessLogicError "Stock insuficiente para confirmar el pedido"),
          s).
Proof. apply confirm_checks_current_stock_eq. Qed.

Lemma confirm_checks_current_stock_witness :
  ∃ view s',
    updateOrderStatus 1 "confirmed" shop_with_order = (Ok view, s')
    ∧ inventory s' = inventory shop_with_order
    ∧ status (view_order view) = confirmed.
Proof.
  assert (Horder : orders shop_with_order !! 1
                   = Some (mkOrder 1 pending payment_pending
                             (number_of_hundredths 2000)
                             "Av. Amazonas N34-120, Quito"
                             "Av. Amazonas N34-120, Quito")) by (by vm_compute).
  pose proof (confirm_checks_current_stock 1 shop_with_order _ Horder eq_refl)
    as Hrun.
  assert (Havail : available
            (validateStockAvailability shop_with_order
               (map (λ it, mkItem (item_product_id it) (item_quantity it))
                  (OrderModels.OrderItem_findAll shop_with_order 1))) = true)
    by (by vm_compute).
  rewrite Havail in Hrun. eexists _, _. split; [exact Hrun|]. by split.
Defined.

Lemma set_status_same (order : Order) :
  OrderModels.set_status (status order) order = order.
Proof. by destruct order. Qed.

(** X9. On an order already cancelled, [cancelOrder] throws ConflictError
    and [updateOrderStatus(id, 'cancelled')] returns the order, and neither
    touches the database: cancelling a cancelled order releases nothing.  (An
    order that was moved away from 'cancelled' in between is another matter,
    see X31.) *)
Theorem cancelled_order_not_released_again (orderId : Z) (s : db) (order : Order) :
  orders s !! orderId = Some order →
  status order = cancelled →
  cancelOrder orderId s = (Throw (ConflictError "El pedido ya esta cancelado"), s)
  ∧ updateOrderStatus orderId "cancelled" s
    = (Ok (mkOrderView orderId order
             (map item_view (OrderModels.OrderItem_findAll s orderId))), s).
Proof.
  intros Horder Hst. split.
  - rewrite (cancelOrder_run_eq _ _ _ Horder), Hst. reflexivity.
  - rewrite (updateOrderStatus_run orderId "cancelled" s order cancelled Horder eq_refl).
    rewrite Hst. cbn [status_eqb andb negb].
    rewrite <- Hst at 1. rewrite set_status_same. f_equal.
    destruct s as [us ps inv os no ois rs nr]. unfold set_orders. simpl in *.
    f_equal. apply map_eq. intros i. rewrite lookup_alter.
    destruct (decide (orderId = i)) as [<-|]; [|done].
    rewrite Horder. simpl. rewrite <- Hst. by rewrite set_status_same.
Qed.

Lemma cancelled_order_not_released_again_witness :
  ∃ view s1,
    cancelOrder 1 shop_with_order = (Ok view, s1)
    ∧ cancelOrder 1 s1 = (Throw (ConflictError "El pedido ya esta cancelado"), s1)
    ∧ (updateOrderStatus 1 "cancelled" s1).2 = s1.
Proof.
  destruct (cancelOrder 1 shop_with_order) as [[view|e] s1] eqn:Hrun;
    [|by vm_compute in Hrun].
  exists view, s1. split; [reflexivity|].
  assert (Horder : ∃ order, orders s1 !! 1 = Some order ∧ status order = cancelled).
  { vm_compute in Hrun. injection Hrun as _ <-. eexists. split; by vm_compute. }
  destruct Horder as (order & Horder & Hst).
  destruct (cancelled_order_not_released_again 1 s1 order Horder Hst) as [Hc Hu].
  split; [exact Hc|]. by rewrite Hu.
Defined.

(** X10. On an order that is neither cancelled nor delivered,
    [updateOrderStatus(id, 'cancelled')] and [cancelOrder(id)] release the
    same stock and both store status 'cancelled': started from the same
    database they return together or throw together, and when they return the
    two databases differ only in the payment_status of that order, which
    [cancelOrder] sets to 'refunded' and [updateOrderStatus] leaves alone. *)
Theorem cancel_paths_release_alike (orderId : Z) (s : db) (order : Order) :
  orders s !! orderId = Some order →
  status order ≠ cancelled →
  status order ≠ delivered →
  (∃ e1 e2, cancelOrder orderId s = (Throw e1, s)
            ∧ updateOrderStatus orderId "cancelled" s = (Throw e2, s))
  ∨ (∃ sr rows,
       cancelOrder orderId s
       = (Ok (mkOrderView orderId
                (OrderModels.set_status_and_payment cancelled refunded order) rows),
          set_orders
            (alter (OrderModels.set_status_and_payment cancelled refunded) orderId)
            sr)
       ∧ updateOrderStatus orderId "cancelled" s
         = (Ok (mkOrderView orderId (OrderModels.set_status cancelled order) rows),
            set_orders (alter (OrderModels.set_status cancelled) orderId) sr)).
Proof.
  intros Horder Hnc Hnd.
  rewrite (cancelOrder_run_eq _ _ _ Horder).
  rewrite (updateOrderStatus_run orderId "cancelled" s order cancelled Horder eq_refl).
  assert (status_eqb (status order) cancelled = false) as ->
    by (destruct (status order); done).
  assert (status_eqb (status order) delivered = false) as ->
    by (destruct (status order); done).
  cbn [status_eqb andb negb].
  destruct (releaseOrderStock orderId s) as [[[]|e] sr]; [right|left]; eauto.
Qed.

Lemma cancel_paths_release_alike_witness :
  ∃ v1 s1 v2 s2,
    cancelOrder 1 shop_with_order = (Ok v1, s1)
    ∧ updateOrderStatus 1 "cancelled" shop_with_order = (Ok v2, s2)
    ∧ inventory s1 = inventory s2
    ∧ orderItems v1 = orderItems v2.
Proof.
  assert (Horder : orders shop_with_order !! 1
                   = Some (mkOrder 1 pending payment_pending
                             (number_of_hundredths 2000)
                             "Av. Amazonas N34-120, Quito"
                             "Av. Amazonas N34-120, Quito")) by (by vm_compute).
  destruct (cancel_paths_release_alike 1 shop_with_order _ Horder)
    as [(e1 & e2 & Hc & _)|(sr & rows & Hc & Hu)]; [done|done| |].
  - by vm_compute in Hc.
  - eexists _, _, _, _. split; [exact Hc|]. split; [exact Hu|]. by split.
Defined.

(** X30. [cancelOrder] gives back what the order holds: for a stored order
    that is neither cancelled nor delivered, whose item quantities and whose
    products' stock are >= 0, the call returns the order as cancelled and
    refunded, and every inventory row is left as it was plus the quantities
    of the order's items of that product; the order items are untouched. *)
Theorem cancelOrder_returns_reserved_stock (orderId : Z) (s : db) (order : Order) :
  orders s !! orderId = Some order →
  status order ≠ cancelled → status order ≠ delivered →
  Forall (λ row, 0 ≤ item_quantity row) (OrderModels.OrderItem_findAll s orderId) →
  (∀ row, row ∈ OrderModels.OrderItem_findAll s orderId →
     ∀ inv, inventory s !! item_product_id row = Some inv → 0 ≤ quantity inv) →
  ∃ view s',
    cancelOrder orderId s = (Ok view, s')
    ∧ status (view_order view) = cancelled
    ∧ payment_status (view_order view) = refunded
    ∧ orders s' !! orderId = Some (view_order view)
    ∧ (∀ p, inventory s' !! p
            = adjust_quantity
                (delta_sum item_product_id item_quantity p
                   (OrderModels.OrderItem_findAll s orderId))
                <$> inventory s !! p)
    ∧ order_items s' = order_items s.
Proof.
  intros Horder Hnc Hnd Hrows Hstock.
  rewrite (cancelOrder_run _ _ _ Horder Hnc Hnd Hrows Hstock).
  eexists _, _. split; [reflexivity|]. simpl.
  split; [done|]. split; [done|].
  split; [by rewrite lookup_alter_eq, Horder|].
  split; [|done]. intros p. apply lookup_adjust_all.
Qed.

Lemma cancelOrder_returns_reserved_stock_witness :
  inventory shop_with_order !! 1 = Some (mkInventory 3 5 100)
  ∧ ∃ view s',
      cancelOrder 1 shop_with_order = (Ok view, s')
      ∧ status (view_order view) = cancelled
      ∧ inventory s' !! 1 = Some (mkInventory 5 5 100)
      ∧ inventory s' !! 2 = Some (mkInventory 8 5 100).
Proof.
  split; [reflexivity|].
  destruct (cancelOrder_returns_reserved_stock 1 shop_with_order
              (mkOrder 1 pending payment_pending (number_of_hundredths 2000)
                 "Av. Amazonas N34-120, Quito" "Av. Amazonas N34-120, Quito"))
    as (view & s' & Hrun & Hstatus & _ & _ & Hstock & _).
  - reflexivity.
  - discriminate.
  - discriminate.
  - vm_compute. repeat constructor; discriminate.
  - intros row Hrow inv Hinv. vm_compute in Hrow.
    apply elem_of_cons in Hrow as [->|Hrow]; [|by apply elem_of_nil in Hrow].
    vm_compute in Hinv. injection Hinv as <-. simpl. lia.
  - exists view, s'. split; [exact Hrun|]. split; [exact Hstatus|].
    rewrite !Hstock. split; reflexivity.
Defined.

(** X31. [updateOrderStatus] moves a cancelled order back to 'pending'
    without touching the stock, and the order can then be cancelled again:
    this [cancelOrder] adds the quantities of the order's items to the
    inventory once more, although the cancellation that came first had
    already given them back. *)
Theorem reopened_order_released_again (orderId : Z) (s : db) (order : Order) :
  orders s !! orderId = Some order →
  status order = cancelled →
  Forall (λ row, 0 ≤ item_quantity row) (OrderModels.OrderItem_findAll s orderId) →
  (∀ row, row ∈ OrderModels.OrderItem_findAll s orderId →
     ∀ inv, inventory s !! item_product_id row = Some inv → 0 ≤ quantity inv) →
  ∃ view1 s1 view2 s2,
    updateOrderStatus orderId "pending" s = (Ok view1, s1)
    ∧ status (view_order view1) = pending
    ∧ inventory s1 = inventory s
    ∧ cancelOrder orderId s1 = (Ok view2, s2)
    ∧ status (view_order view2) = cancelled
    ∧ ∀ p, inventory s2 !! p
           = adjust_quantity
               (delta_sum item_product_id item_quantity p
                  (OrderModels.OrderItem_findAll s orderId))
               <$> inventory s !! p.
Proof.
  intros Horder Hst Hrows Hstock.
  rewrite (updateOrderStatus_run orderId "pending" s order pending Horder eq_refl).
  cbn [status_eqb andb].
  eexists _, _. eexists _, _. split; [reflexivity|].
  split; [reflexivity|]. split; [reflexivity|].
  erewrite cancelOrder_run;
    [|simpl; by rewrite lookup_alter_eq, Horder|discriminate|discriminate
     |exact Hrows|exact Hstock].
  split; [reflexivity|]. split; [reflexivity|].
  intros p. simpl. apply lookup_adjust_all.
Qed.

Lemma reopened_order_released_again_witness :
  ∃ view0 s0 view1 s1 view2 s2,
    cancelOrder 1 shop_with_order = (Ok view0, s0)
    ∧ inventory s0 !! 1 = Some (mkInventory 5 5 100)
    ∧ updateOrderStatus 1 "pending" s0 = (Ok view1, s1)
    ∧ cancelOrder 1 s1 = (Ok view2, s2)
    ∧ inventory s2 !! 1 = Some (mkInventory 7 5 100).
Proof.
  destruct (cancelOrder 1 shop_with_order) as [[view0|e] s0] eqn:Hcancel;
    [|by vm_compute in Hcancel].
  assert (Hs0 : s0 = (cancelOrder 1 shop_with_order).2) by (by rewrite Hcancel).
  destruct (reopened_order_released_again 1 s0
              (mkOrder 1 cancelled refunded (number_of_hundredths 2000)
                 "Av. Amazonas N34-120, Quito" "Av. Amazonas N34-120, Quito"))
    as (view1 & s1 & view2 & s2 & Hopen & _ & _ & Hagain & _ & Hstock).
  - rewrite Hs0. by vm_compute.
  - reflexivity.
  - rewrite Hs0. vm_compute. repeat constructor; discriminate.
  - rewrite Hs0. intros row Hrow inv Hinv. vm_compute in Hrow.
    apply elem_of_cons in Hrow as [->|Hrow]; [|by apply elem_of_nil in Hrow].
    vm_compute in Hinv. injection Hinv as <-. simpl. lia.
  - exists view0, s0, view1, s1, view2, s2.
    split; [reflexivity|]. split; [rewrite Hs0; by vm_compute|].
    split; [exact Hopen|]. split; [exact Hagain|].
    rewrite Hstock, Hs0. by vm_compute.
Defined.

End OrderTransitions.

(** ** Invariants of the stock workflow *)

Section StockInvariants.
Import OrderService.

Lemma row_step_refl (inv : Inventory) : row_step inv inv.
Proof. by split. Qed.

Lemma inventory_evolves_refl (s : db) : inventory_evolves s s.
Proof. intros p inv Hinv. exists inv. split; [done|apply row_step_refl]. Qed.

Lemma inventory_evolves_trans (s1 s2 s3 : db) :
  inventory_evolves s1 s2 → inventory_evolves s2 s3 → inventory_evolves s1 s3.
Proof.
  intros H12 H23 p inv3 Hinv3.
  destruct (H23 p inv3 Hinv3) as (inv2 & Hinv2 & [Hq2 Hl2]).
  destruct (H12 p inv2 Hinv2) as (inv1 & Hinv1 & [Hq1 Hl1]).
  exists inv1. split; [done|]. split; auto.
Qed.

Lemma inventory_evolves_same (s s' : db) :
  inventory s' = inventory s → inventory_evolves s s'.
Proof. intros Heq p inv. rewrite Heq. intros Hinv. exists inv. by split. Qed.

Lemma inventory_evolves_insert (s : db) (p : Z) (inv new : Inventory) :
  inventory s !! p = Some inv → row_step inv new →
  inventory_evolves s (set_inventory (insert p new) s).
Proof.
  intros Hinv Hstep i inv'. simpl. rewrite lookup_insert.
  destruct (decide (p = i)) as [<-|].
  - intros [= <-]. eauto.
  - intros Hi. exists inv'. by split.
Qed.

Lemma evolves_invariants (s s' : db) :
  inventory_evolves s s' →
  (stock_nonneg s → stock_nonneg s') ∧ (limits_ok s → limits_ok s').
Proof.
  intros Hev. unfold stock_nonneg, limits_ok.
  split; intros Hs p inv' Hinv';
    destruct (Hev p inv' Hinv') as (inv & Hinv & [Hq Hl]); simpl;
    [apply Hq|apply Hl]; exact (Hs p inv Hinv).
Qed.

Lemma stock_only_step_refl (s : db) : stock_only_step s s.
Proof. split; [apply inventory_evolves_refl|done]. Qed.

Lemma instance_update_evolves {A} (k : M A) (p q : Z) (inv : Inventory) (s : db)
    (typed : js_error → bool) (prefix : string) :
  inventory s !! p = Some inv →
  (∀ s1, (k s1).2 = s1) →
  ∃ s', (catch_rethrow typed prefix
           (Models.Inventory_instance_update p inv q ;;; k) s).2 = s'
        ∧ stock_only_step s s'.
Proof.
  intros Hinv Hk. unfold catch_rethrow, bind.
  rewrite Inventory_instance_update_post.
  destruct (Z.leb_spec 0 q) as [Hq|Hq].
  - specialize (Hk (set_inventory (insert p (set_quantity q inv)) s)).
    destruct (k _) as [[a|e] s2]; simpl in *; subst s2;
      (eexists; split; [reflexivity|]); (split; [|done]);
      apply (inventory_evolves_insert s p inv); try done; by split.
  - exists s. split; [reflexivity|apply stock_only_step_refl].
Qed.

Lemma run_inventory_op_evolves (op : inventory_op) (s : db) :
  ∃ s', (run_inventory_op op s).2 = s' ∧ stock_only_step s s'.
Proof.
  pose proof (stock_only_step_refl s) as Hsame.
  destruct op as [p q operation|p q|p q|p a reason]; simpl.
  - unfold InventoryService.updateStock.
    unfold catch_rethrow at 1, bind at 1, get.
    destruct (inventory s !! p) as [inv|] eqn:Hinv; [|by exists s].
    destruct (String.eqb operation "add").
    { apply (instance_update_evolves _ p _ inv s _ _ Hinv),
        getInventoryByProductId_state. }
    destruct (String.eqb operation "subtract").
    { unfold bind, throw_if, ret, throw.
      destruct (quantity inv - q <? 0); [by exists s|].
      apply (instance_update_evolves _ p _ inv s _ _ Hinv),
        getInventoryByProductId_state. }
    destruct (String.eqb operation "set"); [|by exists s].
    apply (instance_update_evolves _ p _ inv s _ _ Hinv),
      getInventoryByProductId_state.
  - unfold InventoryService.reserveStock.
    unfold catch_rethrow at 1, bind at 1, get.
    destruct (inventory s !! p) as [inv|] eqn:Hinv; [|by exists s].
    unfold bind at 1, throw_if, throw, ret.
    destruct (quantity inv <? q); [by exists s|].
    apply (instance_update_evolves _ p _ inv s _ _ Hinv),
      getInventoryByProductId_state.
  - unfold InventoryService.releaseStock.
    unfold catch_rethrow at 1, bind at 1, get.
    destruct (inventory s !! p) as [inv|] eqn:Hinv; [|by exists s].
    apply (instance_update_evolves _ p _ inv s _ _ Hinv),
      getInventoryByProductId_state.
  - unfold InventoryService.processInventoryAdjustment.
    unfold catch_rethrow at 1, bind at 1, get.
    destruct (inventory s !! p) as [inv|] eqn:Hinv; [|by exists s].
    unfold bind at 1, throw_if, throw, ret.
    destruct (quantity inv + a <? 0); [by exists s|].
    apply (instance_update_evolves _ p _ inv s _ _ Hinv),
      getInventoryByProductId_state.
Qed.

(** The outcome of [updateStockLimits], case by case. *)
Lemma updateStockLimits_run (p : Z) (limits : InventoryService.StockLimits)
    (s : db) :
  InventoryService.updateStockLimits p limits s
  = if InventoryService.limit_max_stock limits
       <=? InventoryService.limit_min_stock limits
    then (Throw (ValidationError "El stock minimo debe ser menor al stock maximo"), s)
    else match inventory s !! p with
         | None =>
             (Throw (NotFoundError "Inventario no encontrado para este producto"), s)
         | Some inv =>
             if 0 <=? InventoryService.limit_min_stock limits
             then (Ok (mkInventory (quantity inv)
                         (InventoryService.limit_min_stock limits)
                         (InventoryService.limit_max_stock limits)),
                   set_inventory
                     (insert p (mkInventory (quantity inv)
                                  (InventoryService.limit_min_stock limits)
                                  (InventoryService.limit_max_stock limits))) s)
             else (Throw (PlainError "Error al actualizar limites de stock: "
                            SequelizeValidationError), s)
         end.
Proof.
  unfold InventoryService.updateStockLimits. unfold_M.
  destruct limits as [lo hi]. simpl.
  destruct (Z.leb_spec hi lo) as [Hle|Hlt]; [reflexivity|].
  unfold_M. simpl.
  destruct (inventory s !! p) as [inv|] eqn:Hinv; [|reflexivity].
  unfold Models.Inventory_instance_update_limits, Models.Inventory_limits_valid.
  destruct (Z.leb_spec 0 lo) as [Hlo|Hlo]; simpl.
  - destruct (Z.leb_spec 1 hi); [|lia]. simpl.
    destruct (Z.leb_spec hi lo); [lia|]. rewrite andb_false_r.
    unfold InventoryService.getInventoryByProductId. unfold_M. simpl.
    by rewrite lookup_insert_eq.
  - reflexivity.
Qed.

Lemma release_loop_evolves (rows : list OrderItem) (s sr : db) (u : unit) :
  for_of rows
    (λ row, Models.Inventory_update_literal (item_product_id row)
              (λ q, q + item_quantity row)) s = (Ok u, sr) →
  inventory_evolves s sr
  ∧ order_items sr = order_items s ∧ next_order_id sr = next_order_id s.
Proof.
  revert s. induction rows as [|row rows IH]; intros s; simpl.
  - unfold ret. intros [= _ <-]. split; [apply inventory_evolves_refl|done].
  - intros Hrun. apply bind_ok_inv in Hrun as ([] & s1 & Hstep & Hrest).
    apply Inventory_update_literal_ok in Hstep as [-> Hnonneg].
    apply IH in Hrest as (Hev & -> & ->). split; [|done].
    eapply inventory_evolves_trans; [|exact Hev].
    intros p inv'. simpl. intros Hinv'. pose proof Hinv' as Hrow.
    rewrite lookup_alter in Hrow.
    destruct (decide (item_product_id row = p)) as [<-|].
    + destruct (inventory s !! item_product_id row) as [inv|]; [|discriminate].
      injection Hrow as <-. exists inv. split; [done|].
      split; [intros _; by apply Hnonneg|done].
    + exists inv'. by split.
Qed.

Lemma createOrder_evolves (orderData : OrderData) (items : option (list Item))
    (s : db) :
  let s' := (createOrder orderData items s).2 in
  inventory_evolves s s' ∧ (items_fresh s → items_fresh s').
Proof.
  cbv zeta. rewrite createOrder_run. simpl.
  split; [apply inventory_evolves_refl|done].
Qed.

Lemma stock_only_step_set_orders (f : gmap Z Order → gmap Z Order) (s sr : db) :
  stock_only_step s sr → stock_only_step s (set_orders f sr).
Proof. intros (Hev & Hitems & Hnext). by split. Qed.

Lemma order_transition_evolves (orderId : Z) (s s' : db) :
  (∃ newStatus, s' = (updateOrderStatus orderId newStatus s).2)
  ∨ s' = (cancelOrder orderId s).2 →
  stock_only_step s s'.
Proof.
  pose proof (stock_only_step_refl s) as Hsame.
  assert (Hrel : ∀ u sr, releaseOrderStock orderId s = (Ok u, sr) →
                         stock_only_step s sr).
  { intros u sr Hrun. unfold releaseOrderStock in Hrun.
    apply bind_ok_inv in Hrun as (s_ & s_' & Hget & Hrun).
    unfold get in Hget. injection Hget as <- <-.
    by apply release_loop_evolves in Hrun. }
  intros [[newStatus ->]| ->].
  - destruct (orders s !! orderId) as [order|] eqn:Horder.
    + destruct (parse_status newStatus) as [st|] eqn:Hparse.
      * rewrite (updateOrderStatus_run _ _ _ _ _ Horder Hparse).
        destruct (status_eqb st cancelled && _).
        -- destruct (releaseOrderStock orderId s) as [[[]|e] sr] eqn:Hrun;
             [|exact Hsame].
           destruct (_ && _); [exact Hsame|].
           apply stock_only_step_set_orders. by eapply Hrel.
        -- destruct (_ && _); [exact Hsame|].
           by apply stock_only_step_set_orders.
      * unfold updateOrderStatus, sequelize_transaction. unfold_M.
        rewrite Horder, Hparse. exact Hsame.
    + rewrite (proj1 (unknown_order_rejected _ newStatus _ Horder)). exact Hsame.
  - destruct (orders s !! orderId) as [order|] eqn:Horder.
    + rewrite (cancelOrder_run_eq _ _ _ Horder).
      destruct (status_eqb _ cancelled); [exact Hsame|].
      destruct (status_eqb _ delivered); [exact Hsame|].
      destruct (releaseOrderStock orderId s) as [[[]|e] sr] eqn:Hrun;
        [|exact Hsame].
      apply stock_only_step_set_orders. by eapply Hrel.
    + rewrite (proj2 (unknown_order_rejected _ "" _ Horder)). exact Hsame.
Qed.

Lemma items_fresh_same (s s' : db) :
  order_items s' = order_items s → next_order_id s' = next_order_id s →
  items_fresh s → items_fresh s'.
Proof. unfold items_fresh. by intros -> ->. Qed.

Lemma run_stock_op_evolves (op : stock_op) (s : db) :
  inventory_evolves s (run_stock_op op s)
  ∧ (items_fresh s → items_fresh (run_stock_op op s)).
Proof.
  destruct op as [op|p limits|orderData items|orderId newStatus|orderId]; simpl.
  - destruct (run_inventory_op_evolves op s) as (s' & -> & Hev & Hitems & Hnext).
    split; [exact Hev|by apply items_fresh_same].
  - rewrite updateStockLimits_run.
    destruct (_ <=? _) eqn:Hle; [split; [apply inventory_evolves_refl|done]|].
    destruct (inventory s !! p) as [inv|] eqn:Hinv;
      [|split; [apply inventory_evolves_refl|done]].
    destruct (0 <=? _); [|split; [apply inventory_evolves_refl|done]].
    simpl. split; [|done].
    apply (inventory_evolves_insert s p inv); [done|].
    split; simpl; [done|]. intros _. by apply Z.leb_gt in Hle.
  - apply createOrder_evolves.
  - destruct (order_transition_evolves orderId s
                (updateOrderStatus orderId newStatus s).2) as (Hev & Hitems & Hnext);
      [left; eauto|].
    split; [exact Hev|by apply items_fresh_same].
  - destruct (order_transition_evolves orderId s (cancelOrder orderId s).2)
      as (Hev & Hitems & Hnext); [by right|].
    split; [exact Hev|by apply items_fresh_same].
Qed.

(** X11. Whatever sequence of inventory calls, limit updates, order
    creations, status changes and cancellations is run, returning or
    throwing: quantities that were all >= 0 are all >= 0 afterwards, limits
    that all had min_stock < max_stock still have, no inventory row appears,
    and order items keep referring to order ids already handed out. *)
Theorem stock_workflow_invariants (ops : list stock_op) (s : db) :
  inventory_evolves s (run_stock_ops ops s)
  ∧ (stock_nonneg s → stock_nonneg (run_stock_ops ops s))
  ∧ (limits_ok s → limits_ok (run_stock_ops ops s))
  ∧ (items_fresh s → items_fresh (run_stock_ops ops s)).
Proof.
  assert (H : inventory_evolves s (run_stock_ops ops s)
              ∧ (items_fresh s → items_fresh (run_stock_ops ops s))).
  { revert s. induction ops as [|op ops IH]; intros s; simpl.
    - split; [apply inventory_evolves_refl|done].
    - destruct (run_stock_op_evolves op s) as [Hev Hfresh].
      destruct (IH (run_stock_op op s)) as [Hev' Hfresh'].
      split; [by eapply inventory_evolves_trans|auto]. }
  destruct H as [Hev Hfresh].
  destruct (evolves_invariants _ _ Hev) as [Hq Hl]. auto.
Qed.

Lemma stock_workflow_invariants_witness :
  let ops :=
    [CreateOrder customer_order (Some [mkItem 1 3; mkItem 1 3]);
     CreateOrder customer_order (Some [mkItem 1 2; mkItem 2 8]);
     InventoryOp (UpdateStock 2 (-4) "add");
     UpdateStockLimits 1 (InventoryService.mkStockLimits 9 3);
     UpdateStockLimits 1 (InventoryService.mkStockLimits 2 50);
     UpdateOrderStatus 1 "delivered"; UpdateOrderStatus 1 "cancelled";
     CancelOrder 1] in
  stock_nonneg (run_stock_ops ops shop)
  ∧ limits_ok (run_stock_ops ops shop)
  ∧ items_fresh (run_stock_ops ops shop)
  ∧ inventory (run_stock_ops ops shop) !! 1 = Some (mkInventory 5 2 50).
Proof.
  cbv zeta.
  match goal with
  | |- context [run_stock_ops ?ops shop] =>
      destruct (stock_workflow_invariants ops shop) as (_ & Hq & Hl & Hfresh)
  end.
  destruct shop_invariants as (Hs & Hi & _).
  split; [by apply Hq|]. split; [|split; [by apply Hfresh|by vm_compute]].
  apply Hl. unfold limits_ok, shop. simpl.
  apply map_Forall_insert_2; [simpl; lia|].
  apply map_Forall_insert_2; [simpl; lia|]. apply map_Forall_empty.
Defined.

End StockInvariants.

(** ** Reservations, limits and availability reports *)

Section InventoryCalls.
Import InventoryService.

Lemma reserveStock_run (p q : Z) (s : db) (inv : Inventory) :
  inventory s !! p = Some inv →
  reserveStock p q s
  = if quantity inv <? q
    then (Throw (BusinessLogicError
                   ("Stock insuficiente. Disponible: " +:+ pretty (quantity inv)
                    +:+ ", Solicitado: " +:+ pretty q)), s)
    else if 0 <=? quantity inv - q
    then (Ok (set_quantity (quantity inv - q) inv),
          set_inventory (insert p (set_quantity (quantity inv - q) inv)) s)
    else (Throw (PlainError "Error al reservar stock: " SequelizeValidationError), s).
Proof.
  intros Hinv. unfold reserveStock. unfold_M. rewrite Hinv.
  destruct (quantity inv <? q); [reflexivity|]. simpl.
  rewrite Inventory_instance_update_post.
  destruct (0 <=? quantity inv - q); [|reflexivity]. simpl.
  unfold getInventoryByProductId. unfold_M. simpl. by rewrite lookup_insert_eq.
Qed.

Lemma releaseStock_run (p q : Z) (s : db) (inv : Inventory) :
  inventory s !! p = Some inv →
  releaseStock p q s
  = if 0 <=? quantity inv + q
    then (Ok (set_quantity (quantity inv + q) inv),
          set_inventory (insert p (set_quantity (quantity inv + q) inv)) s)
    else (Throw (PlainError "Error al liberar stock: " SequelizeValidationError), s).
Proof.
  intros Hinv. unfold releaseStock. unfold_M. rewrite Hinv. simpl.
  rewrite Inventory_instance_update_post.
  destruct (0 <=? quantity inv + q); [|reflexivity]. simpl.
  unfold getInventoryByProductId. unfold_M. simpl. by rewrite lookup_insert_eq.
Qed.

Lemma write_back_row (p : Z) (inv new : Inventory) (s : db) :
  inventory s !! p = Some inv →
  set_inventory (insert p inv) (set_inventory (insert p new) s) = s.
Proof.
  intros Hinv. destruct s as [us ps m os no ois rs nr]. unfold set_inventory.
  simpl in *. f_equal. rewrite insert_insert_eq. by apply insert_id.
Qed.

(** X12. A reservation that [reserveStock] accepted on a row whose quantity
    was >= 0 is undone by [releaseStock] of the same quantity: the release
    returns and the database is again the one before the reservation. *)
Theorem reserve_then_release_restores (p q : Z) (s s1 : db) (inv inv1 : Inventory) :
  inventory s !! p = Some inv →
  0 ≤ quantity inv →
  reserveStock p q s = (Ok inv1, s1) →
  releaseStock p q s1 = (Ok inv, s).
Proof.
  intros Hinv Hq Hreserve.
  rewrite (reserveStock_run _ _ _ _ Hinv) in Hreserve.
  destruct (quantity inv <? q); [discriminate|].
  destruct (0 <=? quantity inv - q); [|discriminate].
  injection Hreserve as <- <-.
  erewrite releaseStock_run by (simpl; apply lookup_insert_eq). simpl.
  replace (quantity inv - q + q) with (quantity inv) by lia.
  destruct (Z.leb_spec 0 (quantity inv)); [|lia].
  assert (set_quantity (quantity inv) (set_quantity (quantity inv - q) inv) = inv)
    as -> by (by destruct inv).
  by rewrite write_back_row.
Qed.

Lemma reserve_then_release_restores_witness :
  ∃ inv1 s1,
    reserveStock 2 8 shop = (Ok inv1, s1)
    ∧ quantity inv1 = 0
    ∧ releaseStock 2 8 s1 = (Ok (mkInventory 8 5 100), shop).
Proof.
  destruct (reserveStock 2 8 shop) as [[inv1|e] s1] eqn:Hrun;
    [|by vm_compute in Hrun].
  exists inv1, s1. split; [reflexivity|]. split.
  - vm_compute in Hrun. by injection Hrun as <- _.
  - apply (reserve_then_release_restores 2 8 shop s1 (mkInventory 8 5 100) inv1);
      [reflexivity|simpl; lia|exact Hrun].
Defined.

(** X13. [reserveStock] returns exactly when the requested quantity does
    not exceed the stock of the row, and then the row holds the difference;
    otherwise it throws a BusinessLogicError that quotes the stock and the
    request, and writes nothing.  Without a row it throws NotFoundError. *)
Theorem reserveStock_outcome (p q : Z) (s : db) :
  match inventory s !! p with
  | None =>
      reserveStock p q s
      = (Throw (NotFoundError "Inventario no encontrado para este producto"), s)
  | Some inv =>
      (q ≤ quantity inv →
       reserveStock p q s
       = (Ok (set_quantity (quantity inv - q) inv),
          set_inventory (insert p (set_quantity (quantity inv - q) inv)) s))
      ∧ (quantity inv < q →
         reserveStock p q s
         = (Throw (BusinessLogicError
                     ("Stock insuficiente. Disponible: " +:+ pretty (quantity inv)
                      +:+ ", Solicitado: " +:+ pretty q)), s))
  end.
Proof.
  destruct (inventory s !! p) as [inv|] eqn:Hinv.
  - rewrite (reserveStock_run _ _ _ _ Hinv). split; intros Hcmp.
    + destruct (Z.ltb_spec (quantity inv) q); [lia|].
      destruct (Z.leb_spec 0 (quantity inv - q)); [reflexivity|lia].
    + destruct (Z.ltb_spec (quantity inv) q); [reflexivity|lia].
  - unfold reserveStock. unfold_M. by rewrite Hinv.
Qed.

Lemma reserveStock_outcome_witness :
  reserveStock 2 100 shop
  = (Throw (BusinessLogicError "Stock insuficiente. Disponible: 8, Solicitado: 100"),
     shop)
  ∧ reserveStock 7 1 shop
    = (Throw (NotFoundError "Inventario no encontrado para este producto"), shop).
Proof.
  split.
  - pose proof (reserveStock_outcome 2 100 shop) as H.
    change (inventory shop !! 2) with (Some (mkInventory 8 5 100)) in H.
    destruct H as [_ H]. apply H. simpl. lia.
  - exact (reserveStock_outcome 7 1 shop).
Defined.

(** X14. The instance methods of the Inventory model keep the quantity in
    range: after [addStock] returns the quantity is the old one plus the
    amount and lies between 0 and max_stock; after [reduceStock] returns it is
    the old one less the amount, which was available, and is >= 0.  The row
    stored for the product is the instance returned. *)
Theorem instance_stock_methods_in_range (p q : Z) (inv inv' : Inventory)
    (s s' : db) :
  (Models.addStock p inv q s = (Ok inv', s') →
   quantity inv' = quantity inv + q
   ∧ 0 ≤ quantity inv' ≤ max_stock inv'
   ∧ inventory s' !! p = Some inv')
  ∧ (Models.reduceStock p inv q s = (Ok inv', s') →
     quantity inv' = quantity inv - q
     ∧ q ≤ quantity inv ∧ 0 ≤ quantity inv'
     ∧ inventory s' !! p = Some inv').
Proof.
  unfold Models.addStock, Models.reduceStock. unfold_M. split.
  - destruct (Z.ltb_spec (max_stock inv) (quantity inv + q)); [discriminate|].
    simpl. rewrite Inventory_instance_update_post.
    destruct (Z.leb_spec 0 (quantity inv + q)); [|discriminate].
    intros [= <- <-]. simpl. rewrite lookup_insert_eq. repeat split; lia.
  - destruct (Z.ltb_spec (quantity inv) q); [discriminate|].
    simpl. rewrite Inventory_instance_update_post.
    destruct (Z.leb_spec 0 (quantity inv - q)); [|discriminate].
    intros [= <- <-]. simpl. rewrite lookup_insert_eq. repeat split; lia.
Qed.

Lemma instance_stock_methods_in_range_witness :
  (∃ e, Models.addStock 1 (mkInventory 5 5 100) 96 shop = (Throw e, shop))
  ∧ (∃ inv' s', updateStock 1 96 "add" shop = (Ok inv', s') ∧ quantity inv' = 101)
  ∧ (∃ inv' s', Models.addStock 1 (mkInventory 5 5 100) 95 shop = (Ok inv', s')
                ∧ quantity inv' = 100)
  ∧ (∃ inv' s', Models.reduceStock 1 (mkInventory 5 5 100) 5 shop = (Ok inv', s')
                ∧ quantity inv' = 0).
Proof.
  split; [eexists; by vm_compute|]. split; [eexists _, _; by vm_compute|]. split.
  - destruct (Models.addStock 1 (mkInventory 5 5 100) 95 shop) as [[inv'|e] s']
      eqn:Hrun; [|by vm_compute in Hrun].
    exists inv', s'. split; [reflexivity|].
    destruct (instance_stock_methods_in_range 1 95 (mkInventory 5 5 100) inv'
                shop s') as [Hadd _].
    by destruct (Hadd Hrun) as (-> & _).
  - destruct (Models.reduceStock 1 (mkInventory 5 5 100) 5 shop) as [[inv'|e] s']
      eqn:Hrun; [|by vm_compute in Hrun].
    exists inv', s'. split; [reflexivity|].
    destruct (instance_stock_methods_in_range 1 5 (mkInventory 5 5 100) inv'
                shop s') as [_ Hred].
    by destruct (Hred Hrun) as (-> & _).
Defined.

(** X15. [updateStockLimits] compares the two limits before it looks for
    the product: limits with min_stock >= max_stock are refused with
    ValidationError even for an unknown product; with limits in order an
    unknown product is answered NotFoundError; and when the call returns, the
    row keeps its quantity and carries the new limits, which satisfy
    0 <= min_stock < max_stock, while every other row is untouched. *)
Theorem updateStockLimits_outcome (p : Z) (limits : StockLimits) (s : db) :
  (limit_max_stock limits ≤ limit_min_stock limits →
   updateStockLimits p limits s
   = (Throw (ValidationError "El stock minimo debe ser menor al stock maximo"), s))
  ∧ (limit_min_stock limits < limit_max_stock limits →
     inventory s !! p = None →
     updateStockLimits p limits s
     = (Throw (NotFoundError "Inventario no encontrado para este producto"), s))
  ∧ (∀ inv' s',
       updateStockLimits p limits s = (Ok inv', s') →
       ∃ inv, inventory s !! p = Some inv
              ∧ inv' = mkInventory (quantity inv) (limit_min_stock limits)
                         (limit_max_stock limits)
              ∧ 0 ≤ min_stock inv' < max_stock inv'
              ∧ inventory s' = <[p := inv']> (inventory s)).
Proof.
  rewrite updateStockLimits_run. split; [|split].
  - intros Hle. by destruct (Z.leb_spec (limit_max_stock limits)
                               (limit_min_stock limits)); [|lia].
  - intros Hlt Hnone.
    destruct (Z.leb_spec (limit_max_stock limits) (limit_min_stock limits)); [lia|].
    by rewrite Hnone.
  - intros inv' s'.
    destruct (Z.leb_spec (limit_max_stock limits) (limit_min_stock limits));
      [discriminate|].
    destruct (inventory s !! p) as [inv|]; [|discriminate].
    destruct (Z.leb_spec 0 (limit_min_stock limits)); [|discriminate].
    intros [= <- <-]. exists inv. simpl. repeat split; [lia|lia].
Qed.

Lemma updateStockLimits_outcome_witness :
  updateStockLimits 7 (mkStockLimits 10 10) shop
  = (Throw (ValidationError "El stock minimo debe ser menor al stock maximo"), shop)
  ∧ updateStockLimits 7 (mkStockLimits 2 10) shop
    = (Throw (NotFoundError "Inventario no encontrado para este producto"), shop)
  ∧ ∃ s', updateStockLimits 1 (mkStockLimits 2 10) shop
          = (Ok (mkInventory 5 2 10), s').
Proof.
  destruct (updateStockLimits_outcome 7 (mkStockLimits 10 10) shop) as (H1 & _).
  destruct (updateStockLimits_outcome 7 (mkStockLimits 2 10) shop) as (_ & H2 & _).
  split; [apply H1; simpl; lia|]. split; [apply H2; [simpl; lia|reflexivity]|].
  destruct (updateStockLimits 1 (mkStockLimits 2 10) shop) as [[inv'|e] s']
    eqn:Hrun; [|by vm_compute in Hrun].
  exists s'.
  destruct (updateStockLimits_outcome 1 (mkStockLimits 2 10) shop) as (_ & _ & H3).
  destruct (H3 inv' s' Hrun) as (inv & Hinv & -> & _).
  change (inventory shop !! 1) with (Some (mkInventory 5 5 100)) in Hinv.
  by injection Hinv as <-.
Defined.

End InventoryCalls.

Section AvailabilityReports.
Import InventoryService OrderService.

Lemma validateStockAvailability_forallb (s : db) (items : list Item) :
  available (validateStockAvailability s items)
  = forallb (λ item, negb (item_unavailable s item)) items.
Proof.
  unfold validateStockAvailability. simpl.
  induction items as [|item items IH]; [done|]. simpl.
  destruct (item_unavailable s item) eqn:Hitem.
  - rewrite filter_cons_True by done. reflexivity.
  - rewrite filter_cons_False by (rewrite Hitem; discriminate). exact IH.
Qed.

Lemma checkStockAvailability_loop_ok (s : db) (items : list Item) :
  (∀ item, item ∈ items →
     is_Some (inventory s !! product_id item) →
     is_Some (products s !! product_id item)) →
  ∀ results all_,
  ∃ entries,
    checkStockAvailability_loop s
      (map (λ item, (product_id item, requested item)) items) results all_
    = Ok (mkAvailabilityReport
            (all_ && forallb (λ item, negb (item_unavailable s item)) items)
            (results ++ entries))
    ∧ map entry_product_id entries = map product_id items
    ∧ map entry_requested entries = map requested items
    ∧ map (λ entry, bool_decide (entry_inStock entry = Some true)) entries
      = map (λ item, negb (item_unavailable s item)) items.
Proof.
  induction items as [|item items IH]; intros Hfk results all_.
  - exists []. simpl. by rewrite andb_true_r, app_nil_r.
  - simpl.
    assert (∀ item', item' ∈ items →
              is_Some (inventory s !! product_id item') →
              is_Some (products s !! product_id item')) as Hrest
      by (intros item' Hin; apply Hfk; by apply list_elem_of_further).
    pose proof (Hfk item ltac:(apply list_elem_of_here)) as Hhere.
    assert (item_unavailable s item
            = match inventory s !! product_id item with
              | None => true
              | Some inv => quantity inv <? requested item
              end) as -> by reflexivity.
    destruct (inventory s !! product_id item) as [inv|].
    + destruct Hhere as [product ->]; [eauto|].
      edestruct (IH Hrest) as (entries & -> & Hids & Hreq & Hstock).
      eexists (_ :: entries). rewrite <- app_assoc. simpl. split.
      { do 2 f_equal. rewrite Z.leb_antisym.
        by destruct (quantity inv <? requested item), all_. }
      simpl. rewrite Hids, Hreq, Hstock, Z.leb_antisym.
      by destruct (quantity inv <? requested item).
    + edestruct (IH Hrest) as (entries & -> & Hids & Hreq & Hstock).
      eexists (_ :: entries). rewrite <- app_assoc. simpl. split.
      { do 2 f_equal. by rewrite andb_false_r. }
      simpl. by rewrite Hids, Hreq, Hstock.
Qed.

(** X16. When the products joined to the inventory rows of the requested
    items exist, [InventoryService.checkStockAvailability] returns, writes
    nothing, and agrees with [OrderService.validateStockAvailability]: its
    allAvailable flag is the other's available flag, and its report holds one
    entry per item, in order, with the item's product id and quantity and with
    inStock true exactly for the items that can be served. *)
Theorem checkStockAvailability_agrees (s : db) (items : list Item) :
  (∀ item, item ∈ items →
     is_Some (inventory s !! product_id item) →
     is_Some (products s !! product_id item)) →
  ∃ report,
    checkStockAvailability (map (λ item, (product_id item, requested item)) items) s
    = (Ok report, s)
    ∧ allAvailable report = available (validateStockAvailability s items)
    ∧ map entry_product_id (report_items report) = map product_id items
    ∧ map entry_requested (report_items report) = map requested items
    ∧ map (λ entry, bool_decide (entry_inStock entry = Some true))
        (report_items report)
      = map (λ item, negb (item_unavailable s item)) items.
Proof.
  intros Hfk.
  destruct (checkStockAvailability_loop_ok s items Hfk [] true)
    as (entries & Hloop & Hids & Hreq & Hstock).
  rewrite validateStockAvailability_forallb.
  eexists. unfold checkStockAvailability. unfold_M. rewrite Hloop. simpl.
  by split.
Qed.

Lemma checkStockAvailability_agrees_witness :
  ∃ report,
    checkStockAvailability [(1, 2); (7, 1); (2, 9)] shop = (Ok report, shop)
    ∧ allAvailable report = false
    ∧ map (λ entry, bool_decide (entry_inStock entry = Some true))
        (report_items report)
      = [true; false; false].
Proof.
  destruct (checkStockAvailability_agrees shop
              [mkItem 1 2; mkItem 7 1; mkItem 2 9]) as (report & Hrun & Hall & _ & _ & Hstock).
  - intros item Hin Hrow.
    apply elem_of_cons in Hin as [->|Hin]; [vm_compute; eauto|].
    apply elem_of_cons in Hin as [->|Hin];
      [vm_compute in Hrow; by destruct Hrow|].
    apply elem_of_cons in Hin as [->|Hin]; [vm_compute; eauto|].
    by apply elem_of_nil in Hin.
  - exists report. split; [exact Hrun|]. split; [exact Hall|exact Hstock].
Defined.

(** X17. An inventory row whose product is missing makes
    [checkStockAvailability] throw its generic Error for any request that
    reaches the row, where [validateStockAvailability] answers for the same
    request; nothing is written. *)
Theorem checkStockAvailability_orphan_row (s : db) (p q : Z) (inv : Inventory)
    (rest : list (Z * Z)) :
  inventory s !! p = Some inv →
  products s !! p = None →
  checkStockAvailability ((p, q) :: rest) s
  = (Throw (PlainError "Error al verificar disponibilidad de stock: "
              (JsError "Cannot read properties of null (reading 'name')")), s)
  ∧ unavailableItems (validateStockAvailability s [mkItem p q])
    = if quantity inv <? q then ["Producto ID " +:+ pretty p] else [].
Proof.
  intros Hinv Hprod. split.
  - unfold checkStockAvailability. unfold_M. simpl. by rewrite Hinv, Hprod.
  - unfold validateStockAvailability. simpl.
    destruct (quantity inv <? q) eqn:Hq.
    + rewrite filter_cons_True by (unfold item_unavailable; simpl; by rewrite Hinv).
      simpl. unfold unavailable_name. simpl. by rewrite Hprod.
    + rewrite filter_cons_False; [done|].
      unfold item_unavailable. simpl. rewrite Hinv, Hq. discriminate.
Qed.

Lemma checkStockAvailability_orphan_row_witness :
  let s := set_products (delete 2) shop in
  checkStockAvailability [(2, 1)] s
  = (Throw (PlainError "Error al verificar disponibilidad de stock: "
              (JsError "Cannot read properties of null (reading 'name')")), s)
  ∧ unavailableItems (validateStockAvailability s [mkItem 2 1]) = [].
Proof.
  exact (checkStockAvailability_orphan_row (set_products (delete 2) shop) 2 1
           (mkInventory 8 5 100) [] eq_refl eq_refl).
Defined.

End AvailabilityReports.

(** ** Updating and deleting reviews *)

Section ReviewLifecycle.
Import ReviewModels ReviewService.

Lemma find_filter_id (l : list (Z * Review)) (reviewId id : Z) :
  find (λ r : Z * Review, bool_decide (r.1 = id))
    (filter (λ r : Z * Review, r.1 ≠ reviewId) l)
  = if decide (id = reviewId) then None
    else find (λ r : Z * Review, bool_decide (r.1 = id)) l.
Proof.
  induction l as [|r l IH]; [by destruct (decide (id = reviewId))|].
  destruct (decide (r.1 = reviewId)) as [Heq|Hne].
  - rewrite filter_cons_False by (intros H; by apply H). rewrite IH.
    destruct (decide (id = reviewId)) as [->|Hid]; [done|].
    simpl. by rewrite bool_decide_eq_false_2 by congruence.
  - rewrite filter_cons_True by done. simpl. rewrite IH.
    destruct (decide (id = reviewId)) as [->|Hid]; [|done].
    by rewrite bool_decide_eq_false_2.
Qed.

Lemma deleteReview_run (reviewId : Z) (s : db) :
  deleteReview reviewId s
  = match Review_findByPk s reviewId with
    | None => (Throw (NotFoundError "Resena no encontrada"), s)
    | Some _ => (Ok true, set_reviews (filter (λ r, r.1 ≠ reviewId)) s)
    end.
Proof.
  unfold deleteReview, sequelize_transaction, deleteReview_body. unfold_M.
  destruct (Review_findByPk s reviewId) as [review|]; [|reflexivity].
  unfold Review_destroy. unfold_M.
  by rewrite updateProductAverageRating_run.
Qed.

(** X18. [deleteReview] of an id that is not stored throws NotFoundError and
    leaves the database as it was; of a stored id it returns true, after which
    the id is no longer found, every other review is found as before, and
    users, products, stock, orders and the next review id are untouched. *)
Theorem deleteReview_outcome (reviewId : Z) (s : db) :
  match Review_findByPk s reviewId with
  | None =>
      deleteReview reviewId s = (Throw (NotFoundError "Resena no encontrada"), s)
  | Some _ =>
      ∃ s', deleteReview reviewId s = (Ok true, s')
            ∧ Review_findByPk s' reviewId = None
            ∧ (∀ id, id ≠ reviewId → Review_findByPk s' id = Review_findByPk s id)
            ∧ s' = mkDb (users s) (products s) (inventory s) (orders s)
                     (next_order_id s) (order_items s) (reviews s')
                     (next_review_id s)
  end.
Proof.
  rewrite deleteReview_run.
  destruct (Review_findByPk s reviewId) as [review|]; [|reflexivity].
  eexists. split; [reflexivity|]. unfold Review_findByPk. simpl.
  split; [|split; [|reflexivity]].
  - rewrite find_filter_id. by destruct (decide (reviewId = reviewId)).
  - intros id Hid. rewrite find_filter_id. by destruct (decide (id = reviewId)).
Qed.

End ReviewLifecycle.

Section ReviewUpdates.
Import ReviewModels ReviewService.

Lemma find_map_update (l : list (Z * Review)) (reviewId id : Z)
    (g : Review → Review) :
  find (λ r : Z * Review, bool_decide (r.1 = id))
    (map (λ r : Z * Review,
            if bool_decide (r.1 = reviewId) then (r.1, g r.2) else r) l)
  = (λ r : Z * Review, if bool_decide (r.1 = reviewId) then (r.1, g r.2) else r)
      <$> find (λ r : Z * Review, bool_decide (r.1 = id)) l.
Proof.
  induction l as [|r l IH]; [done|]. simpl.
  assert ((if bool_decide (r.1 = reviewId) then (r.1, g r.2) else r).1 = r.1)
    as -> by (by destruct (bool_decide (r.1 = reviewId))).
  destruct (bool_decide (r.1 = id)); [done|exact IH].
Qed.

Lemma find_id_fst (l : list (Z * Review)) (id : Z) (r : Z * Review) :
  find (λ r : Z * Review, bool_decide (r.1 = id)) l = Some r → r.1 = id.
Proof.
  induction l as [|x l IH]; [discriminate|]. simpl.
  destruct (bool_decide (x.1 = id)) eqn:Hx; [|exact IH].
  intros [= <-]. by apply bool_decide_eq_true in Hx.
Qed.

Lemma Review_findByPk_updated (s : db) (reviewId id : Z) (u : ReviewUpdate) :
  Review_findByPk
    (set_reviews
       (map (λ r, if bool_decide (r.1 = reviewId)
                  then (r.1, apply_update u r.2) else r)) s) id
  = if decide (id = reviewId)
    then apply_update u <$> Review_findByPk s id
    else Review_findByPk s id.
Proof.
  unfold Review_findByPk. simpl. rewrite find_map_update.
  destruct (find _ (reviews s)) as [r|] eqn:Hfind;
    [|by destruct (decide (id = reviewId))].
  apply find_id_fst in Hfind. simpl.
  destruct (decide (id = reviewId)) as [Heq|Hne].
  - by rewrite bool_decide_eq_true_2 by congruence.
  - by rewrite bool_decide_eq_false_2 by congruence.
Qed.

Lemma updateReview_run (reviewId : Z) (u : ReviewUpdate) (s : db) :
  updateReview reviewId u s
  = match Review_findByPk s reviewId with
    | None => (Throw (NotFoundError "Resena no encontrada"), s)
    | Some review =>
        if match ru_rating u with
           | Some r => negb (r =? 0) && ((r <? 1) || (5 <? r))
           | None => false
           end
        then (Throw (ValidationError "El rating debe estar entre 1 y 5"), s)
        else if match ru_rating u with
                | Some r => (1 <=? r) && (r <=? 5)
                | None => true
                end
                && match ru_comment u with
                   | Some c => length_in_characters c <=? 1000
                   | None => true
                   end
        then (Ok (reviewId, apply_update u review),
              set_reviews
                (map (λ r, if bool_decide (r.1 = reviewId)
                           then (r.1, apply_update u r.2) else r)) s)
        else (Throw (PlainError "Error al actualizar resena: "
                       SequelizeValidationError), s)
    end.
Proof.
  unfold updateReview, sequelize_transaction, updateReview_body. unfold_M.
  destruct (Review_findByPk s reviewId) as [review|] eqn:Hfind; [|reflexivity].
  destruct (match ru_rating u with
            | Some r => negb (r =? 0) && ((r <? 1) || (5 <? r))
            | None => false
            end); [reflexivity|].
  unfold Review_instance_update.
  destruct (_ && _); [|reflexivity]. unfold_M.
  rewrite updateProductAverageRating_run.
  unfold getReviewById. unfold_M. rewrite Review_findByPk_updated.
  destruct (decide (reviewId = reviewId)); [|done]. by rewrite Hfind.
Qed.

(** X20. [updateReview] of an unknown review throws NotFoundError whatever
    the data.  For a stored review, a rating other than 0 outside 1..5 is
    refused with ValidationError; the rating 0 passes that test and is refused
    by the model, which the service reports as a generic Error; nothing is
    written in either case.  When the call returns, the review returned is the
    stored one with the given fields (rating, comment, is_verified_purchase)
    replaced, a rating given lies in 1..5, and every other review reads as
    before. *)
Theorem updateReview_outcome (reviewId : Z) (u : ReviewUpdate) (s : db) :
  match Review_findByPk s reviewId with
  | None =>
      updateReview reviewId u s
      = (Throw (NotFoundError "Resena no encontrada"), s)
  | Some review =>
      (∀ r, ru_rating u = Some r → r ≠ 0 → r < 1 ∨ 5 < r →
            updateReview reviewId u s
            = (Throw (ValidationError "El rating debe estar entre 1 y 5"), s))
      ∧ (ru_rating u = Some 0 →
         updateReview reviewId u s
         = (Throw (PlainError "Error al actualizar resena: "
                     SequelizeValidationError), s))
      ∧ (∀ stored s',
           updateReview reviewId u s = (Ok stored, s') →
           stored = (reviewId, apply_update u review)
           ∧ Review_findByPk s' reviewId = Some stored.2
           ∧ (∀ r, ru_rating u = Some r → 1 ≤ r ≤ 5 ∧ rating stored.2 = r)
           ∧ (∀ id, id ≠ reviewId → Review_findByPk s' id = Review_findByPk s id))
  end.
Proof.
  rewrite updateReview_run.
  destruct (Review_findByPk s reviewId) as [review|] eqn:Hfind; [|reflexivity].
  split; [|split].
  - intros r -> Hr0 Hrange.
    destruct (Z.eqb_spec r 0); [done|]. simpl.
    destruct (Z.ltb_spec r 1), (Z.ltb_spec 5 r); simpl; try reflexivity. lia.
  - intros ->. reflexivity.
  - intros stored s'.
    destruct (match ru_rating u with
              | Some r => negb (r =? 0) && ((r <? 1) || (5 <? r))
              | None => false
              end); [discriminate|].
    destruct (_ && _) eqn:Hvalid; [|discriminate].
    intros [= <- <-]. split; [reflexivity|]. split; [|split].
    + rewrite Review_findByPk_updated.
      destruct (decide (reviewId = reviewId)); [|done]. by rewrite Hfind.
    + intros r Hr. rewrite Hr in Hvalid. simpl. rewrite Hr. simpl.
      apply andb_prop in Hvalid as [Hvalid _].
      apply andb_prop in Hvalid as [H1 H5]. lia.
    + intros id Hid. rewrite Review_findByPk_updated.
      by destruct (decide (id = reviewId)).
Qed.

End ReviewUpdates.

(** ** Invariants of the reviews table *)

Section ReviewInvariants.
Import ReviewModels ReviewService.





Lemma Forall_filter_keep {A} (Q P : A → Prop) `{∀ x, Decision (P x)}
    (l : list A) :
  Forall Q l → Forall Q (filter P l).
Proof.
  induction 1 as [|x l Hx _ IH]; [constructor|].
  destruct (decide (P x)).
  - rewrite filter_cons_True by done. by constructor.
  - by rewrite filter_cons_False by done.
Qed.




End ReviewInvariants.

(** ** Review statistics *)

Section ReviewStatistics.
Import ReviewModels ReviewService.

Lemma length_filter_cons {A} (P : A → Prop) `{∀ x, Decision (P x)}
    (x : A) (l : list A) :
  Z.of_nat (length (filter P (x :: l)))
  = (if decide (P x) then 1 else 0) + Z.of_nat (length (filter P l)).
Proof.
  rewrite filter_cons. destruct (decide (P x)); simpl; lia.
Qed.

Lemma count_le_total (l : list (Z * Review)) (productId : Z)
    (cond : Review → bool) :
  0 ≤ Z.of_nat
        (length (filter (λ r : Z * Review,
                           review_product_id r.2 = productId ∧ cond r.2 = true) l))
  ≤ Z.of_nat
      (length (filter (λ r : Z * Review, review_product_id r.2 = productId) l)).
Proof.
  induction l as [|r l IH]; [simpl; lia|].
  rewrite !length_filter_cons.
  destruct (decide (review_product_id r.2 = productId ∧ cond r.2 = true))
      as [[Hp _]|_];
    destruct (decide (review_product_id r.2 = productId)); lia.
Qed.

Lemma stars_sum (l : list (Z * Review)) (productId : Z) :
  Forall (λ r : Z * Review, Review_valid r.2 = true) l →
  let stars n :=
    Z.of_nat
      (length (filter (λ r : Z * Review,
                         review_product_id r.2 = productId
                         ∧ (rating r.2 =? n) = true) l)) in
  stars 5 + stars 4 + stars 3 + stars 2 + stars 1
  = Z.of_nat
      (length (filter (λ r : Z * Review, review_product_id r.2 = productId) l)).
Proof.
  intros Hvalid. cbv zeta. induction Hvalid as [|r l Hr _ IH]; [done|].
  rewrite !length_filter_cons. rewrite <- IH.
  unfold Review_valid in Hr. repeat (apply andb_prop in Hr as [Hr ?]).
  assert (rating r.2 = 1 ∨ rating r.2 = 2 ∨ rating r.2 = 3 ∨ rating r.2 = 4
          ∨ rating r.2 = 5) as Hrating by lia.
  destruct (decide (review_product_id r.2 = productId)) as [Hp|Hp].
  - destruct Hrating as [-> |[-> |[-> |[-> | ->]]]];
      repeat (destruct (decide _) as [[_ ?]|?]; try discriminate);
      try lia; exfalso; eauto.
  - repeat (destruct (decide _) as [[? _]|?]; try done).
Qed.

Lemma ratings_sum_bounds (l : list (Z * Review)) :
  Forall (λ r : Z * Review, Review_valid r.2 = true) l →
  Z.of_nat (length l) ≤ foldr Z.add 0 (map (λ r : Z * Review, rating r.2) l)
  ≤ 5 * Z.of_nat (length l).
Proof.
  induction 1 as [|r l Hr _ IH]; [simpl; lia|].
  unfold Review_valid in Hr. repeat (apply andb_prop in Hr as [Hr ?]).
  change (length (r :: l)) with (S (length l)). simpl foldr. lia.
Qed.

Lemma rounded_percent_bounds (count total : Z) :
  0 ≤ count ≤ total → 0 < total → 0 ≤ rounded_percent count total ≤ 100.
Proof.
  intros Hcount Htotal. unfold rounded_percent. split.
  - apply Z.div_pos; lia.
  - apply Z.lt_succ_r. apply Z.div_lt_upper_bound; lia.
Qed.

(** X22. [getProductReviewStats] throws NotFoundError for an unknown
    product.  For a known one, over a reviews table that satisfies the model's
    validators, it returns without writing and its figures are consistent:
    totalReviews is the number of the product's reviews, the five star counts
    add up to it, verifiedReviews does not exceed it; without reviews the
    average is 0 and ratingDistribution is null; with reviews the average lies
    between 1.0 and 5.0 and every percentage between 0 and 100. *)
Theorem getProductReviewStats_consistent (productId : Z) (s : db) :
  reviews_valid s →
  match products s !! productId with
  | None =>
      getProductReviewStats productId s
      = (Throw (NotFoundError "Producto no encontrado"), s)
  | Some _ =>
      ∃ stats,
        getProductReviewStats productId s = (Ok stats, s)
        ∧ stats_totalReviews stats
          = Z.of_nat (length (filter (λ r, review_product_id r.2 = productId)
                                (reviews s)))
        ∧ fiveStar stats + fourStar stats + threeStar stats + twoStar stats
          + oneStar stats = stats_totalReviews stats
        ∧ 0 ≤ verifiedReviews stats ≤ stats_totalReviews stats
        ∧ (stats_totalReviews stats = 0 →
           stats_averageRating stats = 0 ∧ ratingDistribution stats = None)
        ∧ (0 < stats_totalReviews stats →
           10 ≤ stats_averageRating stats ≤ 50
           ∧ ∃ p5 p4 p3 p2 p1,
               ratingDistribution stats = Some (p5, p4, p3, p2, p1)
               ∧ 0 ≤ p5 ≤ 100 ∧ 0 ≤ p4 ≤ 100 ∧ 0 ≤ p3 ≤ 100
               ∧ 0 ≤ p2 ≤ 100 ∧ 0 ≤ p1 ≤ 100)
  end.
Proof.
  intros Hvalid. unfold getProductReviewStats. unfold_M.
  destruct (products s !! productId) as [product|] eqn:Hprod; [|reflexivity].
  simpl. eexists. split; [reflexivity|]. cbn [stats_totalReviews fiveStar fourStar
    threeStar twoStar oneStar verifiedReviews stats_averageRating ratingDistribution].
  unfold Review_stats, count_reviews. cbn [totalReviews averageRating].
  rewrite length_map.
  set (mine := filter (λ r : Z * Review, review_product_id r.2 = productId)
                 (reviews s)).
  set (total := Z.of_nat (length mine)).
  assert (Forall (λ r : Z * Review, Review_valid r.2 = true) mine) as Hmine
    by (by apply Forall_filter_keep).
  pose proof (ratings_sum_bounds mine Hmine) as Hsum. fold total in Hsum.
  split; [reflexivity|]. split; [exact (stars_sum (reviews s) productId Hvalid)|].
  split; [exact (count_le_total (reviews s) productId is_verified_purchase)|].
  split.
  - intros Hzero. rewrite Hzero. done.
  - intros Hpos. destruct (Z.eqb_spec total 0) as [|_]; [lia|].
    destruct (Z.ltb_spec 0 total) as [_|]; [|lia]. split.
    + unfold rounded_tenths. split.
      * apply Z.div_le_lower_bound; lia.
      * apply Z.lt_succ_r. apply Z.div_lt_upper_bound; lia.
    + eexists _, _, _, _, _. split; [reflexivity|].
      assert (∀ n, 0 ≤ rounded_percent
                        (Z.of_nat
                           (length
                              (filter (λ r : Z * Review,
                                         review_product_id r.2 = productId
                                         ∧ (rating r.2 =? n) = true)
                                 (reviews s)))) total ≤ 100) as Hpercent.
      { intros n. apply rounded_percent_bounds; [|exact Hpos].
        apply (count_le_total (reviews s) productId (λ r, rating r =? n)). }
      do 4 (split; [apply Hpercent|]). apply Hpercent.
Qed.

Lemma getProductReviewStats_consistent_witness :
  ∃ stats,
    getProductReviewStats 1 shop_reviewed = (Ok stats, shop_reviewed)
    ∧ stats_totalReviews stats = 1
    ∧ stats_averageRating stats = 30
    ∧ ratingDistribution stats = Some (0, 0, 100, 0, 0).
Proof.
  pose proof (getProductReviewStats_consistent 1 shop_reviewed) as H.
  change (products shop_reviewed !! 1)
    with (Some (mkProduct "Teclado mecanico" 1000)) in H.
  destruct H as (stats & Hrun & _).
  - repeat constructor.
  - exists stats. split; [exact Hrun|].
    vm_compute in Hrun. injection Hrun as <-. by vm_compute.
Defined.

End ReviewStatistics.

(** ** The order handlers *)

Section OrderHandlers.
Import OrderService.

Lemma createOrder_without_items (orderData : OrderData) (s : db) :
  createOrder orderData None s
  = if bool_decide (od_user_id orderData ∉ users s)
    then (Throw (NotFoundError "Usuario no encontrado"), s)
    else (Throw (ValidationError "El pedido debe contener al menos un item"), s).
Proof.
  unfold createOrder, createOrder_body, sequelize_transaction. unfold_M.
  by destruct (bool_decide _).
Qed.

(** X23. [OrderController.createOrder] hands the items to the service
    inside orderData and not as the second argument the service reads, so no
    request creates an order: the database is left as it was and the answer is
    never 201.  A malformed body and a well-formed body of a known user are
    answered 400; a well-formed body of an unknown user is answered 500, the
    handler having no branch for NotFoundError. *)
Theorem controller_createOrder_never_creates (body : OrderController.RequestBody)
    (s : db) :
  ∃ response,
    OrderController.createOrder body s = (response, s)
    ∧ OrderController.success response = false
    ∧ OrderController.response_data response = None
    ∧ (OrderController.http_status response = 400
       ∨ OrderController.http_status response = 500)
    ∧ (OrderController.rb_user_id body ∈ users s →
       OrderController.http_status response = 400)
    ∧ (∀ items,
         OrderController.rb_user_id body ∉ users s →
         OrderController.rb_user_id body ≠ 0 →
         OrderController.rb_items body = Some items → items ≠ [] →
         existsb OrderController.item_invalid items = false →
         response = OrderController.mkResponse 500 false
                      (Some "Error interno del servidor") None).
Proof.
  unfold OrderController.createOrder. cbv zeta. unfold_M.
  destruct (Z.eqb_spec (OrderController.rb_user_id body) 0) as [Hzero|Hnonzero];
    simpl.
  { eexists. split; [reflexivity|]. simpl. repeat split; eauto. congruence. }
  destruct (OrderController.rb_items body) as [[|item items]|] eqn:Hitems.
  - eexists. split; [reflexivity|]. simpl. repeat split; eauto.
    intros items' _ _ [= <-]. done.
  - change (default [] (Some (item :: items))) with (item :: items).
    destruct (existsb OrderController.item_invalid (item :: items)) eqn:Hinvalid.
    + eexists. split; [reflexivity|]. simpl. repeat split; eauto.
      intros items' _ _ [= <-] _. congruence.
    + cbn [orb]. unfold ret. cbv beta iota. rewrite createOrder_without_items.
      cbn [od_user_id].
      destruct (bool_decide (OrderController.rb_user_id body ∉ users s)) eqn:Huser.
      * eexists. split; [reflexivity|]. simpl. repeat split; eauto.
        intros Hin. by apply bool_decide_eq_true in Huser.
      * eexists. split; [reflexivity|]. simpl. repeat split; eauto.
        intros items' Hnotin. by apply bool_decide_eq_false in Huser.
  - eexists. split; [reflexivity|]. simpl. repeat split; eauto. discriminate.
Qed.

Lemma updateOrderStatus_invalid_status (orderId : Z) (newStatus : string)
    (s : db) (order : Order) :
  orders s !! orderId = Some order →
  parse_status newStatus = None →
  updateOrderStatus orderId newStatus s
  = (Throw (ValidationError "Estado de pedido invalido"), s).
Proof.
  intros Horder Hparse.
  unfold updateOrderStatus, sequelize_transaction. unfold_M.
  by rewrite Horder, Hparse.
Qed.

(** X24. The cancellation handler answers 400 to an id that is not a
    number, 404 to an unknown order, 400 to a delivered order and, having no
    branch for ConflictError, 500 to an order already cancelled; the database
    is unchanged in each case.  When it answers 200 the order is stored as
    cancelled with payment_status refunded. *)
Theorem controller_cancelOrder_answers (id : option Z) (s : db) :
  match id with
  | None =>
      OrderController.cancelOrder id s
      = (OrderController.mkResponse 400 false (Some "ID de pedido invalido") None, s)
  | Some orderId =>
      match orders s !! orderId with
      | None =>
          OrderController.cancelOrder id s
          = (OrderController.mkResponse 404 false (Some "Pedido no encontrado") None,
             s)
      | Some order =>
          (status order = delivered →
           OrderController.cancelOrder id s
           = (OrderController.mkResponse 400 false
                (Some "No se puede cancelar un pedido ya entregado") None, s))
          ∧ (status order = cancelled →
             OrderController.cancelOrder id s
             = (OrderController.mkResponse 500 false
                  (Some "Error interno del servidor") None, s))
          ∧ (∀ response s',
               OrderController.cancelOrder id s = (response, s') →
               OrderController.http_status response = 200 →
               status order ≠ delivered ∧ status order ≠ cancelled
               ∧ orders s' !! orderId
                 = Some (OrderModels.set_status_and_payment cancelled refunded order))
      end
  end.
Proof.
  destruct id as [orderId|]; [|reflexivity].
  unfold OrderController.cancelOrder. unfold_M. simpl.
  destruct (orders s !! orderId) as [order|] eqn:Horder.
  - rewrite (cancelOrder_run_eq _ _ _ Horder). split; [|split].
    + intros ->. by destruct (status_eqb delivered cancelled) eqn:E.
    + by intros ->.
    + intros response s'.
      destruct (status order) eqn:Hstatus; simpl; try (intros [= <- <-]; discriminate).
      all: destruct (releaseOrderStock orderId s) as [[[]|e] sr] eqn:Hrel; simpl.
      all: try (destruct e; simpl; intros [= <- <-]; discriminate).
      all: intros [= <- <-] _; split; [done|]; split; [done|].
      all: apply releaseOrderStock_tables in Hrel as [Horders _]; simpl.
      all: rewrite lookup_alter_eq, Horders, Horder; reflexivity.
  - by rewrite (proj2 (unknown_order_rejected orderId "" s Horder)).
Qed.

(** X25. The status handler accepts 'processing', which the service does
    not know: for an existing order the request is answered 400 with the
    service's message, for an unknown one 404.  A missing status, a status
    outside the handler's six and an id that is not a number are answered 400
    before the service is called.  Nothing is written in these cases, and an
    answer 200 means that the order is stored with the requested status, one
    of the service's five. *)
Theorem controller_updateOrderStatus_answers (id : option Z) (status_ : string)
    (s : db) :
  (id = None →
   OrderController.updateOrderStatus id status_ s
   = (OrderController.mkResponse 400 false (Some "ID de pedido invalido") None, s))
  ∧ (∀ orderId, id = Some orderId → status_ ∉ OrderController.validStatuses →
       ∃ message,
         OrderController.updateOrderStatus id status_ s
         = (OrderController.mkResponse 400 false (Some message) None, s)
         ∧ (message = "Estado es requerido" ∨ message = "Estado invalido"))
  ∧ (∀ orderId, id = Some orderId → status_ = "processing" →
       OrderController.updateOrderStatus id status_ s
       = match orders s !! orderId with
         | Some _ =>
             (OrderController.mkResponse 400 false
                (Some "Estado de pedido invalido") None, s)
         | None =>
             (OrderController.mkResponse 404 false
                (Some "Pedido no encontrado") None, s)
         end)
  ∧ (∀ response s',
       OrderController.updateOrderStatus id status_ s = (response, s') →
       OrderController.http_status response = 200 →
       ∃ orderId order st,
         id = Some orderId ∧ parse_status status_ = Some st
         ∧ orders s !! orderId = Some order
         ∧ orders s' !! orderId = Some (OrderModels.set_status st order)).
Proof.
  unfold OrderController.updateOrderStatus. unfold_M.
  split; [by intros ->|]. split; [|split].
  - intros orderId -> Hnot. simpl.
    destruct (String.eqb status_ ""); simpl; [eauto|].
    rewrite bool_decide_eq_false_2 by done. simpl. eauto.
  - intros orderId -> ->. simpl.
    destruct (orders s !! orderId) as [order|] eqn:Horder.
    + by rewrite (updateOrderStatus_invalid_status _ _ _ _ Horder).
    + by rewrite (proj1 (unknown_order_rejected orderId "processing" s Horder)).
  - intros response s'. destruct id as [orderId|]; simpl;
      [|intros [= <- <-]; discriminate].
    destruct (String.eqb status_ ""); simpl; [intros [= <- <-]; discriminate|].
    destruct (bool_decide (status_ ∈ OrderController.validStatuses)); simpl;
      [|intros [= <- <-]; discriminate].
    destruct (updateOrderStatus orderId status_ s) as [[view|e] s1] eqn:Hrun; simpl.
    + intros [= <- <-] _.
      destruct (orders s !! orderId) as [order|] eqn:Horder.
      * destruct (updateOrderStatus_ok _ _ _ _ _ _ Horder Hrun)
          as (st & Hparse & _ & Hstored).
        eauto 10.
      * rewrite (proj1 (unknown_order_rejected orderId status_ s Horder)) in Hrun.
        discriminate.
    + destruct e; simpl; intros [= <- <-]; discriminate.
Qed.

End OrderHandlers.

(** ** The write paths of the inventory, compared *)

Section StockPaths.
Import InventoryService OrderService.

Lemma updateStock_add_run (p q : Z) (s : db) (inv : Inventory) :
  inventory s !! p = Some inv →
  updateStock p q "add" s
  = if 0 <=? quantity inv + q
    then (Ok (set_quantity (quantity inv + q) inv),
          set_inventory (insert p (set_quantity (quantity inv + q) inv)) s)
    else (Throw (PlainError "Error al actualizar stock: " SequelizeValidationError), s).
Proof.
  intros Hinv. unfold updateStock. unfold_M. rewrite Hinv. simpl.
  rewrite Inventory_instance_update_post.
  destruct (0 <=? quantity inv + q); [|reflexivity]. simpl.
  unfold getInventoryByProductId. unfold_M. simpl. by rewrite lookup_insert_eq.
Qed.

Lemma updateStock_subtract_run (p q : Z) (s : db) (inv : Inventory) :
  inventory s !! p = Some inv →
  updateStock p q "subtract" s
  = if quantity inv - q <? 0
    then (Throw (BusinessLogicError "No hay suficiente stock disponible"), s)
    else (Ok (set_quantity (quantity inv - q) inv),
          set_inventory (insert p (set_quantity (quantity inv - q) inv)) s).
Proof.
  intros Hinv. unfold updateStock. unfold_M. rewrite Hinv. simpl.
  destruct (Z.ltb_spec (quantity inv - q) 0); [reflexivity|]. simpl.
  rewrite Inventory_instance_update_post.
  destruct (Z.leb_spec 0 (quantity inv - q)); [|lia]. simpl.
  unfold getInventoryByProductId. unfold_M. simpl. by rewrite lookup_insert_eq.
Qed.

Lemma processInventoryAdjustment_run (p q : Z) (reason : string) (s : db)
    (inv : Inventory) :
  inventory s !! p = Some inv →
  processInventoryAdjustment p q reason s
  = if quantity inv + q <? 0
    then (Throw (BusinessLogicError "El ajuste resultaria en stock negativo"), s)
    else (Ok (set_quantity (quantity inv + q) inv),
          set_inventory (insert p (set_quantity (quantity inv + q) inv)) s).
Proof.
  intros Hinv. unfold processInventoryAdjustment. unfold_M. rewrite Hinv. simpl.
  destruct (Z.ltb_spec (quantity inv + q) 0); [reflexivity|]. simpl.
  rewrite Inventory_instance_update_post.
  destruct (Z.leb_spec 0 (quantity inv + q)); [|lia]. simpl.
  unfold getInventoryByProductId. unfold_M. simpl. by rewrite lookup_insert_eq.
Qed.

Lemma no_row_no_write (p q : Z) (operation reason : string) (s : db) :
  inventory s !! p = None →
  updateStock p q operation s
  = (Throw (NotFoundError "Inventario no encontrado para este producto"), s)
  ∧ reserveStock p q s
    = (Throw (NotFoundError "Inventario no encontrado para este producto"), s)
  ∧ releaseStock p q s
    = (Throw (NotFoundError "Inventario no encontrado para este producto"), s)
  ∧ processInventoryAdjustment p q reason s
    = (Throw (NotFoundError "Inventario no encontrado para este producto"), s).
Proof.
  intros Hnone.
  unfold updateStock, reserveStock, releaseStock, processInventoryAdjustment.
  unfold_M. by rewrite Hnone.
Qed.

(** X26. The write paths of the inventory service agree when they return:
    [updateStock(p, q, 'subtract')] and [reserveStock(p, q)] return in the
    same cases, with the same row and the same database, and so do
    [updateStock(p, q, 'add')], [releaseStock(p, q)] and
    [processInventoryAdjustment(p, q, reason)].  They differ in how they
    fail: an addition that would leave a negative quantity is a
    BusinessLogicError for [processInventoryAdjustment] and a generic Error
    for the other two; none of them writes. *)
Theorem stock_paths_agree (p q : Z) (reason : string) (s s' : db) (r : Inventory) :
  (updateStock p q "subtract" s = (Ok r, s') ↔ reserveStock p q s = (Ok r, s'))
  ∧ (updateStock p q "add" s = (Ok r, s') ↔ releaseStock p q s = (Ok r, s'))
  ∧ (updateStock p q "add" s = (Ok r, s')
     ↔ processInventoryAdjustment p q reason s = (Ok r, s'))
  ∧ (∀ inv, inventory s !! p = Some inv → quantity inv + q < 0 →
       processInventoryAdjustment p q reason s
       = (Throw (BusinessLogicError "El ajuste resultaria en stock negativo"), s)
       ∧ updateStock p q "add" s
         = (Throw (PlainError "Error al actualizar stock: "
                     SequelizeValidationError), s)
       ∧ releaseStock p q s
         = (Throw (PlainError "Error al liberar stock: "
                     SequelizeValidationError), s)).
Proof.
  destruct (inventory s !! p) as [inv|] eqn:Hinv.
  - rewrite (updateStock_subtract_run _ _ _ _ Hinv), (updateStock_add_run _ _ _ _ Hinv),
      (reserveStock_run _ _ _ _ Hinv), (releaseStock_run _ _ _ _ Hinv),
      (processInventoryAdjustment_run _ _ _ _ _ Hinv).
    split; [|split; [|split]].
    + destruct (Z.ltb_spec (quantity inv - q) 0), (Z.ltb_spec (quantity inv) q);
        try lia; [done|].
      by destruct (Z.leb_spec 0 (quantity inv - q)); [|lia].
    + by destruct (0 <=? quantity inv + q).
    + destruct (Z.leb_spec 0 (quantity inv + q)), (Z.ltb_spec (quantity inv + q) 0);
        try lia; done.
    + intros inv' [= <-] Hneg.
      destruct (Z.leb_spec 0 (quantity inv + q)), (Z.ltb_spec (quantity inv + q) 0);
        try lia; done.
  - destruct (no_row_no_write p q "subtract" reason s Hinv) as (-> & -> & -> & ->).
    destruct (no_row_no_write p q "add" reason s Hinv) as (-> & _).
    repeat split; try done.
Qed.

(** X27. The predicates of the Inventory model foretell the service:
    [hasStock(q)] is true exactly when [reserveStock] of q units returns, and
    on a row whose quantity is >= 0 the status is other than 'agotado' exactly
    when one unit can be reserved; the status 'disponible' is only given to a
    quantity above min_stock. *)
Theorem hasStock_predicts_reserveStock (p q : Z) (s : db) (inv : Inventory) :
  inventory s !! p = Some inv →
  (Models.hasStock inv q = true ↔ ∃ r s', reserveStock p q s = (Ok r, s'))
  ∧ (0 ≤ quantity inv →
     (Models.getStockStatus inv ≠ "agotado"
      ↔ ∃ r s', reserveStock p 1 s = (Ok r, s')))
  ∧ (Models.getStockStatus inv = "disponible" → min_stock inv < quantity inv).
Proof.
  intros Hinv. rewrite !(reserveStock_run _ _ _ _ Hinv).
  unfold Models.hasStock, Models.getStockStatus, Models.isOutOfStock,
    Models.isLowStock.
  split; [|split].
  - destruct (Z.leb_spec q (quantity inv)), (Z.ltb_spec (quantity inv) q); try lia.
    + destruct (Z.leb_spec 0 (quantity inv - q)); [|lia]. split; eauto.
    + split; [done|]. by intros (r & s' & [=]).
  - intros Hq. destruct (Z.eqb_spec (quantity inv) 0) as [Hzero|Hnonzero].
    + destruct (Z.ltb_spec (quantity inv) 1); [|lia].
      split; [done|]. by intros (r & s' & [=]).
    + destruct (Z.ltb_spec (quantity inv) 1); [lia|].
      destruct (Z.leb_spec 0 (quantity inv - 1)); [|lia].
      split; [eauto|]. intros _. by destruct (quantity inv <=? min_stock inv).
  - destruct (quantity inv =? 0); [discriminate|].
    destruct (Z.leb_spec (quantity inv) (min_stock inv)); [discriminate|]. lia.
Qed.

Lemma hasStock_predicts_reserveStock_witness :
  Models.hasStock (mkInventory 5 5 100) 5 = true
  ∧ (∃ r s', reserveStock 1 5 shop = (Ok r, s'))
  ∧ Models.getStockStatus (mkInventory 5 5 100) = "bajo"
  ∧ ∃ r s', reserveStock 1 1 shop = (Ok r, s').
Proof.
  destruct (hasStock_predicts_reserveStock 1 5 shop (mkInventory 5 5 100) eq_refl)
    as (Hhas & Hstatus & _).
  split; [reflexivity|]. split; [by apply Hhas|]. split; [reflexivity|].
  apply Hstatus; [simpl; lia|]. by vm_compute.
Defined.

(** X28. For an order whose lines and stock are in range, [cancelOrder]
    returns exactly for the orders that [Order.prototype.canBeCancelled]
    allows (pending, confirmed) and for shipped orders, which canBeCancelled
    refuses: the service only turns away cancelled and delivered orders. *)
Theorem cancelOrder_wider_than_canBeCancelled (orderId : Z) (s : db)
    (order : Order) :
  orders s !! orderId = Some order →
  Forall (λ row, 0 ≤ item_quantity row) (OrderModels.OrderItem_findAll s orderId) →
  (∀ row, row ∈ OrderModels.OrderItem_findAll s orderId →
     ∀ inv, inventory s !! item_product_id row = Some inv → 0 ≤ quantity inv) →
  (OrderModels.canBeCancelled order = true ∨ status order = shipped)
  ↔ ∃ view s', cancelOrder orderId s = (Ok view, s')
               ∧ status (view_order view) = cancelled.
Proof.
  intros Horder Hrows Hstock. split.
  - intros Hallowed.
    rewrite (cancelOrder_run _ _ _ Horder); [eauto| | |exact Hrows|exact Hstock].
    + destruct Hallowed as [Hcan| ->]; [|done].
      unfold OrderModels.canBeCancelled in Hcan. by destruct (status order).
    + destruct Hallowed as [Hcan| ->]; [|done].
      unfold OrderModels.canBeCancelled in Hcan. by destruct (status order).
  - intros (view & s' & Hrun & _).
    rewrite (cancelOrder_run_eq _ _ _ Horder) in Hrun.
    unfold OrderModels.canBeCancelled.
    destruct (status order); simpl in Hrun; try discriminate; eauto.
Qed.

Lemma cancelOrder_wider_than_canBeCancelled_witness :
  let s := (updateOrderStatus 1 "shipped" shop_with_order).2 in
  ∃ order,
    orders s !! 1 = Some order
    ∧ OrderModels.canBeCancelled order = false
    ∧ ∃ view s', cancelOrder 1 s = (Ok view, s')
                 ∧ status (view_order view) = cancelled.
Proof.
  cbv zeta.
  destruct (orders (updateOrderStatus 1 "shipped" shop_with_order).2 !! 1)
    as [order|] eqn:Horder; [|by vm_compute in Horder].
  exists order. split; [reflexivity|]. split.
  - vm_compute in Horder. by injection Horder as <-.
  - apply (cancelOrder_wider_than_canBeCancelled 1 _ order Horder).
    + vm_compute. repeat constructor; discriminate.
    + intros row Hrow inv Hinv. vm_compute in Hrow.
      apply elem_of_cons in Hrow as [->|Hrow]; [|by apply elem_of_nil in Hrow].
      vm_compute in Hinv. injection Hinv as <-. simpl. lia.
    + right. vm_compute in Horder. by injection Horder as <-.
Defined.

End StockPaths.

